(** * AGBD: the Lightning wrapper [Model] of [Models/wrapper.py]

    A shallow embedding of the validation dispatcher ([validation_step]),
    the epoch-end reducer ([on_validation_epoch_end]) and the constructor
    of the class [Model], with the properties of the accumulators, the
    binned evaluator and the best-validation watermark.

    Scalars are IEEE-754 values ([spec_float] of the standard library, with
    its comparison [SFcompare], which is how torch compares: every
    comparison with a NaN is false).  1-D tensors are lists of scalars.
    The network, the learning-rate scheduler, [loss.RMSE] and
    [loss.TrainLoss] are not part of [wrapper.py]; they are parameters of
    the development. *)

From Stdlib Require Import ZArith List Bool String Ascii Lia Permutation.
From Stdlib Require Import Floats.SpecFloat.
From Stdlib Require Import DecimalString.
Import ListNotations.
Local Open Scope string_scope.
Local Open Scope list_scope.
Local Open Scope Z_scope.

(** * Definitions *)

(** ** Scalars *)

Module Float.

(** A torch/numpy scalar. *)
Definition float := spec_float.

(** [np.inf]. *)
Definition inf : float := S754_infinity false.

Definition nan : float := S754_nan.

(** Tensors are of torch's default dtype, float32. *)
Definition prec : Z := 24.

Definition emax : Z := 128.

(** The conversion of an integer scalar to the dtype of the tensor it is
    compared with (exact below [2^24]). *)
Definition of_Z (z : Z) : float := binary_normalize prec emax z 0 false.

(** [a < b] and [a <= b] on scalars. *)
Definition ltb (a b : float) : bool := SFltb a b.

Definition leb (a b : float) : bool := SFleb a b.

Definition is_nan (a : float) : bool :=
  match a with S754_nan => true | _ => false end.

End Float.

Import Float.

(** ** Exceptions; the state-and-exception monad

    A Python method mutates [self] and may raise; what it has assigned before
    raising stays assigned.  A computation is a function from the object to
    an outcome and the object afterwards. *)

Inductive exn : Type :=
| ValueError (msg : string)
| IndexError
| RuntimeError.

Inductive result (A : Type) : Type :=
| Ok (a : A)
| Raise (e : exn).

Arguments Ok {A} a.
Arguments Raise {A} e.

Definition is_ok {A} (r : result A) : bool :=
  match r with Ok _ => true | Raise _ => false end.

Module StateExn.

Definition M (S A : Type) : Type := S -> result A * S.

Definition ret {S A} (a : A) : M S A := fun s => (Ok a, s).

Definition bind {S A B} (m : M S A) (k : A -> M S B) : M S B :=
  fun s =>
    match m s with
    | (Ok a, s') => k a s'
    | (Raise e, s') => (Raise e, s')
    end.

Definition get {S} : M S S := fun s => (Ok s, s).

Definition modify {S} (f : S -> S) : M S unit := fun s => (Ok tt, f s).

Definition raise {S A} (e : exn) : M S A := fun s => (Raise e, s).

(** A pure computation that may raise, run inside a method. *)
Definition lift {S A} (r : result A) : M S A := fun s => (r, s).

(** [for x in l: body x]. *)
Fixpoint for_each {S A} (l : list A) (body : A -> M S unit) : M S unit :=
  match l with
  | [] => ret tt
  | x :: l' => bind (body x) (fun _ => for_each l' body)
  end.

End StateExn.

Import StateExn.

Notation "x <- m ;; k" := (bind m (fun x => k))
  (at level 61, m at next level, right associativity).
Notation "m ;; k" := (bind m (fun _ => k))
  (at level 61, right associativity).

(** ** Tensors *)

(** A 1-D tensor. *)
Definition tensor1 : Type := list float.

(** A 2-D tensor of shape [[length rows, ncols]]. *)
Record tensor2 : Type := mkTensor2 {
  ncols : nat;
  rows : list (list float)
}.

(** A 4-D tensor of shape [[dimB, dimC, dimH, dimW]]. *)
Record tensor4 : Type := mkTensor4 {
  dimB : nat;
  dimC : nat;
  dimH : nat;
  dimW : nat;
  at4 : nat -> nat -> nat -> nat -> float
}.

(** An integer index into a dimension of size [n]: negative indices count
    from the end, anything outside [[-n, n)] is an [IndexError]. *)
Definition py_index (i : Z) (n : nat) : result nat :=
  if (0 <=? i) && (i <? Z.of_nat n) then Ok (Z.to_nat i)
  else if (- Z.of_nat n <=? i) && (i <? 0) then Ok (Z.to_nat (i + Z.of_nat n))
  else Raise IndexError.

(** [l[i]] on a Python list. *)
Definition py_getitem {A} (l : list A) (i : Z) : result A :=
  match py_index i (List.length l) with
  | Ok n =>
      match nth_error l n with Some a => Ok a | None => Raise IndexError end
  | Raise e => Raise e
  end.

(** [t[:, :, i, j]]. *)
Definition slice_hw (t : tensor4) (i j : Z) : result tensor2 :=
  match py_index i (dimH t), py_index j (dimW t) with
  | Ok h, Ok w =>
      Ok (mkTensor2 (dimC t)
            (map (fun b => map (fun c => at4 t b c h w) (seq 0 (dimC t)))
                 (seq 0 (dimB t))))
  | Raise e, _ => Raise e
  | _, Raise e => Raise e
  end.

(** [t[:, 0]]. *)
Definition column0 (t : tensor2) : result tensor1 :=
  match ncols t with
  | O => Raise IndexError
  | S _ => Ok (map (fun r => hd nan r) (rows t))
  end.

(** [t.unsqueeze(1)]. *)
Definition unsqueeze1 (t : tensor1) : tensor2 :=
  mkTensor2 1 (map (fun x => [x]) t).

(** [torch.cat(l)] of 1-D tensors: an empty list is a [RuntimeError]. *)
Definition torch_cat (l : list tensor1) : result tensor1 :=
  match l with
  | [] => Raise RuntimeError
  | _ :: _ => Ok (List.concat l)
  end.

(** The entries of [xs] where the boolean mask is true. *)
Fixpoint masked {A} (mask : list bool) (xs : list A) : list A :=
  match mask, xs with
  | b :: mask', x :: xs' =>
      if b then x :: masked mask' xs' else masked mask' xs'
  | _, _ => []
  end.

(** [t[mask]] with a 1-D boolean mask: the mask must have the size of the
    first dimension, or it is an [IndexError]. *)
Definition index_mask {A} (xs : list A) (mask : list bool) : result (list A) :=
  if Nat.eqb (List.length mask) (List.length xs) then Ok (masked mask xs)
  else Raise IndexError.

Definition index_mask2 (t : tensor2) (mask : list bool) : result tensor2 :=
  match index_mask (rows t) mask with
  | Ok r => Ok (mkTensor2 (ncols t) r)
  | Raise e => Raise e
  end.

(** [np.arange(start, stop, step)] for a positive [step]. *)
Definition arange (start stop step : Z) : list Z :=
  map (fun i => start + Z.of_nat i * step)
      (seq 0 (Z.to_nat ((stop - start + step - 1) / step))).

(** [zip(bins[:-1], bins[1:])]. *)
Definition bin_pairs (bins : list Z) : list (Z * Z) :=
  combine (removelast bins) (tl bins).

(** [str(z)] of an integer. *)
Definition str (z : Z) : string := NilZero.string_of_int (Z.to_int z).

(** [lb <= x < ub] for one label; [(lb <= labels) & (labels < ub)] for a
    tensor of labels. *)
Definition in_bin (lb ub : Z) (x : float) : bool :=
  leb (of_Z lb) x && ltb x (of_Z ub).

Definition bin_mask (lb ub : Z) (labels : tensor1) : list bool :=
  map (in_bin lb ub) labels.

(** ** The metric sink *)

(** What [self.log_dict] receives: a dictionary from names to scalars. *)
Inductive scalar : Type :=
| SFloat (x : float)
| SInt (z : Z).

Definition dict : Type := list (string * scalar).

(** [d.get(key)]. *)
Fixpoint dict_get (d : dict) (key : string) : option scalar :=
  match d with
  | [] => None
  | (k, v) :: d' => if String.eqb k key then Some v else dict_get d' key
  end.

(** ** The class [Model] *)

(** The attributes of a [Model] object that [wrapper.py] assigns, and
    [logged], the calls the metric sink has received from [self.log_dict],
    oldest first.  ([self.model] is the parameter [model] below;
    [self.TrainLoss] is only used by [training_step].) *)
Record Model : Type := mkModel {
  num_outputs : Z;
  lr : float;
  step_size : Z;
  gamma : float;
  best_val_rmse : float;
  center : Z;
  loss_fn : string;
  preds : list tensor1;
  val_preds : list tensor1;
  test_preds : list tensor1;
  labels : list tensor1;
  val_labels : list tensor1;
  test_labels : list tensor1;
  logged : list dict
}.

Definition set_best_val_rmse (v : float) (s : Model) : Model :=
  mkModel (num_outputs s) (lr s) (step_size s) (gamma s) v (center s)
    (loss_fn s) (preds s) (val_preds s) (test_preds s) (labels s)
    (val_labels s) (test_labels s) (logged s).

Definition set_val_preds (v : list tensor1) (s : Model) : Model :=
  mkModel (num_outputs s) (lr s) (step_size s) (gamma s) (best_val_rmse s)
    (center s) (loss_fn s) (preds s) v (test_preds s) (labels s)
    (val_labels s) (test_labels s) (logged s).

Definition set_val_labels (v : list tensor1) (s : Model) : Model :=
  mkModel (num_outputs s) (lr s) (step_size s) (gamma s) (best_val_rmse s)
    (center s) (loss_fn s) (preds s) (val_preds s) (test_preds s) (labels s)
    v (test_labels s) (logged s).

Definition set_test_preds (v : list tensor1) (s : Model) : Model :=
  mkModel (num_outputs s) (lr s) (step_size s) (gamma s) (best_val_rmse s)
    (center s) (loss_fn s) (preds s) (val_preds s) v (labels s)
    (val_labels s) (test_labels s) (logged s).

Definition set_test_labels (v : list tensor1) (s : Model) : Model :=
  mkModel (num_outputs s) (lr s) (step_size s) (gamma s) (best_val_rmse s)
    (center s) (loss_fn s) (preds s) (val_preds s) (test_preds s) (labels s)
    (val_labels s) v (logged s).

Definition set_logged (v : list dict) (s : Model) : Model :=
  mkModel (num_outputs s) (lr s) (step_size s) (gamma s) (best_val_rmse s)
    (center s) (loss_fn s) (preds s) (val_preds s) (test_preds s) (labels s)
    (val_labels s) (test_labels s) v.

(** [self.log_dict(d)]. *)
Definition log_dict (d : dict) : M Model unit :=
  modify (fun s => set_logged (logged s ++ [d]) s).

(** [dataloader_idx == k], where [dataloader_idx] is [None] or an integer. *)
Definition idx_eqb (dataloader_idx : option Z) (k : option Z) : bool :=
  match dataloader_idx, k with
  | None, None => true
  | Some i, Some j => i =? j
  | _, _ => false
  end.

(** [Model.__init__], lines 21-52.  [model_num_outputs] is
    [model.num_outputs]. *)
Definition __init__ (model_num_outputs : Z) (lr : float) (step_size : Z)
    (gamma : float) (patch_size : list Z) (downsample : bool)
    (loss_fn : string) : result Model :=
  let best_val_rmse := inf in
  match
    (if downsample
     then match py_getitem patch_size 0 with
          | Ok p => Ok ((p / 5) / 2)
          | Raise e => Raise e
          end
     else match py_getitem patch_size 0 with
          | Ok p => Ok (p / 2)
          | Raise e => Raise e
          end)
  with
  | Ok center =>
      Ok (mkModel model_num_outputs lr step_size gamma best_val_rmse center
            loss_fn [] [] [] [] [] [] [])
  | Raise e => Raise e
  end.

Section Wrapper.

(** A batch of images, and the network: a batch of images to a prediction
    map of shape [[batch, num_outputs, height, width]]. *)
Variable images : Type.
Variable model : images -> tensor4.

(** [loss.RMSE()(prediction, target)], with [prediction] of shape [[N, 1]]
    and [target] of shape [[N]]; [loss.py] is not among the sources, and the
    metric is taken as a function that returns a scalar. *)
Variable RMSE : tensor2 -> tensor1 -> float.

(** A batch: [(images, labels)]. *)
Definition batch : Type := (images * tensor1)%type.

(** [Model.validation_step], lines 74-104.  ([.detach().cpu()] moves a
    tensor and leaves its values.) *)
Definition validation_step (b : batch) (batch_idx : Z)
    (dataloader_idx : option Z) : M Model unit :=
  if idx_eqb dataloader_idx None || idx_eqb dataloader_idx (Some 0) then
    let '(images, labels) := b in
    self <- get ;;
    predictions <- lift (slice_hw (model images) (center self) (center self)) ;;
    predictions0 <- lift (column0 predictions) ;;
    modify (fun s => set_val_preds (val_preds s ++ [predictions0]) s) ;;
    modify (fun s => set_val_labels (val_labels s ++ [labels]) s)
  else if idx_eqb dataloader_idx (Some 1) then
    let '(images, labels) := b in
    self <- get ;;
    predictions <- lift (slice_hw (model images) (center self) (center self)) ;;
    predictions0 <- lift (column0 predictions) ;;
    modify (fun s => set_test_preds (test_preds s ++ [predictions0]) s) ;;
    modify (fun s => set_test_labels (test_labels s ++ [labels]) s)
  else raise (ValueError "dataloader_idx should be 0 or 1").

(** The loop over the bins, which the source has three times (lines 124-130,
    145-151 and 165-171) with the metric name as the only difference:
    [prefix] is ["val/binned/rmse_"], ["test/binned/rmse_"] or
    ["test/binned/best_rmse_"]. *)
Definition bin_name (prefix : string) (lb ub : Z) : string :=
  String.append prefix (String.append (str lb) (String.append "-" (str ub))).

Definition binned_rmse (prefix : string) (preds : tensor2) (labels : tensor1)
    (current_epoch : Z) : M Model unit :=
  let bins := arange 0 501 50 in
  for_each (bin_pairs bins) (fun '(lb, ub) =>
    let mask := bin_mask lb ub labels in
    bin_preds <- lift (index_mask2 preds mask) ;;
    bin_labels <- lift (index_mask labels mask) ;;
    let rmse := RMSE bin_preds bin_labels in
    log_dict [(bin_name prefix lb ub, SFloat rmse);
              ("step", SInt current_epoch)]).

(** [Model.on_validation_epoch_end], lines 107-171.  [sched_lr] is the
    learning rate read from the trainer's scheduler and [current_epoch] is
    [self.current_epoch]. *)
Definition on_validation_epoch_end (sched_lr : float) (current_epoch : Z)
    : M Model unit :=
  let lr := sched_lr in
  log_dict [("trainer/learning_rate", SFloat lr);
            ("step", SInt current_epoch)] ;;
  (* Ordinary validation *)
  self <- get ;;
  cat_preds <- lift (torch_cat (val_preds self)) ;;
  let val_preds' := unsqueeze1 cat_preds in
  val_labels' <- lift (torch_cat (val_labels self)) ;;
  let val_agbd_rmse := RMSE val_preds' val_labels' in
  log_dict [("val/agbd_rmse", SFloat val_agbd_rmse);
            ("step", SInt current_epoch)] ;;
  binned_rmse "val/binned/rmse_" val_preds' val_labels' current_epoch ;;
  modify (set_val_preds []) ;;
  modify (set_val_labels []) ;;
  (* Validation on the test set *)
  self <- get ;;
  cat_preds <- lift (torch_cat (test_preds self)) ;;
  let test_preds' := unsqueeze1 cat_preds in
  test_labels' <- lift (torch_cat (test_labels self)) ;;
  let test_agbd_rmse := RMSE test_preds' test_labels' in
  log_dict [("test/agbd_rmse", SFloat test_agbd_rmse);
            ("step", SInt current_epoch)] ;;
  binned_rmse "test/binned/rmse_" test_preds' test_labels' current_epoch ;;
  modify (set_test_labels []) ;;
  modify (set_test_preds []) ;;
  (* The best-so-far model, based on validation metrics *)
  self <- get ;;
  if ltb val_agbd_rmse (best_val_rmse self) then
    modify (set_best_val_rmse val_agbd_rmse) ;;
    log_dict [("val/best_rmse", SFloat val_agbd_rmse);
              ("step", SInt current_epoch)] ;;
    log_dict [("test/best_rmse", SFloat test_agbd_rmse);
              ("step", SInt current_epoch)] ;;
    binned_rmse "test/binned/best_rmse_" test_preds' test_labels' current_epoch
  else ret tt.

End Wrapper.

Arguments validation_step {images} model b batch_idx dataloader_idx _.

(** ** The reducer in closed form

    The calls and the object of a reduction as functions of the object the
    reducer finds; the lemmas below prove that the reducer computes them. *)

Section Reduction.

Variable RMSE : tensor2 -> tensor1 -> float.

(** The dictionary the reducer logs for one bin. *)
Definition bin_entry (prefix : string) (preds : tensor2) (labels : tensor1)
    (current_epoch : Z) (b : Z * Z) : dict :=
  let mask := bin_mask (fst b) (snd b) labels in
  [(bin_name prefix (fst b) (snd b),
    SFloat (RMSE (mkTensor2 (ncols preds) (masked mask (rows preds)))
                 (masked mask labels)));
   ("step", SInt current_epoch)].

Definition bin_entries (prefix : string) (preds : tensor2) (labels : tensor1)
    (current_epoch : Z) : list dict :=
  map (bin_entry prefix preds labels current_epoch)
      (bin_pairs (arange 0 501 50)).

(** The body of the loop over the bins. *)
Definition bin_body (prefix : string) (preds : tensor2) (labels : tensor1)
    (current_epoch : Z) : Z * Z -> M Model unit :=
  fun '(lb, ub) =>
    let mask := bin_mask lb ub labels in
    bin_preds <- lift (index_mask2 preds mask) ;;
    bin_labels <- lift (index_mask labels mask) ;;
    let rmse := RMSE bin_preds bin_labels in
    log_dict [(bin_name prefix lb ub, SFloat rmse);
              ("step", SInt current_epoch)].

(** The metric of a bin, and the calls of the loop over the bins by the
    metric of each bin. *)
Definition bin_value (preds : tensor2) (labels : tensor1) (b : Z * Z)
    : float :=
  RMSE (mkTensor2 (ncols preds)
          (masked (bin_mask (fst b) (snd b) labels) (rows preds)))
       (masked (bin_mask (fst b) (snd b) labels) labels).

Definition bin_dicts (prefix : string) (f : Z * Z -> float)
    (current_epoch : Z) : list dict :=
  map (fun b => [(bin_name prefix (fst b) (snd b), SFloat (f b));
                 ("step", SInt current_epoch)])
      (bin_pairs (arange 0 501 50)).

(** The tensors and the metrics of one reduction, from the object as the
    reducer finds it. *)
Definition cat_val_preds (s : Model) : tensor2 :=
  unsqueeze1 (List.concat (val_preds s)).

Definition cat_val_labels (s : Model) : tensor1 := List.concat (val_labels s).

Definition cat_test_preds (s : Model) : tensor2 :=
  unsqueeze1 (List.concat (test_preds s)).

Definition cat_test_labels (s : Model) : tensor1 :=
  List.concat (test_labels s).

Definition val_rmse (s : Model) : float :=
  RMSE (cat_val_preds s) (cat_val_labels s).

Definition test_rmse (s : Model) : float :=
  RMSE (cat_test_preds s) (cat_test_labels s).

(** The test of line 159. *)
Definition improves (s : Model) : bool := ltb (val_rmse s) (best_val_rmse s).

Definition nonempty {A} (l : list A) : bool :=
  match l with [] => false | _ :: _ => true end.

(** The reducer runs to its end when no accumulator is an empty list and the
    predictions are as many as the labels. *)
Definition drain_ready (s : Model) : bool :=
  nonempty (val_preds s) && nonempty (val_labels s)
  && Nat.eqb (List.length (List.concat (val_preds s)))
             (List.length (List.concat (val_labels s)))
  && nonempty (test_preds s) && nonempty (test_labels s)
  && Nat.eqb (List.length (List.concat (test_preds s)))
             (List.length (List.concat (test_labels s))).

(** What one reduction sends to the sink, in order. *)
Definition best_log (current_epoch : Z) (s : Model) : list dict :=
  [("val/best_rmse", SFloat (val_rmse s)); ("step", SInt current_epoch)]
  :: [("test/best_rmse", SFloat (test_rmse s)); ("step", SInt current_epoch)]
  :: bin_entries "test/binned/best_rmse_" (cat_test_preds s)
       (cat_test_labels s) current_epoch.

Definition epoch_end_log (sched_lr : float) (current_epoch : Z) (s : Model)
    : list dict :=
  [("trainer/learning_rate", SFloat sched_lr); ("step", SInt current_epoch)]
  :: [("val/agbd_rmse", SFloat (val_rmse s)); ("step", SInt current_epoch)]
  :: bin_entries "val/binned/rmse_" (cat_val_preds s) (cat_val_labels s)
       current_epoch
  ++ [("test/agbd_rmse", SFloat (test_rmse s)); ("step", SInt current_epoch)]
  :: bin_entries "test/binned/rmse_" (cat_test_preds s) (cat_test_labels s)
       current_epoch
  ++ (if improves s then best_log current_epoch s else []).

(** The object after a reduction that ran to its end. *)
Definition epoch_end_state (sched_lr : float) (current_epoch : Z) (s : Model)
    : Model :=
  mkModel (num_outputs s) (lr s) (step_size s) (gamma s)
    (if improves s then val_rmse s else best_val_rmse s)
    (center s) (loss_fn s) (preds s) [] [] (labels s) [] []
    (logged s ++ epoch_end_log sched_lr current_epoch s).

End Reduction.

(** ** The dispatcher: the center pixel, the indices it takes *)

Section Dispatch.

Variable images : Type.
Variable model : images -> tensor4.

(** Channel 0 of the center pixel of every sample: lines 83-84 and the
    [predictions[:, 0]] of line 87 (97-98 and 101). *)
Definition center_pixel (c : Z) (imgs : images) : result tensor1 :=
  match slice_hw (model imgs) c c with
  | Ok predictions => column0 predictions
  | Raise e => Raise e
  end.

(** The center index is within the prediction map, which has a channel. *)
Definition valid_output (t : tensor4) (c : Z) : bool :=
  is_ok (py_index c (dimH t)) && is_ok (py_index c (dimW t))
  && negb (Nat.eqb (dimC t) 0).

(** A source index the dispatcher takes: absent, 0 or 1. *)
Definition accepted (dataloader_idx : option Z) : bool :=
  match dataloader_idx with
  | None => true
  | Some i => (i =? 0) || (i =? 1)
  end.

End Dispatch.

(** The accumulator [acc] has become [acc'] by appending the tensor [t]: one
    more entry, and [t]'s samples after those already there. *)
Definition appended (acc acc' : list tensor1) (t : tensor1) : Prop :=
  acc' = acc ++ [t]
  /\ List.concat acc' = List.concat acc ++ t
  /\ List.length (List.concat acc')
     = (List.length (List.concat acc) + List.length t)%nat.

(** The four accumulators of an object. *)
Definition accumulators (s : Model)
    : list tensor1 * list tensor1 * list tensor1 * list tensor1 :=
  (val_preds s, val_labels s, test_preds s, test_labels s).

(** ** The bins as a partition *)

(** The labels a bin selects: [val_labels[mask]]. *)
Definition bin_labels (b : Z * Z) (labels : tensor1) : tensor1 :=
  masked (bin_mask (fst b) (snd b) labels) labels.

(** The bins a label falls in. *)
Definition bins_of (pairs : list (Z * Z)) (x : float) : list (Z * Z) :=
  filter (fun b => in_bin (fst b) (snd b) x) pairs.

(** Boundaries in increasing order, as the scalars they are compared as. *)
Fixpoint increasing (bins : list Z) : bool :=
  match bins with
  | a :: (b :: _) as rest => leb (of_Z a) (of_Z b) && increasing rest
  | _ => true
  end.

(** ** Runs: dispatcher calls and reductions, one after the other *)

Section Run.

Variable images : Type.
Variable model : images -> tensor4.
Variable RMSE : tensor2 -> tensor1 -> float.

(** What the trainer calls on the object during validation. *)
Inductive event : Type :=
| ValidationStep (b : batch images) (batch_idx : Z) (dataloader_idx : option Z)
| EpochEnd (sched_lr : float) (current_epoch : Z).

Definition run_event (e : event) : M Model unit :=
  match e with
  | ValidationStep b batch_idx dataloader_idx =>
      validation_step model b batch_idx dataloader_idx
  | EpochEnd sched_lr current_epoch =>
      on_validation_epoch_end RMSE sched_lr current_epoch
  end.

(** The watermark after each call of a run.  (A call that raises leaves the
    object as it was when it raised; a run that stops there is a prefix.) *)
Fixpoint watermarks (es : list event) (s : Model) : list float :=
  match es with
  | [] => []
  | e :: es' =>
      let s' := snd (run_event e s) in
      best_val_rmse s' :: watermarks es' s'
  end.

(** The object after the dispatcher has taken the batches [bs] in order. *)
Fixpoint accumulate (bs : list (batch images * Z * option Z)) (s : Model)
    : Model :=
  match bs with
  | [] => s
  | (b, batch_idx, dataloader_idx) :: bs' =>
      accumulate bs' (snd (validation_step model b batch_idx dataloader_idx s))
  end.

(** The object after a run, when nothing raised. *)
Fixpoint run_all (es : list event) (s : Model) : Model :=
  match es with
  | [] => s
  | e :: es' => run_all es' (snd (run_event e s))
  end.

End Run.

Arguments run_all {images} model RMSE es s.

Arguments ValidationStep {images} b batch_idx dataloader_idx.
Arguments EpochEnd {images} sched_lr current_epoch.

(** Later values are never above earlier ones. *)
Definition non_increasing (l : list float) : Prop :=
  forall (i j : nat) (a b : float),
    (i <= j)%nat -> nth_error l i = Some a -> nth_error l j = Some b ->
    leb b a = true.

(** ** What a log reports *)

(** The names of the test metrics of the best namespace. *)
Definition is_best_test_key (k : string) : bool :=
  String.eqb k "test/best_rmse" || String.prefix "test/binned/best_rmse_" k.

Definition best_test_keys : list string :=
  "test/best_rmse"
  :: map (fun b => bin_name "test/binned/best_rmse_" (fst b) (snd b))
         (bin_pairs (arange 0 501 50)).

Definition has_best_test (d : dict) : bool :=
  existsb (fun kv => is_best_test_key (fst kv)) d.

(** The calls [calls] report every best test metric, tagged with [epoch]. *)
Definition reports_best_test (epoch : Z) (calls : list dict) : Prop :=
  forall k, In k best_test_keys ->
    exists v, In [(k, SFloat v); ("step", SInt epoch)] calls.

(** The calls [calls] report no best test metric. *)
Definition no_best_test (calls : list dict) : Prop :=
  forallb (fun d => negb (has_best_test d)) calls = true.

(** The epochs a log has best test metrics for, and the values it has for a
    metric, in the order of the calls. *)
Definition best_test_epochs (log : list dict) : list Z :=
  flat_map (fun d =>
    if has_best_test d
    then match dict_get d "step" with Some (SInt e) => [e] | _ => [] end
    else []) log.

Definition values_of (key : string) (log : list dict) : list scalar :=
  flat_map (fun d => match dict_get d key with Some v => [v] | None => [] end)
           log.

(** Two calls report the same value for the same bin, one under
    ["test/binned/rmse_"] and one under ["test/binned/best_rmse_"]. *)
Definition same_bin_metric (current_epoch : Z) (d d' : dict) : Prop :=
  exists (lb ub : Z) (w : float),
    d = [(bin_name "test/binned/rmse_" lb ub, SFloat w);
         ("step", SInt current_epoch)]
    /\ d' = [(bin_name "test/binned/best_rmse_" lb ub, SFloat w);
             ("step", SInt current_epoch)].

(** ** Reference instances of the parameters, example objects and batches *)

(** Modelled from the spec: the metric primitive [RMSE] of [loss.py], which
    is not among the sources; the root of the mean of the squared errors of
    channel 0, computed in float32 with a left-to-right sum. *)
Definition RMSE_ref (prediction : tensor2) (target : tensor1) : float :=
  let p := map (fun r => hd nan r) (rows prediction) in
  let sq := map (fun '(a, b) => let d := SFsub prec emax a b in
                                SFmul prec emax d d) (combine p target) in
  let sum := fold_left (SFadd prec emax) sq (S754_zero false) in
  SFsqrt prec emax (SFdiv prec emax sum (of_Z (Z.of_nat (List.length sq)))).

(** A stand-in network for the examples: a batch of images is the list of
    the values it predicts, one per sample, and the prediction map of a
    sample is that value on one channel of [side] x [side] pixels. *)
Definition const_model (side : nat) (imgs : list float) : tensor4 :=
  mkTensor4 (List.length imgs) 1 side side
    (fun b _ _ _ => nth b imgs nan).

(** Integer-valued samples, as float32. *)
Definition floats (l : list Z) : tensor1 := map of_Z l.

(** A learning rate of about 0.001. *)
Definition lr_example : float := SFdiv prec emax (of_Z 1) (of_Z 1000).

(** The object [Model(model, 0.001, 10, 0.5, [15, 15], False, 'MSE')], with a
    one-output network. *)
Definition fresh : Model :=
  mkModel 1 lr_example 10 (SFdiv prec emax (of_Z 1) (of_Z 2)) inf 7 "MSE"
    [] [] [] [] [] [] [].

(** A validation pass: one validation batch with prediction [p] for label 0,
    so that the validation RMSE is [p], then one test batch, then the
    reduction of epoch [epoch]. *)
Definition pass (p : Z) (epoch : Z) : list (event (list float)) :=
  [ValidationStep (floats [p], floats [0]) 0 (Some 0);
   ValidationStep (floats [5; 70], floats [0; 60]) 0 (Some 1);
   EpochEnd lr_example epoch].

(** The batches of such a pass. *)
Definition pass_batches (p : Z)
    : list (batch (list float) * Z * option Z) :=
  [((floats [p], floats [0]), 0, Some 0);
   ((floats [5; 70], floats [0; 60]), 0, Some 1)].

(** A validation batch with the labels 10, 60, 120 and 480, which leave six
    bins without a sample, and a test batch. *)
Definition sparse_batches : list (batch (list float) * Z * option Z) :=
  [((floats [12; 58; 130; 490], floats [10; 60; 120; 480]), 0, Some 0);
   ((floats [5; 70], floats [0; 60]), 0, Some 1)].

(** ** The training step *)

(** [a - b] and the like on 1-D tensors: elementwise when the sizes are the
    same, a tensor of one element is broadcast, any other pair of sizes is a
    [RuntimeError]. *)
Definition broadcast1 (f : float -> float -> float) (a b : tensor1)
    : result tensor1 :=
  if Nat.eqb (List.length a) (List.length b)
  then Ok (map (fun xy => f (fst xy) (snd xy)) (combine a b))
  else if Nat.eqb (List.length b) 1 then Ok (map (fun x => f x (hd nan b)) a)
  else if Nat.eqb (List.length a) 1 then Ok (map (fun y => f (hd nan a) y) b)
  else Raise RuntimeError.

Definition torch_sub : tensor1 -> tensor1 -> result tensor1 :=
  broadcast1 (SFsub prec emax).

(** [torch.pow(t, 2)] and [torch.sqrt(x)]. *)
Definition torch_pow2 (t : tensor1) : tensor1 :=
  map (fun x => SFmul prec emax x x) t.

Definition torch_sqrt (x : float) : float := SFsqrt prec emax x.

(** [self.log(name, value)]: one metric, without a step. *)
Definition log (name : string) (value : scalar) : M Model unit :=
  log_dict [(name, value)].

Section Training.

Variable images : Type.
Variable model : images -> tensor4.

(** [TrainLoss(num_outputs, loss_fn)(predictions, labels)] of [loss.py],
    which is not among the sources: a call that returns a scalar or raises,
    and does nothing to the object. *)
Variable TrainLoss : Z -> string -> tensor2 -> tensor1 -> result float.

(** [torch.mean] of a 1-D tensor; the order in which torch adds is not
    fixed, so the reduction is a parameter. *)
Variable torch_mean : tensor1 -> float.

(** The call a diagnostic batch logs, from the differences of predictions
    and labels. *)
Definition train_entry (diff : tensor1) : dict :=
  [("train/agbd_rmse",
    SFloat (torch_sqrt (torch_mean (torch_pow2 diff))))].

(** [Model.training_step], lines 54-71. *)
Definition training_step (b : batch images) (batch_idx : Z)
    : M Model float :=
  let '(images, labels) := b in
  self <- get ;;
  predictions <- lift (slice_hw (model images) (center self) (center self)) ;;
  (if batch_idx mod 50 =? 0 then
     predictions0 <- lift (column0 predictions) ;;
     diff <- lift (torch_sub predictions0 labels) ;;
     let rmse := torch_sqrt (torch_mean (torch_pow2 diff)) in
     log "train/agbd_rmse" (SFloat rmse)
   else ret tt) ;;
  self <- get ;;
  loss <- lift (TrainLoss (num_outputs self) (loss_fn self) predictions
                  labels) ;;
  ret loss.

Variable RMSE : tensor2 -> tensor1 -> float.

(** The hooks the trainer calls on the object, in training and in
    validation. *)
Inductive hook : Type :=
| OnTrainingStep (b : batch images) (batch_idx : Z)
| OnValidation (e : event images).

(** The object after a hook, whether it returned or raised, and after the
    hooks of a list in order. *)
Definition run_hook (h : hook) (s : Model) : Model :=
  match h with
  | OnTrainingStep b batch_idx => snd (training_step b batch_idx s)
  | OnValidation e => snd (run_event images model RMSE e s)
  end.

Fixpoint run_hooks (hs : list hook) (s : Model) : Model :=
  match hs with
  | [] => s
  | h :: hs' => run_hooks hs' (run_hook h s)
  end.

(** The validation RMSE of the reductions of a run that returned, oldest
    first. *)
Fixpoint completed_val_rmses (hs : list hook) (s : Model) : list float :=
  match hs with
  | [] => []
  | h :: hs' =>
      match h with
      | OnValidation (EpochEnd sched_lr current_epoch) =>
          if is_ok (fst (on_validation_epoch_end RMSE sched_lr
                           current_epoch s))
          then val_rmse RMSE s :: completed_val_rmses hs' (run_hook h s)
          else completed_val_rmses hs' (run_hook h s)
      | _ => completed_val_rmses hs' (run_hook h s)
      end
  end.

End Training.

Arguments OnTrainingStep {images} b batch_idx.
Arguments OnValidation {images} e.

(** The sizes of the accumulators of a source agree: as many tensors of
    predictions as of labels. *)
Definition in_step (s : Model) : Prop :=
  List.length (val_preds s) = List.length (val_labels s)
  /\ List.length (test_preds s) = List.length (test_labels s).

(** Each scalar is strictly below the one before. *)
Fixpoint strictly_decreasing (l : list float) : bool :=
  match l with
  | a :: (b :: _) as rest => ltb b a && strictly_decreasing rest
  | _ => true
  end.

(** A dispatcher call whose batch goes to the validation accumulator, or to
    the test accumulator, of an object whose center is [c]: the index is of
    that source and the center pixel can be read. *)
Definition goes_to_val {images : Type} (model : images -> tensor4) (c : Z)
    (call : batch images * Z * option Z) : bool :=
  (idx_eqb (snd call) None || idx_eqb (snd call) (Some 0))
  && valid_output (model (fst (fst (fst call)))) c.

Definition goes_to_test {images : Type} (model : images -> tensor4) (c : Z)
    (call : batch images * Z * option Z) : bool :=
  idx_eqb (snd call) (Some 1)
  && valid_output (model (fst (fst (fst call)))) c.

(** The labels of a call's batch, and the predictions the dispatcher reads
    for it. *)
Definition call_labels {images : Type} (call : batch images * Z * option Z)
    : tensor1 :=
  snd (fst (fst call)).

Definition call_preds {images : Type} (model : images -> tensor4) (c : Z)
    (call : batch images * Z * option Z) : tensor1 :=
  match center_pixel images model c (fst (fst (fst call))) with
  | Ok p => p
  | Raise _ => []
  end.

(** A call the dispatcher takes and whose batch is well formed: as many
    predictions as labels. *)
Definition well_formed_call {images : Type} (model : images -> tensor4)
    (c : Z) (call : batch images * Z * option Z) : bool :=
  accepted (snd call)
  && valid_output (model (fst (fst (fst call)))) c
  && Nat.eqb (dimB (model (fst (fst (fst call)))))
             (List.length (call_labels call)).

(** The keys of a call, and the metric names of a list of calls: the keys
    other than ["step"]. *)
Definition keys (d : dict) : list string := map fst d.

Definition metric_names (calls : list dict) : list string :=
  flat_map (fun d => filter (fun k => negb (String.eqb k "step")) (keys d))
           calls.

(** ** A reduction that raises, in closed form *)

Section Raised.

Variable RMSE : tensor2 -> tensor1 -> float.

(** The validation accumulator lets the reducer reach line 136. *)
Definition val_ready (s : Model) : bool :=
  nonempty (val_preds s) && nonempty (val_labels s)
  && Nat.eqb (List.length (List.concat (val_preds s)))
             (List.length (List.concat (val_labels s))).

(** What a reduction that raises has sent to the sink, what it raises and
    the object it leaves. *)
Definition raised_log (sched_lr : float) (current_epoch : Z) (s : Model)
    : list dict :=
  [("trainer/learning_rate", SFloat sched_lr); ("step", SInt current_epoch)]
  :: (if val_ready s then
        [("val/agbd_rmse", SFloat (val_rmse RMSE s));
         ("step", SInt current_epoch)]
        :: bin_entries RMSE "val/binned/rmse_" (cat_val_preds s)
             (cat_val_labels s) current_epoch
        ++ (if nonempty (test_preds s) && nonempty (test_labels s)
            then [[("test/agbd_rmse", SFloat (test_rmse RMSE s));
                   ("step", SInt current_epoch)]]
            else [])
      else if nonempty (val_preds s) && nonempty (val_labels s)
      then [[("val/agbd_rmse", SFloat (val_rmse RMSE s));
             ("step", SInt current_epoch)]]
      else []).

Definition raised_exn (s : Model) : exn :=
  if val_ready s then
    if nonempty (test_preds s) && nonempty (test_labels s)
    then IndexError else RuntimeError
  else if nonempty (val_preds s) && nonempty (val_labels s)
  then IndexError else RuntimeError.

Definition raised_state (sched_lr : float) (current_epoch : Z) (s : Model)
    : Model :=
  set_logged (logged s ++ raised_log sched_lr current_epoch s)
    (if val_ready s then set_val_labels [] (set_val_preds [] s) else s).

End Raised.

(** ** The training script, [Models/train.py] *)

Module ModelCheckpoint.

(** The arguments [train.py] gives to [ModelCheckpoint]. *)
Record t : Type := make {
  monitor : string;
  dirpath : string;
  filename : string;
  save_top_k : Z;
  mode : string;
  save_last : bool
}.

End ModelCheckpoint.

Module EarlyStopping.

(** The arguments [train.py] gives to [EarlyStopping]. *)
Record t : Type := make {
  monitor : string;
  patience : Z;
  min_delta : float;
  verbose : bool
}.

End EarlyStopping.

Module Train.

(** [get_model_checkpoint_callback], lines 48-49. *)
Definition get_model_checkpoint_callback (dir fname : string)
    : ModelCheckpoint.t :=
  ModelCheckpoint.make "val/agbd_rmse" dir (String.append fname "_best") 1
    "min" true.

(** [get_early_stopping_callback], lines 51-52. *)
Definition get_early_stopping_callback (patience : Z) (min_delta : float)
    : EarlyStopping.t :=
  EarlyStopping.make "val/agbd_rmse" patience min_delta true.

(** [s.split(sep)] for a separator of one character: the pieces between the
    separators, never an empty list. *)
Fixpoint split (sep : ascii) (s : string) : list string :=
  match s with
  | EmptyString => [EmptyString]
  | String c s' =>
      if Ascii.eqb c sep then EmptyString :: split sep s'
      else match split sep s' with
           | w :: ws => String c w :: ws
           | [] => [String c EmptyString]
           end
  end.

(** [args.model_name.split('/')[-1]], line 105. *)
Definition model_name (args_model_name : string) : result string :=
  py_getitem (split "/" args_model_name) (-1).

(** The model name after lines 105-109: the last piece of
    [args.model_name], or, when that is ['local'], the name
    [wandb_logger.experiment.name] that Weights & Biases gives the run,
    which the script does not choose: [experiment_name]. *)
Definition run_name (experiment_name args_model_name : string)
    : result string :=
  match model_name args_model_name with
  | Ok name =>
      if String.eqb name "local" then Ok experiment_name else Ok name
  | Raise e => Raise e
  end.

(** The checkpoint callback of line 117, for the directory
    [args.model_path], and the file name of the best checkpoint: lines
    105-109, 117 and 49. *)
Definition checkpoint_callback
    (model_path experiment_name args_model_name : string)
    : result ModelCheckpoint.t :=
  match run_name experiment_name args_model_name with
  | Ok name => Ok (get_model_checkpoint_callback model_path name)
  | Raise e => Raise e
  end.

Definition best_checkpoint_filename
    (model_path experiment_name args_model_name : string) : result string :=
  match checkpoint_callback model_path experiment_name args_model_name with
  | Ok callback => Ok (ModelCheckpoint.filename callback)
  | Raise e => Raise e
  end.

(** What [int(x)] raises. *)
Inductive int_error : Type :=
| IntTypeError
| IntValueError.

Section Settings.

(** [int(s)] of a string: [None] when it raises [ValueError]. *)
Variable int_of_str : string -> option Z.

(** [int(os.environ.get(name))]: [os.environ.get] gives [None] for a variable
    that is not set, and [int(None)] is a [TypeError]. *)
Definition int_of_env (value : option string) : int_error + Z :=
  match value with
  | None => inl IntTypeError
  | Some s =>
      match int_of_str s with
      | Some k => inr k
      | None => inl IntValueError
      end
  end.

(** The accelerator and the number of workers, lines 81-87 of [main]:
    [args_dataset_path] is [args.dataset_path] and [slurm_cpus] is the value
    of the environment variable [SLURM_CPUS_PER_TASK]. *)
Definition settings (args_dataset_path : string) (slurm_cpus : option string)
    : int_error + (string * Z) :=
  match
    (if String.eqb args_dataset_path "local"
     then inr ("auto", Some 8)
     else match int_of_env slurm_cpus with
          | inr k => inr ("gpu", Some k)
          | inl e => inl e
          end)
  with
  | inr (accelerator, cpus_per_task) =>
      let cpus_per_task :=
        match cpus_per_task with None => 8 | Some k => k end in
      inr (accelerator, cpus_per_task)
  | inl e => inl e
  end.

End Settings.

End Train.

(** ** Stand-ins for the parameters of the training step *)

(** Modelled from the spec: the training loss [TrainLoss] of [loss.py],
    which is not among the sources; for ['MSE'], the only loss supported, the
    mean of the squared errors of channel 0, in float32 with a left-to-right
    sum, and a [RuntimeError] when the predictions are not as many as the
    labels. *)
Definition TrainLoss_ref (num_outputs : Z) (loss_fn : string)
    (predictions : tensor2) (labels : tensor1) : result float :=
  if Nat.eqb (List.length (rows predictions)) (List.length labels) then
    let p := map (fun r => hd nan r) (rows predictions) in
    let sq := map (fun '(a, b) => let d := SFsub prec emax a b in
                                  SFmul prec emax d d) (combine p labels) in
    let sum := fold_left (SFadd prec emax) sq (S754_zero false) in
    Ok (SFdiv prec emax sum (of_Z (Z.of_nat (List.length sq))))
  else Raise RuntimeError.

(** A mean with a left-to-right sum. *)
Definition mean_ref (t : tensor1) : float :=
  SFdiv prec emax (fold_left (SFadd prec emax) t (S754_zero false))
        (of_Z (Z.of_nat (List.length t))).

(** A run for the examples: three validation passes with validation RMSE
    10, 8 and 9, with a training step before each. *)
Definition three_passes : list (hook (list float)) :=
  flat_map (fun pe =>
    OnTrainingStep (floats [12; 58], floats [10; 60]) (50 * snd pe)
    :: map OnValidation (pass (fst pe) (snd pe)))
    [(10, 0); (8, 1); (9, 2)].

(** A call of the reducer: one metric and the step. *)
Definition tagged (current_epoch : Z) (d : dict) : Prop :=
  exists (k : string) (v : float),
    d = [(k, SFloat v); ("step", SInt current_epoch)].

(** No string occurs twice. *)
Fixpoint distinct (l : list string) : bool :=
  match l with
  | [] => true
  | k :: l' => negb (existsb (String.eqb k) l') && distinct l'
  end.

(** The character [c] occurs in [s]. *)
Fixpoint has_char (c : ascii) (s : string) : bool :=
  match s with
  | EmptyString => false
  | String c' s' => Ascii.eqb c' c || has_char c s'
  end.

(** * Properties *)

(** ** Order facts on scalars *)

Section FloatOrder.

Lemma SFcompare_nan_r (a : float) : SFcompare a S754_nan = None.
Proof. destruct a; reflexivity. Qed.

Lemma SFcompare_not_nan (a b : float) :
  is_nan a = false -> is_nan b = false -> exists c, SFcompare a b = Some c.
Proof.
  intros Ha Hb; destruct a, b; simpl in *; try discriminate; eauto.
Qed.

Lemma SFcompare_refl (a : float) :
  is_nan a = false -> SFcompare a a = Some Eq.
Proof.
  destruct a as [s|s| |s m e]; simpl; intros H; try discriminate.
  - reflexivity.
  - destruct s; reflexivity.
  - rewrite Z.compare_refl.
    change (Pos.compare_cont Eq m m) with (Pos.compare m m).
    rewrite Pos.compare_refl. destruct s; reflexivity.
Qed.

Lemma SFcompare_antisym (a b : float) (c : comparison) :
  SFcompare a b = Some c -> SFcompare b a = Some (CompOpp c).
Proof.
  destruct a as [s1|s1| |s1 m1 e1], b as [s2|s2| |s2 m2 e2]; simpl;
    intros H; try discriminate; injection H as <-;
    try (destruct s1; reflexivity); try (destruct s2; reflexivity);
    try (destruct s1, s2; reflexivity).
  change (Pos.compare_cont Eq m1 m2) with (Pos.compare m1 m2).
  change (Pos.compare_cont Eq m2 m1) with (Pos.compare m2 m1).
  rewrite (Z.compare_antisym e1 e2), (Pos.compare_antisym m1 m2).
  destruct s1, s2; simpl; try reflexivity;
    destruct (Z.compare e1 e2); simpl; try reflexivity;
    destruct (Pos.compare m1 m2); reflexivity.
Qed.

Lemma ltb_leb (a b : float) : ltb a b = true -> leb a b = true.
Proof.
  unfold ltb, leb, SFltb, SFleb.
  destruct (SFcompare a b) as [[ | | ]|]; congruence.
Qed.

Lemma ltb_irrefl (a : float) : ltb a a = false.
Proof.
  unfold ltb, SFltb. destruct (is_nan a) eqn:E.
  - destruct a; try discriminate; reflexivity.
  - now rewrite SFcompare_refl.
Qed.

Lemma leb_refl (a : float) : is_nan a = false -> leb a a = true.
Proof. intros H; unfold leb, SFleb; now rewrite SFcompare_refl. Qed.

Lemma ltb_not_nan_l (a b : float) : ltb a b = true -> is_nan a = false.
Proof. destruct a; simpl; try reflexivity; discriminate. Qed.

Lemma ltb_not_nan_r (a b : float) : ltb a b = true -> is_nan b = false.
Proof.
  destruct b; simpl; try reflexivity.
  unfold ltb, SFltb; now rewrite SFcompare_nan_r.
Qed.

Lemma leb_not_nan_l (a b : float) : leb a b = true -> is_nan a = false.
Proof. destruct a; simpl; try reflexivity; discriminate. Qed.

Lemma leb_not_nan_r (a b : float) : leb a b = true -> is_nan b = false.
Proof.
  destruct b; simpl; try reflexivity.
  unfold leb, SFleb; now rewrite SFcompare_nan_r.
Qed.

(** On scalars that are not NaN the order is total: [x < t] is the negation
    of [t <= x]. *)
Lemma ltb_negb_leb (x t : float) :
  is_nan x = false -> is_nan t = false -> ltb x t = negb (leb t x).
Proof.
  intros Hx Ht. destruct (SFcompare_not_nan x t Hx Ht) as [c Hc].
  unfold ltb, leb, SFltb, SFleb.
  rewrite (SFcompare_antisym _ _ _ Hc), Hc. now destruct c.
Qed.

Local Ltac cmp_cases :=
  repeat match goal with
  | |- context [Z.compare ?x ?y] =>
      destruct (Z.compare_spec x y); subst; simpl
  | |- context [Pos.compare ?x ?y] =>
      destruct (Pos.compare_spec x y); subst; simpl
  | H : context [Z.compare ?x ?y] |- _ =>
      destruct (Z.compare_spec x y); subst; simpl in H
  | H : context [Pos.compare ?x ?y] |- _ =>
      destruct (Pos.compare_spec x y); subst; simpl in H
  end.

Lemma leb_trans (a b c : float) :
  leb a b = true -> leb b c = true -> leb a c = true.
Proof.
  unfold leb, SFleb.
  destruct a as [s1|s1| |s1 m1 e1], b as [s2|s2| |s2 m2 e2],
           c as [s3|s3| |s3 m3 e3]; simpl;
    try discriminate; try reflexivity;
    try (destruct s1; simpl; try discriminate; try reflexivity);
    try (destruct s2; simpl; try discriminate; try reflexivity);
    try (destruct s3; simpl; try discriminate; try reflexivity);
    change (Pos.compare_cont Eq) with Pos.compare;
    intros H1 H2; cmp_cases;
    try discriminate; try reflexivity; try lia.
Qed.

End FloatOrder.

(** ** The reducer computes its closed form *)

Section ReductionFacts.

Variable RMSE : tensor2 -> tensor1 -> float.

Lemma masked_map_filter {A} (p : A -> bool) (xs : list A) :
  masked (map p xs) xs = filter p xs.
Proof.
  induction xs as [|x xs IH]; simpl; [reflexivity|].
  rewrite IH. reflexivity.
Qed.

Lemma index_mask_labels (lb ub : Z) (labels : tensor1) :
  index_mask labels (bin_mask lb ub labels)
  = Ok (masked (bin_mask lb ub labels) labels).
Proof.
  unfold index_mask, bin_mask. rewrite length_map, Nat.eqb_refl. reflexivity.
Qed.

Lemma binned_rmse_unfold (prefix : string) (preds : tensor2)
    (labels : tensor1) (current_epoch : Z) :
  binned_rmse RMSE prefix preds labels current_epoch
  = for_each (bin_pairs (arange 0 501 50))
             (bin_body RMSE prefix preds labels current_epoch).
Proof. reflexivity. Qed.

Lemma bin_body_ok (prefix : string) (preds : tensor2) (labels : tensor1)
    (current_epoch : Z) (b : Z * Z) (s : Model) :
  List.length (rows preds) = List.length labels ->
  bin_body RMSE prefix preds labels current_epoch b s
  = (Ok tt,
     set_logged
       (logged s ++ [bin_entry RMSE prefix preds labels current_epoch b]) s).
Proof.
  intros Hlen. destruct b as [lb ub].
  unfold bin_body, bind, lift, index_mask2.
  rewrite index_mask_labels.
  unfold index_mask, bin_mask. rewrite length_map, Hlen, Nat.eqb_refl.
  reflexivity.
Qed.

Lemma bin_body_err (prefix : string) (preds : tensor2) (labels : tensor1)
    (current_epoch : Z) (b : Z * Z) (s : Model) :
  List.length (rows preds) <> List.length labels ->
  bin_body RMSE prefix preds labels current_epoch b s = (Raise IndexError, s).
Proof.
  intros Hlen. destruct b as [lb ub].
  unfold bin_body, bind, lift, index_mask2, index_mask, bin_mask.
  rewrite length_map.
  destruct (Nat.eqb_spec (List.length labels) (List.length (rows preds)));
    [congruence|reflexivity].
Qed.

Lemma for_each_bins_ok (prefix : string) (preds : tensor2) (labels : tensor1)
    (current_epoch : Z) (pairs : list (Z * Z)) (s : Model) :
  List.length (rows preds) = List.length labels ->
  for_each pairs (bin_body RMSE prefix preds labels current_epoch) s
  = (Ok tt,
     set_logged
       (logged s
        ++ map (bin_entry RMSE prefix preds labels current_epoch) pairs) s).
Proof.
  intros Hlen. revert s.
  induction pairs as [|b pairs IH]; intros s.
  - simpl. unfold ret. rewrite app_nil_r. now destruct s.
  - cbn [for_each]. unfold bind. rewrite bin_body_ok by assumption.
    rewrite IH. simpl. rewrite <- app_assoc. reflexivity.
Qed.

Lemma binned_rmse_ok (prefix : string) (preds : tensor2) (labels : tensor1)
    (current_epoch : Z) (s : Model) :
  List.length (rows preds) = List.length labels ->
  binned_rmse RMSE prefix preds labels current_epoch s
  = (Ok tt,
     set_logged
       (logged s ++ bin_entries RMSE prefix preds labels current_epoch) s).
Proof. intros H. rewrite binned_rmse_unfold. now apply for_each_bins_ok. Qed.

Lemma binned_rmse_err (prefix : string) (preds : tensor2) (labels : tensor1)
    (current_epoch : Z) (s : Model) :
  List.length (rows preds) <> List.length labels ->
  binned_rmse RMSE prefix preds labels current_epoch s = (Raise IndexError, s).
Proof.
  intros H. rewrite binned_rmse_unfold.
  change (bin_pairs (arange 0 501 50))
    with ((0, 50) :: tl (bin_pairs (arange 0 501 50))).
  cbn [for_each]. unfold bind. now rewrite bin_body_err.
Qed.

Lemma unsqueeze1_rows_length (t : tensor1) :
  List.length (rows (unsqueeze1 t)) = List.length t.
Proof. unfold unsqueeze1; simpl. now rewrite length_map. Qed.

Lemma torch_cat_nonempty (l : list tensor1) :
  nonempty l = true -> torch_cat l = Ok (List.concat l).
Proof. destruct l; [discriminate|reflexivity]. Qed.

Lemma torch_cat_empty (l : list tensor1) :
  nonempty l = false -> torch_cat l = Raise RuntimeError.
Proof. destruct l; [reflexivity|discriminate]. Qed.

Lemma on_validation_epoch_end_ok (sched_lr : float) (current_epoch : Z)
    (s : Model) :
  drain_ready s = true ->
  on_validation_epoch_end RMSE sched_lr current_epoch s
  = (Ok tt, epoch_end_state RMSE sched_lr current_epoch s).
Proof.
  unfold drain_ready. intros H.
  repeat (apply andb_prop in H; destruct H as [H ?]).
  repeat match goal with
         | E : Nat.eqb _ _ = true |- _ => apply Nat.eqb_eq in E
         end.
  unfold on_validation_epoch_end.
  cbv [bind lift get modify log_dict ret].
  cbn [val_preds val_labels test_preds test_labels set_logged set_val_preds
       set_val_labels set_test_preds set_test_labels best_val_rmse].
  rewrite (torch_cat_nonempty (val_preds s)), (torch_cat_nonempty (val_labels s))
    by assumption.
  rewrite binned_rmse_ok by (now rewrite unsqueeze1_rows_length).
  cbn [val_preds val_labels test_preds test_labels set_logged set_val_preds
       set_val_labels set_test_preds set_test_labels best_val_rmse logged].
  rewrite (torch_cat_nonempty (test_preds s)),
    (torch_cat_nonempty (test_labels s)) by assumption.
  rewrite binned_rmse_ok by (now rewrite unsqueeze1_rows_length).
  cbn [val_preds val_labels test_preds test_labels set_logged set_val_preds
       set_val_labels set_test_preds set_test_labels best_val_rmse logged].
  unfold epoch_end_state, epoch_end_log, improves, val_rmse, test_rmse,
    cat_val_preds, cat_val_labels, cat_test_preds, cat_test_labels.
  destruct (ltb _ _) eqn:Hlt.
  - rewrite binned_rmse_ok by (now rewrite unsqueeze1_rows_length).
    destruct s.
    cbn [set_logged set_best_val_rmse set_test_preds set_test_labels
         num_outputs lr step_size gamma best_val_rmse center loss_fn preds
         val_preds test_preds labels val_labels test_labels logged].
    unfold best_log, test_rmse, val_rmse, cat_val_preds, cat_val_labels,
      cat_test_preds, cat_test_labels.
    cbn [val_preds test_preds val_labels test_labels].
    repeat (rewrite <- app_assoc; cbn [app]). reflexivity.
  - destruct s.
    cbn [set_logged set_best_val_rmse set_test_preds set_test_labels
         num_outputs lr step_size gamma best_val_rmse center loss_fn preds
         val_preds test_preds labels val_labels test_labels logged].
    repeat (rewrite <- app_assoc; cbn [app]). rewrite app_nil_r. reflexivity.
Qed.

Local Ltac reducer_unfold :=
  unfold on_validation_epoch_end;
  cbv [bind lift get modify log_dict ret];
  cbn [val_preds val_labels test_preds test_labels set_logged set_val_preds
       set_val_labels set_test_preds set_test_labels best_val_rmse logged].

(** A reduction that raises does so before line 159: the watermark and the
    center are as they were. *)
Lemma on_validation_epoch_end_raise (sched_lr : float) (current_epoch : Z)
    (s : Model) :
  drain_ready s = false ->
  exists e s',
    on_validation_epoch_end RMSE sched_lr current_epoch s = (Raise e, s')
    /\ best_val_rmse s' = best_val_rmse s /\ center s' = center s.
Proof.
  unfold drain_ready. intros H. reducer_unfold.
  destruct (nonempty (val_preds s)) eqn:E1;
    [rewrite (torch_cat_nonempty _ E1)
    |rewrite (torch_cat_empty _ E1); eexists _, _; split; [reflexivity|now split]].
  destruct (nonempty (val_labels s)) eqn:E2;
    [rewrite (torch_cat_nonempty _ E2)
    |rewrite (torch_cat_empty _ E2); eexists _, _; split; [reflexivity|now split]].
  destruct (Nat.eqb_spec (List.length (List.concat (val_preds s)))
                         (List.length (List.concat (val_labels s)))) as [E3|E3];
    [rewrite binned_rmse_ok by (now rewrite unsqueeze1_rows_length)
    |rewrite binned_rmse_err by (now rewrite unsqueeze1_rows_length);
     eexists _, _; split; [reflexivity|now split]].
  cbn [val_preds val_labels test_preds test_labels set_logged set_val_preds
       set_val_labels set_test_preds set_test_labels best_val_rmse logged].
  destruct (nonempty (test_preds s)) eqn:E4;
    [rewrite (torch_cat_nonempty _ E4)
    |rewrite (torch_cat_empty _ E4); eexists _, _; split; [reflexivity|now split]].
  destruct (nonempty (test_labels s)) eqn:E5;
    [rewrite (torch_cat_nonempty _ E5)
    |rewrite (torch_cat_empty _ E5); eexists _, _; split; [reflexivity|now split]].
  destruct (Nat.eqb_spec (List.length (List.concat (test_preds s)))
                         (List.length (List.concat (test_labels s)))) as [E6|E6];
    [discriminate H|].
  rewrite binned_rmse_err by (now rewrite unsqueeze1_rows_length).
  eexists _, _; split; [reflexivity|now split].
Qed.

(** The reducer returns normally exactly from a ready object, and then with
    the object in closed form. *)
Lemma on_validation_epoch_end_ok_iff (sched_lr : float) (current_epoch : Z)
    (s s' : Model) :
  on_validation_epoch_end RMSE sched_lr current_epoch s = (Ok tt, s')
  <-> drain_ready s = true
      /\ s' = epoch_end_state RMSE sched_lr current_epoch s.
Proof.
  split.
  - intros H. destruct (drain_ready s) eqn:E.
    + rewrite on_validation_epoch_end_ok in H by assumption.
      split; [reflexivity|congruence].
    + destruct (on_validation_epoch_end_raise sched_lr current_epoch s E)
        as (e & s0 & H0 & _). congruence.
  - intros [E ->]. now apply on_validation_epoch_end_ok.
Qed.

(** The watermark after a reduction, however it ends. *)
Lemma on_validation_epoch_end_watermark (sched_lr : float)
    (current_epoch : Z) (s : Model) :
  best_val_rmse (snd (on_validation_epoch_end RMSE sched_lr current_epoch s))
  = if drain_ready s && improves RMSE s then val_rmse RMSE s
    else best_val_rmse s.
Proof.
  destruct (drain_ready s) eqn:E.
  - rewrite on_validation_epoch_end_ok by assumption. reflexivity.
  - destruct (on_validation_epoch_end_raise sched_lr current_epoch s E)
      as (e & s0 & H0 & Hb & _). rewrite H0. exact Hb.
Qed.

End ReductionFacts.

(** ** The branches of the dispatcher *)

Section DispatchFacts.

Variable images : Type.
Variable model : images -> tensor4.

Lemma center_pixel_ok_iff (c : Z) (imgs : images) :
  is_ok (center_pixel images model c imgs) = valid_output (model imgs) c.
Proof.
  unfold center_pixel, valid_output, slice_hw, column0.
  destruct (py_index c (dimH (model imgs))); simpl; [|reflexivity].
  destruct (py_index c (dimW (model imgs))); simpl; [|reflexivity].
  destruct (dimC (model imgs)); reflexivity.
Qed.

Lemma center_pixel_value (c : Z) (imgs : images) (p : tensor1) :
  center_pixel images model c imgs = Ok p ->
  exists h w,
    py_index c (dimH (model imgs)) = Ok h
    /\ py_index c (dimW (model imgs)) = Ok w
    /\ p = map (fun b => at4 (model imgs) b 0%nat h w)
               (seq 0 (dimB (model imgs))).
Proof.
  unfold center_pixel, slice_hw, column0.
  destruct (py_index c (dimH (model imgs))) as [h|]; [|discriminate].
  destruct (py_index c (dimW (model imgs))) as [w|]; [|discriminate].
  simpl. destruct (dimC (model imgs)) as [|k]; [discriminate|].
  intros H; injection H as <-. exists h, w. repeat split.
  rewrite map_map. reflexivity.
Qed.

(** The three branches of the dispatcher. *)
Lemma validation_step_val (b : batch images) (batch_idx : Z)
    (dataloader_idx : option Z) (s : Model) :
  dataloader_idx = None \/ dataloader_idx = Some 0 ->
  validation_step model b batch_idx dataloader_idx s
  = match center_pixel images model (center s) (fst b) with
    | Ok p => (Ok tt, set_val_labels (val_labels s ++ [snd b])
                        (set_val_preds (val_preds s ++ [p]) s))
    | Raise e => (Raise e, s)
    end.
Proof.
  intros [-> | ->]; destruct b as [imgs lbls];
    unfold validation_step, center_pixel; cbv [bind lift get modify];
    cbn [idx_eqb orb Z.eqb Pos.eqb fst snd];
    (destruct (slice_hw (model imgs) (center s) (center s)) as [t|];
     [destruct (column0 t)|]; reflexivity).
Qed.

Lemma validation_step_test (b : batch images) (batch_idx : Z) (s : Model) :
  validation_step model b batch_idx (Some 1) s
  = match center_pixel images model (center s) (fst b) with
    | Ok p => (Ok tt, set_test_labels (test_labels s ++ [snd b])
                        (set_test_preds (test_preds s ++ [p]) s))
    | Raise e => (Raise e, s)
    end.
Proof.
  destruct b as [imgs lbls];
    unfold validation_step, center_pixel; cbv [bind lift get modify];
    cbn [idx_eqb orb Z.eqb Pos.eqb fst snd];
    (destruct (slice_hw (model imgs) (center s) (center s)) as [t|];
     [destruct (column0 t)|]; reflexivity).
Qed.

Lemma validation_step_other (b : batch images) (batch_idx : Z)
    (dataloader_idx : option Z) (s : Model) :
  accepted dataloader_idx = false ->
  validation_step model b batch_idx dataloader_idx s
  = (Raise (ValueError "dataloader_idx should be 0 or 1"), s).
Proof.
  destruct dataloader_idx as [i|]; [|discriminate].
  unfold accepted, validation_step. cbn [idx_eqb orb].
  intros H. apply orb_false_elim in H as [-> ->]. reflexivity.
Qed.

Lemma accepted_cases (dataloader_idx : option Z) :
  accepted dataloader_idx = true
  <-> dataloader_idx = None \/ dataloader_idx = Some 0
      \/ dataloader_idx = Some 1.
Proof.
  destruct dataloader_idx as [i|]; simpl.
  - rewrite orb_true_iff, !Z.eqb_eq. split.
    + intros [-> | ->]; auto.
    + intros [H | [H | H]]; [discriminate| |]; injection H as ->; auto.
  - split; auto.
Qed.

(** The dispatcher never assigns the watermark or the center. *)
Lemma validation_step_frame (b : batch images) (batch_idx : Z)
    (dataloader_idx : option Z) (s : Model) :
  let s' := snd (validation_step model b batch_idx dataloader_idx s) in
  best_val_rmse s' = best_val_rmse s /\ center s' = center s
  /\ logged s' = logged s.
Proof.
  destruct (accepted dataloader_idx) eqn:E.
  - apply accepted_cases in E. destruct E as [E | [E | E]].
    + rewrite validation_step_val by auto.
      destruct (center_pixel images model _ _); cbn; auto.
    + rewrite validation_step_val by auto.
      destruct (center_pixel images model _ _); cbn; auto.
    + subst. rewrite validation_step_test.
      destruct (center_pixel images model _ _); cbn; auto.
  - rewrite validation_step_other by assumption. cbn; auto.
Qed.

Lemma center_pixel_raises (c : Z) (imgs : images) (e : exn) :
  center_pixel images model c imgs = Raise e -> e = IndexError.
Proof.
  unfold center_pixel, slice_hw, column0, py_index.
  repeat match goal with
         | |- context [if ?c then _ else _] => destruct c
         end; cbn;
    try (destruct (dimC (model imgs))); intros H; congruence.
Qed.

(** With an index it takes, the dispatcher returns when the center pixel can
    be read and raises what reading it raises otherwise. *)
Lemma validation_step_accepted (b : batch images) (batch_idx : Z)
    (dataloader_idx : option Z) (s : Model) :
  accepted dataloader_idx = true ->
  validation_step model b batch_idx dataloader_idx s
  = match center_pixel images model (center s) (fst b) with
    | Ok p => (Ok tt, snd (validation_step model b batch_idx
                             dataloader_idx s))
    | Raise e => (Raise e, s)
    end.
Proof.
  intros H. apply accepted_cases in H. destruct H as [H | [H | H]].
  - rewrite validation_step_val by auto.
    destruct (center_pixel _ _ _ _); reflexivity.
  - rewrite validation_step_val by auto.
    destruct (center_pixel _ _ _ _); reflexivity.
  - subst. rewrite validation_step_test.
    destruct (center_pixel _ _ _ _); reflexivity.
Qed.

End DispatchFacts.

(** ** Every label is in at most one bin *)

Lemma bin_labels_filter (b : Z * Z) (labels : tensor1) :
  bin_labels b labels = filter (in_bin (fst b) (snd b)) labels.
Proof. apply masked_map_filter. Qed.

Lemma bin_pairs_cons (a b : Z) (rest : list Z) :
  bin_pairs (a :: b :: rest) = (a, b) :: bin_pairs (b :: rest).
Proof. reflexivity. Qed.

Lemma last_cons (b a : Z) (rest : list Z) :
  last (b :: rest) a = last rest b.
Proof.
  revert b a. induction rest as [|c rest IH]; intros b a; [reflexivity|].
  change (last (b :: c :: rest) a) with (last (c :: rest) a).
  now rewrite (IH c a), (IH c b).
Qed.

Lemma increasing_head_last (a : Z) (rest : list Z) :
  increasing (a :: rest) = true ->
  is_nan (of_Z a) = false ->
  leb (of_Z a) (of_Z (last rest a)) = true.
Proof.
  revert a. induction rest as [|b rest IH]; intros a Hinc Ha.
  - simpl. now apply leb_refl.
  - cbn [increasing] in Hinc. apply andb_prop in Hinc as [Hab Hinc].
    assert (Hb : is_nan (of_Z b) = false) by exact (leb_not_nan_r _ _ Hab).
    specialize (IH b Hinc Hb).
    rewrite last_cons.
    eapply leb_trans; eassumption.
Qed.

(** A label is in at most one bin, and in one exactly when it is in
    [[first boundary, last boundary)]. *)
Lemma bins_of_count (a : Z) (rest : list Z) (x : float) :
  increasing (a :: rest) = true ->
  List.length (bins_of (bin_pairs (a :: rest)) x)
  = if in_bin a (last rest a) x && nonempty rest then 1%nat else 0%nat.
Proof.
  revert a. induction rest as [|b rest IH]; intros a Hinc.
  - cbn. now rewrite andb_false_r.
  - cbn [increasing] in Hinc. apply andb_prop in Hinc as [Hab Hinc].
    rewrite bin_pairs_cons. unfold bins_of in *. cbn [filter fst snd].
    specialize (IH b Hinc).
    rewrite last_cons. cbn [nonempty]. rewrite andb_true_r.
    assert (Hb : is_nan (of_Z b) = false) by exact (leb_not_nan_r _ _ Hab).
    assert (Hbl : leb (of_Z b) (of_Z (last rest b)) = true)
      by (apply increasing_head_last; assumption).
    destruct (is_nan x) eqn:Hx.
    { destruct x; try discriminate.
      destruct rest; cbn [nonempty] in IH;
        unfold in_bin in *; unfold leb, SFleb in *;
        rewrite !SFcompare_nan_r in *; cbn in *; exact IH. }
    unfold in_bin in *.
    rewrite (ltb_negb_leb x (of_Z b)) by assumption.
    rewrite (ltb_negb_leb x (of_Z (last rest b))) in *
      by (assumption || exact (leb_not_nan_r _ _ Hbl)).
    destruct (leb (of_Z b) x) eqn:Hbx.
    + assert (Hax : leb (of_Z a) x = true) by (eapply leb_trans; eassumption).
      rewrite Hax. cbn [negb andb]. rewrite IH.
      destruct rest as [|c rest]; cbn [nonempty].
      * cbn [last] in *. rewrite Hbx. reflexivity.
      * rewrite andb_true_r. reflexivity.
    + assert (Hlx : leb (of_Z (last rest b)) x = false).
      { destruct (leb (of_Z (last rest b)) x) eqn:E; [|reflexivity].
        rewrite (leb_trans _ _ _ Hbl E) in Hbx. discriminate. }
      rewrite Hlx in *. cbn [negb andb] in *. rewrite andb_true_r.
      destruct (leb (of_Z a) x); cbn [List.length]; rewrite IH; reflexivity.
Qed.

(** The per-bin selections, one after the other, are the labels taken as
    often as they have bins. *)
Lemma concat_bins_cons (pairs : list (Z * Z)) (x : float) (l : tensor1) :
  Permutation
    (List.concat (map (fun b => filter (in_bin (fst b) (snd b)) (x :: l))
                      pairs))
    (map (fun _ => x) (bins_of pairs x)
     ++ List.concat (map (fun b => filter (in_bin (fst b) (snd b)) l) pairs)).
Proof.
  induction pairs as [|b pairs IH]; [reflexivity|].
  unfold bins_of in *. cbn [map List.concat filter].
  destruct (in_bin (fst b) (snd b) x).
  - cbn [map app]. constructor.
    rewrite IH. rewrite !app_assoc. apply Permutation_app_tail.
    apply Permutation_app_comm.
  - rewrite IH. rewrite !app_assoc. apply Permutation_app_tail.
    apply Permutation_app_comm.
Qed.

Lemma concat_bins_perm (a : Z) (rest : list Z) (l : tensor1) :
  increasing (a :: rest) = true ->
  nonempty rest = true ->
  Permutation
    (List.concat (map (fun b => bin_labels b l) (bin_pairs (a :: rest))))
    (filter (in_bin a (last rest a)) l).
Proof.
  intros Hinc Hne.
  induction l as [|x l IH].
  - cbn [filter]. induction (bin_pairs (a :: rest)) as [|b ps IHp];
      [reflexivity|exact IHp].
  - erewrite map_ext by (intros; apply bin_labels_filter).
    rewrite concat_bins_cons.
    erewrite map_ext in IH by (intros; apply bin_labels_filter).
    pose proof (bins_of_count a rest x Hinc) as Hc.
    rewrite Hne, andb_true_r in Hc. cbn [filter].
    destruct (in_bin a (last rest a) x).
    + destruct (bins_of (bin_pairs (a :: rest)) x) as [|b [|b' bs]];
        try discriminate Hc.
      cbn [map app]. now constructor.
    + destruct (bins_of (bin_pairs (a :: rest)) x); [|discriminate Hc].
      exact IH.
Qed.

Lemma filter_at_most_one {A} (f : A -> bool) (l : list A) (x y : A) :
  (List.length (filter f l) <= 1)%nat ->
  In x l -> In y l -> f x = true -> f y = true -> x = y.
Proof.
  intros Hlen Hx Hy Hfx Hfy.
  assert (Ix : In x (filter f l)) by (apply filter_In; now split).
  assert (Iy : In y (filter f l)) by (apply filter_In; now split).
  destruct (filter f l) as [|c [|c' rest]]; cbn in *; try tauto; try lia.
  destruct Ix as [<- | []]. destruct Iy as [<- | []]. reflexivity.
Qed.

(** The ten bins. *)
Lemma bins_value :
  bin_pairs (arange 0 501 50)
  = [(0, 50); (50, 100); (100, 150); (150, 200); (200, 250); (250, 300);
     (300, 350); (350, 400); (400, 450); (450, 500)].
Proof. reflexivity. Qed.

Lemma masked_nil_same_length {A B} (mask : list bool) (xs : list A)
    (ys : list B) :
  List.length xs = List.length ys ->
  masked mask ys = [] -> masked mask xs = [].
Proof.
  revert xs ys. induction mask as [|m mask IH]; intros xs ys Hlen H;
    [reflexivity|].
  destruct xs as [|x xs], ys as [|y ys]; try discriminate Hlen;
    [reflexivity|].
  cbn [masked] in *. destruct m; [discriminate H|].
  injection Hlen as Hlen. now apply (IH xs ys).
Qed.

(** ** The watermark along a run *)

Section RunFacts.

Variable images : Type.
Variable model : images -> tensor4.
Variable RMSE : tensor2 -> tensor1 -> float.

Lemma run_event_watermark (e : event images) (s : Model) :
  let s' := snd (run_event images model RMSE e s) in
  best_val_rmse s' = best_val_rmse s
  \/ (exists sched_lr current_epoch,
        e = EpochEnd sched_lr current_epoch
        /\ ltb (val_rmse RMSE s) (best_val_rmse s) = true
        /\ best_val_rmse s' = val_rmse RMSE s).
Proof.
  destruct e as [b batch_idx dataloader_idx | sched_lr current_epoch];
    cbn [run_event].
  - left. apply validation_step_frame.
  - cbv zeta. rewrite on_validation_epoch_end_watermark.
    destruct (drain_ready s); cbn [andb]; [|now left].
    unfold improves. destruct (ltb _ _) eqn:E; [right|now left].
    now exists sched_lr, current_epoch.
Qed.

Lemma run_event_le (e : event images) (s : Model) :
  is_nan (best_val_rmse s) = false ->
  leb (best_val_rmse (snd (run_event images model RMSE e s)))
      (best_val_rmse s) = true.
Proof.
  intros Hs. destruct (run_event_watermark e s) as [-> | (l & c & _ & Hlt & ->)].
  - now apply leb_refl.
  - now apply ltb_leb.
Qed.

Lemma watermarks_below (es : list (event images)) (s : Model) :
  is_nan (best_val_rmse s) = false ->
  Forall (fun w => leb w (best_val_rmse s) = true)
         (watermarks images model RMSE es s).
Proof.
  revert s. induction es as [|e es IH]; intros s Hs; cbn [watermarks].
  - constructor.
  - pose proof (run_event_le e s Hs) as Hle.
    constructor; [exact Hle|].
    eapply Forall_impl; [|apply IH; exact (leb_not_nan_l _ _ Hle)].
    intros w Hw. cbv beta in Hw. eapply leb_trans; eassumption.
Qed.

Lemma watermarks_non_increasing (es : list (event images)) (s : Model) :
  is_nan (best_val_rmse s) = false ->
  non_increasing (best_val_rmse s :: watermarks images model RMSE es s).
Proof.
  revert s. induction es as [|e es IH]; intros s Hs i j a b Hij Hi Hj.
  - destruct i as [|i]; [|destruct i; discriminate Hi].
    destruct j as [|j]; [|destruct j; discriminate Hj].
    cbn in Hi, Hj. injection Hi as <-. injection Hj as <-. now apply leb_refl.
  - destruct i as [|i].
    + cbn in Hi. injection Hi as <-.
      destruct j as [|j].
      * cbn in Hj. injection Hj as <-. now apply leb_refl.
      * cbn [nth_error] in Hj. apply nth_error_In in Hj.
        pose proof (watermarks_below (e :: es) s Hs) as Hall.
        rewrite Forall_forall in Hall. now apply Hall.
    + destruct j as [|j]; [lia|].
      cbn [nth_error watermarks] in Hi, Hj.
      pose proof (run_event_le e s Hs) as Hle.
      eapply (IH _ (leb_not_nan_l _ _ Hle) i j); [lia|eassumption..].
Qed.

Lemma accumulate_frame (bs : list (batch images * Z * option Z)) (s : Model) :
  best_val_rmse (accumulate images model bs s) = best_val_rmse s
  /\ center (accumulate images model bs s) = center s
  /\ logged (accumulate images model bs s) = logged s.
Proof.
  revert s. induction bs as [|[[b batch_idx] dataloader_idx] bs IH]; intros s.
  - now cbn.
  - cbn [accumulate].
    destruct (IH (snd (validation_step model b batch_idx dataloader_idx s)))
      as (-> & -> & ->).
    apply validation_step_frame.
Qed.

End RunFacts.

Lemma init_watermark (n : Z) (lr0 : float) (ss : Z) (g : float)
    (ps : list Z) (ds : bool) (lf : string) (s0 : Model) :
  __init__ n lr0 ss g ps ds lf = Ok s0 ->
  best_val_rmse s0 = inf /\ val_preds s0 = [] /\ val_labels s0 = []
  /\ test_preds s0 = [] /\ test_labels s0 = [] /\ logged s0 = [].
Proof.
  unfold __init__. destruct ds; destruct (py_getitem ps 0); try discriminate;
    intros H; injection H as <-; cbn; auto 10.
Qed.

(** What the dispatcher does to the accumulators depends on the accumulators
    and the center only. *)
Lemma validation_step_accumulators
    (images : Type) (model : images -> tensor4) (b : batch images)
    (batch_idx : Z) (dataloader_idx : option Z) (s1 s2 : Model) :
  accumulators s1 = accumulators s2 -> center s1 = center s2 ->
  let t1 := snd (validation_step model b batch_idx dataloader_idx s1) in
  let t2 := snd (validation_step model b batch_idx dataloader_idx s2) in
  accumulators t1 = accumulators t2 /\ center t1 = center t2.
Proof.
  unfold accumulators. intros Hacc Hc. injection Hacc as Hvp Hvl Htp Htl.
  cbv zeta. destruct (accepted dataloader_idx) eqn:E.
  - apply accepted_cases in E. destruct E as [E | [E | E]].
    + rewrite !validation_step_val by auto. rewrite Hc.
      destruct (center_pixel _ _ _ _); cbn; split; congruence.
    + rewrite !validation_step_val by auto. rewrite Hc.
      destruct (center_pixel _ _ _ _); cbn; split; congruence.
    + subst dataloader_idx. rewrite !validation_step_test. rewrite Hc.
      destruct (center_pixel _ _ _ _); cbn; split; congruence.
  - rewrite !validation_step_other by assumption. cbn. split; congruence.
Qed.

Lemma accumulate_accumulators
    (images : Type) (model : images -> tensor4)
    (bs : list (batch images * Z * option Z)) (s1 s2 : Model) :
  accumulators s1 = accumulators s2 -> center s1 = center s2 ->
  accumulators (accumulate images model bs s1)
  = accumulators (accumulate images model bs s2).
Proof.
  revert s1 s2.
  induction bs as [|[[b batch_idx] dataloader_idx] bs IH]; intros s1 s2 Ha Hc.
  - exact Ha.
  - cbn [accumulate].
    destruct (validation_step_accumulators images model b batch_idx
                dataloader_idx s1 s2 Ha Hc) as [Ha' Hc'].
    now apply IH.
Qed.

Lemma appended_snoc (acc : list tensor1) (t : tensor1) :
  appended acc (acc ++ [t]) t.
Proof.
  unfold appended. split; [reflexivity|].
  assert (E : List.concat (acc ++ [t]) = List.concat acc ++ t)
    by (rewrite concat_app; cbn [List.concat]; now rewrite app_nil_r).
  split; [exact E|]. now rewrite E, length_app.
Qed.

(** ** The calls of a reduction *)

Lemma no_best_test_app (l1 l2 : list dict) :
  no_best_test l1 -> no_best_test l2 -> no_best_test (l1 ++ l2).
Proof.
  unfold no_best_test. intros H1 H2. now rewrite forallb_app, H1, H2.
Qed.

Lemma no_best_test_bin_entries (RMSE : tensor2 -> tensor1 -> float)
    (prefix : string) (preds : tensor2) (labels : tensor1) (epoch : Z) :
  prefix = "val/binned/rmse_" \/ prefix = "test/binned/rmse_" ->
  no_best_test (bin_entries RMSE prefix preds labels epoch).
Proof. intros [-> | ->]; vm_compute; reflexivity. Qed.

Lemma reports_best_test_best_log (RMSE : tensor2 -> tensor1 -> float)
    (epoch : Z) (s : Model) :
  reports_best_test epoch (best_log RMSE epoch s).
Proof.
  intros k Hk. unfold best_log.
  destruct Hk as [<- | Hk].
  - eexists. right. left. reflexivity.
  - apply in_map_iff in Hk. destruct Hk as (b & <- & Hb).
    eexists. right. right. unfold bin_entries.
    apply in_map_iff. exists b. split; [reflexivity|exact Hb].
Qed.

(** The calls of one reduction, by whether line 159 finds an improvement. *)
Lemma epoch_end_log_best (RMSE : tensor2 -> tensor1 -> float)
    (sched_lr : float) (epoch : Z) (s : Model) :
  if improves RMSE s
  then reports_best_test epoch (epoch_end_log RMSE sched_lr epoch s)
  else no_best_test (epoch_end_log RMSE sched_lr epoch s).
Proof.
  unfold epoch_end_log. destruct (improves RMSE s).
  - intros k Hk.
    destruct (reports_best_test_best_log RMSE epoch s k Hk) as [v Hv].
    exists v. right. right. apply in_or_app. right. right.
    apply in_or_app. now right.
  - change (no_best_test
      ([[("trainer/learning_rate", SFloat sched_lr); ("step", SInt epoch)];
        [("val/agbd_rmse", SFloat (val_rmse RMSE s)); ("step", SInt epoch)]]
       ++ bin_entries RMSE "val/binned/rmse_" (cat_val_preds s)
            (cat_val_labels s) epoch
       ++ [[("test/agbd_rmse", SFloat (test_rmse RMSE s));
            ("step", SInt epoch)]]
       ++ bin_entries RMSE "test/binned/rmse_" (cat_test_preds s)
            (cat_test_labels s) epoch ++ [])).
    repeat apply no_best_test_app;
      try (apply no_best_test_bin_entries; auto); reflexivity.
Qed.

(** The calls of a reduction that has returned are in the log. *)
Lemma epoch_end_log_logged (RMSE : tensor2 -> tensor1 -> float)
    (sched_lr : float) (current_epoch : Z) (s s' : Model) (d : dict) :
  on_validation_epoch_end RMSE sched_lr current_epoch s = (Ok tt, s') ->
  In d (epoch_end_log RMSE sched_lr current_epoch s) -> In d (logged s').
Proof.
  intros Hrun Hd. apply on_validation_epoch_end_ok_iff in Hrun as [_ ->].
  unfold epoch_end_state. cbn [logged]. apply in_or_app. now right.
Qed.

Lemma in_val_bin_entries (RMSE : tensor2 -> tensor1 -> float)
    (sched_lr : float) (current_epoch : Z) (s : Model) (b : Z * Z) :
  In b (bin_pairs (arange 0 501 50)) ->
  In (bin_entry RMSE "val/binned/rmse_" (cat_val_preds s) (cat_val_labels s)
        current_epoch b)
     (epoch_end_log RMSE sched_lr current_epoch s).
Proof.
  intros Hb. unfold epoch_end_log. right. right. apply in_or_app. left.
  unfold bin_entries. now apply in_map.
Qed.

Lemma in_test_bin_entries (RMSE : tensor2 -> tensor1 -> float)
    (sched_lr : float) (current_epoch : Z) (s : Model) (b : Z * Z) :
  In b (bin_pairs (arange 0 501 50)) ->
  In (bin_entry RMSE "test/binned/rmse_" (cat_test_preds s)
        (cat_test_labels s) current_epoch b)
     (epoch_end_log RMSE sched_lr current_epoch s).
Proof.
  intros Hb. unfold epoch_end_log. right. right. apply in_or_app. right.
  right. apply in_or_app. left. unfold bin_entries. now apply in_map.
Qed.

Lemma bin_entries_same (RMSE : tensor2 -> tensor1 -> float)
    (preds : tensor2) (labels : tensor1) (current_epoch : Z)
    (pairs : list (Z * Z)) :
  Forall2 (same_bin_metric current_epoch)
    (map (bin_entry RMSE "test/binned/rmse_" preds labels current_epoch) pairs)
    (map (bin_entry RMSE "test/binned/best_rmse_" preds labels current_epoch)
         pairs).
Proof.
  induction pairs as [|[lb ub] pairs IH]; cbn [map]; constructor;
    [|exact IH].
  unfold same_bin_metric, bin_entry. cbn [fst snd]. now eexists _, _, _.
Qed.

Lemma bin_entries_dicts (RMSE : tensor2 -> tensor1 -> float)
    (prefix : string) (preds : tensor2) (labels : tensor1)
    (current_epoch : Z) :
  bin_entries RMSE prefix preds labels current_epoch
  = bin_dicts prefix (bin_value RMSE preds labels) current_epoch.
Proof. reflexivity. Qed.

(** * The properties of the specification *)

(** ** The watermark *)

(** C1. The watermark is positive infinity on a new object.  A reduction,
    however it ends, leaves it as it was unless the validation RMSE it has
    computed is strictly below it (a tie does not update), and then the
    watermark is that RMSE: one value per reduction.  Along every run from a
    new object the watermark never increases. *)
Theorem best_val_rmse_watermark
    (images : Type) (model : images -> tensor4)
    (RMSE : tensor2 -> tensor1 -> float)
    (n : Z) (lr0 : float) (ss : Z) (g : float) (ps : list Z) (ds : bool)
    (lf : string) (s0 : Model) (es : list (event images))
    (sched_lr : float) (current_epoch : Z) (s : Model) :
  __init__ n lr0 ss g ps ds lf = Ok s0 ->
  let r := on_validation_epoch_end RMSE sched_lr current_epoch s in
  let v := RMSE (unsqueeze1 (List.concat (val_preds s)))
                (List.concat (val_labels s)) in
  best_val_rmse s0 = inf
  /\ (ltb v (best_val_rmse s) = false ->
      best_val_rmse (snd r) = best_val_rmse s)
  /\ (SFeqb v (best_val_rmse s) = true ->
      best_val_rmse (snd r) = best_val_rmse s)
  /\ (best_val_rmse (snd r) = best_val_rmse s
      \/ (ltb v (best_val_rmse s) = true /\ best_val_rmse (snd r) = v))
  /\ (fst r = Ok tt -> ltb v (best_val_rmse s) = true ->
      best_val_rmse (snd r) = v)
  /\ non_increasing (best_val_rmse s0 :: watermarks images model RMSE es s0).
Proof.
  intros Hinit r v.
  destruct (init_watermark _ _ _ _ _ _ _ _ Hinit) as (Hinf & _).
  assert (Hw : best_val_rmse (snd r)
               = if drain_ready s && ltb v (best_val_rmse s)
                 then v else best_val_rmse s)
    by apply on_validation_epoch_end_watermark.
  split; [exact Hinf|].
  split; [intros E; rewrite Hw, E, andb_false_r; reflexivity|].
  split.
  { intros E. rewrite Hw.
    replace (ltb v (best_val_rmse s)) with false;
      [now rewrite andb_false_r|].
    unfold ltb, SFltb. unfold SFeqb in E.
    destruct (SFcompare v (best_val_rmse s)) as [[ | | ]|];
      (reflexivity || discriminate). }
  split.
  { rewrite Hw. destruct (drain_ready s); cbn [andb]; [|now left].
    destruct (ltb v (best_val_rmse s)); [now right|now left]. }
  split.
  { intros Hok Hlt. rewrite Hw, Hlt, andb_true_r.
    destruct (drain_ready s) eqn:E; [reflexivity|].
    destruct (on_validation_epoch_end_raise RMSE sched_lr current_epoch s E)
      as (e & s' & Hr & _).
    subst r. rewrite Hr in Hok. discriminate. }
  apply watermarks_non_increasing. now rewrite Hinf.
Qed.

Lemma best_val_rmse_watermark_witness :
  non_increasing
    (inf :: watermarks (list float) (const_model 15) RMSE_ref
              (pass 10 0 ++ pass 8 1 ++ pass 9 2) fresh).
Proof.
  exact (proj2 (proj2 (proj2 (proj2 (proj2
    (best_val_rmse_watermark (list float) (const_model 15) RMSE_ref
       1 lr_example 10 (SFdiv prec emax (of_Z 1) (of_Z 2)) [15; 15] false
       "MSE" fresh (pass 10 0 ++ pass 8 1 ++ pass 9 2) lr_example 0 fresh
       eq_refl)))))).
Defined.

(** ** The validation dispatcher *)

(** C2, as stated: an index that is neither 0 nor 1 - the absent index,
    [None] - is taken without an error, as a validation batch. *)
Lemma absent_index_counterexample :
  let r := validation_step (const_model 15)
             (floats [12; 58], floats [10; 60]) 0 None fresh in
  (None : option Z) <> Some 0 /\ (None : option Z) <> Some 1
  /\ fst r = Ok tt
  /\ val_preds (snd r) = [floats [12; 58]]
  /\ val_labels (snd r) = [floats [10; 60]].
Proof.
  cbv zeta. repeat split; try discriminate; vm_compute; reflexivity.
Qed.

(** C2 (amended). The dispatcher takes the indices 0 and 1 and the absent
    index [None], which it treats as 0: for these it raises no usage error,
    and it returns normally when the center pixel is within the prediction
    map.  For every other index it raises the [ValueError] of line 104 and
    leaves the object as it was. *)
Theorem dispatcher_source_index
    (images : Type) (model : images -> tensor4) (b : batch images)
    (batch_idx : Z) (dataloader_idx : option Z) (s : Model) :
  let r := validation_step model b batch_idx dataloader_idx s in
  (dataloader_idx = None \/ dataloader_idx = Some 0 \/ dataloader_idx = Some 1
   -> (forall msg, fst r <> Raise (ValueError msg))
      /\ (valid_output (model (fst b)) (center s) = true -> fst r = Ok tt))
  /\ (~ (dataloader_idx = None \/ dataloader_idx = Some 0
         \/ dataloader_idx = Some 1)
      -> r = (Raise (ValueError "dataloader_idx should be 0 or 1"), s))
  /\ validation_step model b batch_idx None s
     = validation_step model b batch_idx (Some 0) s.
Proof.
  cbv zeta. split; [|split].
  - intros H.
    assert (Ha : accepted dataloader_idx = true)
      by (apply accepted_cases; exact H).
    rewrite (validation_step_accepted images model b batch_idx
               dataloader_idx s Ha).
    split.
    + intros msg.
      destruct (center_pixel images model (center s) (fst b)) as [p | e] eqn:E;
        cbn [fst]; [discriminate|].
      rewrite (center_pixel_raises images model _ _ _ E). discriminate.
    + intros Hvalid.
      pose proof (center_pixel_ok_iff images model (center s) (fst b)) as Hv.
      rewrite Hvalid in Hv.
      destruct (center_pixel images model (center s) (fst b));
        [reflexivity|discriminate Hv].
  - intros H. apply validation_step_other.
    destruct (accepted dataloader_idx) eqn:E; [|reflexivity].
    apply accepted_cases in E. contradiction.
  - rewrite !validation_step_val by auto. reflexivity.
Qed.

Lemma dispatcher_source_index_witness :
  let b := (floats [12; 58], floats [10; 60]) in
  fst (validation_step (const_model 15) b 0 (Some 1) fresh) = Ok tt
  /\ validation_step (const_model 15) b 0 (Some 2) fresh
     = (Raise (ValueError "dataloader_idx should be 0 or 1"), fresh).
Proof.
  cbv zeta. split.
  - apply (dispatcher_source_index (list float) (const_model 15)
             (floats [12; 58], floats [10; 60]) 0 (Some 1) fresh).
    + right. right. reflexivity.
    + reflexivity.
  - apply (dispatcher_source_index (list float) (const_model 15)
             (floats [12; 58], floats [10; 60]) 0 (Some 2) fresh).
    intros [H | [H | H]]; discriminate H.
Defined.

(** C7. When the dispatcher has processed a batch with source index 0 (or
    [None]) or 1, the accumulator of that source has one more tensor of
    predictions and one more of labels, the batch's, so that its samples are
    those it had followed by the batch's in order, |B| more of each; the
    predictions are channel 0 of the center pixel of each sample.  The
    accumulator of the other source is as it was. *)
Theorem dispatcher_appends_batch
    (images : Type) (model : images -> tensor4) (b : batch images)
    (batch_idx : Z) (dataloader_idx : option Z) (s s' : Model) :
  validation_step model b batch_idx dataloader_idx s = (Ok tt, s') ->
  dimB (model (fst b)) = List.length (snd b) ->
  exists (p : tensor1) (h w : nat),
    py_index (center s) (dimH (model (fst b))) = Ok h
    /\ py_index (center s) (dimW (model (fst b))) = Ok w
    /\ p = map (fun i => at4 (model (fst b)) i 0%nat h w)
               (seq 0 (List.length (snd b)))
    /\ List.length p = List.length (snd b)
    /\ (dataloader_idx = None \/ dataloader_idx = Some 0
        \/ dataloader_idx = Some 1)
    /\ (dataloader_idx <> Some 1 ->
        appended (val_preds s) (val_preds s') p
        /\ appended (val_labels s) (val_labels s') (snd b)
        /\ test_preds s' = test_preds s /\ test_labels s' = test_labels s)
    /\ (dataloader_idx = Some 1 ->
        appended (test_preds s) (test_preds s') p
        /\ appended (test_labels s) (test_labels s') (snd b)
        /\ val_preds s' = val_preds s /\ val_labels s' = val_labels s).
Proof.
  intros Hstep Hsize.
  destruct (accepted dataloader_idx) eqn:Hacc;
    [|rewrite validation_step_other in Hstep by assumption; discriminate].
  apply accepted_cases in Hacc.
  assert (Hp : exists p, center_pixel images model (center s) (fst b) = Ok p
               /\ s' = if idx_eqb dataloader_idx (Some 1)
                       then set_test_labels (test_labels s ++ [snd b])
                              (set_test_preds (test_preds s ++ [p]) s)
                       else set_val_labels (val_labels s ++ [snd b])
                              (set_val_preds (val_preds s ++ [p]) s)).
  { destruct Hacc as [-> | [-> | ->]];
      [rewrite validation_step_val in Hstep by auto
      |rewrite validation_step_val in Hstep by auto
      |rewrite validation_step_test in Hstep];
      (destruct (center_pixel images model (center s) (fst b)) as [p|];
       [|discriminate]); injection Hstep as <-; exists p;
      (split; reflexivity). }
  destruct Hp as (p & Hp & ->).
  destruct (center_pixel_value images model _ _ _ Hp) as (h & w & Hh & Hw & Hv).
  rewrite Hsize in Hv.
  exists p, h, w.
  split; [exact Hh|]. split; [exact Hw|]. split; [exact Hv|].
  split; [rewrite Hv; now rewrite length_map, length_seq|].
  split; [exact Hacc|]. split.
  - intros Hne.
    assert (E : idx_eqb dataloader_idx (Some 1) = false)
      by (destruct Hacc as [-> | [-> | ->]]; [reflexivity..|congruence]).
    rewrite E. cbn.
    split; [apply appended_snoc|]. split; [apply appended_snoc|]. now split.
  - intros ->. cbn.
    split; [apply appended_snoc|]. split; [apply appended_snoc|]. now split.
Qed.

Lemma dispatcher_appends_batch_witness :
  let b := (floats [130; 490], floats [120; 480]) in
  let s := accumulate (list float) (const_model 15) (pass_batches 10) fresh in
  let s' := snd (validation_step (const_model 15) b 1 (Some 1) s) in
  List.concat (test_preds s') = floats [5; 70; 130; 490]
  /\ List.concat (test_labels s') = floats [0; 60; 120; 480]
  /\ val_preds s' = val_preds s /\ val_labels s' = val_labels s.
Proof.
  cbv zeta.
  destruct (dispatcher_appends_batch (list float) (const_model 15)
              (floats [130; 490], floats [120; 480]) 1 (Some 1)
              (accumulate (list float) (const_model 15) (pass_batches 10) fresh)
              (snd (validation_step (const_model 15)
                      (floats [130; 490], floats [120; 480]) 1 (Some 1)
                      (accumulate (list float) (const_model 15)
                         (pass_batches 10) fresh)))
              eq_refl eq_refl)
    as (p & h & w & _ & _ & _ & _ & _ & _ & H).
  destruct (H eq_refl) as (_ & _ & Hv & Hl).
  repeat split; try assumption; vm_compute; reflexivity.
Defined.

(** C9, as stated: with the index 0, which is within [None], 0 and 1, the
    dispatcher raises all the same when the center pixel is outside the
    prediction map - here the center 7 of a patch of 15 on a map of 3 by 3 -
    with the [IndexError] of the slicing of line 84. *)
Lemma dispatcher_index_error_counterexample :
  let r := validation_step (const_model 3)
             (floats [12; 58], floats [10; 60]) 0 (Some 0) fresh in
  fst r = Raise IndexError
  /\ ~ ((exists e, fst r = Raise e)
        <-> ~ (Some 0 = None \/ Some 0 = Some 0 \/ Some 0 = Some 1 :> option Z)).
Proof.
  cbv zeta.
  assert (E : fst (validation_step (const_model 3)
                     (floats [12; 58], floats [10; 60]) 0 (Some 0) fresh)
              = Raise IndexError) by (vm_compute; reflexivity).
  split; [exact E|].
  intros [H _]. apply H; [rewrite E; now eexists|].
  right. left. reflexivity.
Qed.

(** C9 (amended). The dispatcher raises its usage error exactly for an index
    other than [None], 0 and 1.  It raises at all exactly for such an index
    or when the center pixel cannot be read from the prediction map, which is
    an [IndexError]; so, the center pixel being within the map, it raises
    exactly for an index other than [None], 0 and 1.  With [None] it does
    what it does with 0: the batch goes to the validation accumulator. *)
Theorem dispatcher_raises_iff
    (images : Type) (model : images -> tensor4) (b : batch images)
    (batch_idx : Z) (dataloader_idx : option Z) (s : Model) :
  let outside := ~ (dataloader_idx = None \/ dataloader_idx = Some 0
                    \/ dataloader_idx = Some 1) in
  let r := validation_step model b batch_idx dataloader_idx s in
  ((exists msg, fst r = Raise (ValueError msg)) <-> outside)
  /\ (valid_output (model (fst b)) (center s) = true ->
      ((exists e, fst r = Raise e) <-> outside))
  /\ validation_step model b batch_idx None s
     = validation_step model b batch_idx (Some 0) s
  /\ (forall s', validation_step model b batch_idx None s = (Ok tt, s') ->
      exists p, center_pixel images model (center s) (fst b) = Ok p
                /\ appended (val_preds s) (val_preds s') p
                /\ appended (val_labels s) (val_labels s') (snd b)
                /\ test_preds s' = test_preds s
                /\ test_labels s' = test_labels s)
  /\ ((exists e, fst r = Raise e)
      <-> outside \/ valid_output (model (fst b)) (center s) = false)
  /\ (fst r = Raise IndexError
      <-> ~ outside /\ valid_output (model (fst b)) (center s) = false).
Proof.
  cbv zeta.
  assert (Hfirst :
    ((exists msg,
        fst (validation_step model b batch_idx dataloader_idx s)
        = Raise (ValueError msg))
     <-> ~ (dataloader_idx = None \/ dataloader_idx = Some 0
            \/ dataloader_idx = Some 1))
    /\ (valid_output (model (fst b)) (center s) = true ->
        ((exists e,
            fst (validation_step model b batch_idx dataloader_idx s)
            = Raise e)
         <-> ~ (dataloader_idx = None \/ dataloader_idx = Some 0
                \/ dataloader_idx = Some 1)))
    /\ validation_step model b batch_idx None s
       = validation_step model b batch_idx (Some 0) s
    /\ (forall s', validation_step model b batch_idx None s = (Ok tt, s') ->
        exists p, center_pixel images model (center s) (fst b) = Ok p
                  /\ appended (val_preds s) (val_preds s') p
                  /\ appended (val_labels s) (val_labels s') (snd b)
                  /\ test_preds s' = test_preds s
                  /\ test_labels s' = test_labels s)).
  {
    destruct (accepted dataloader_idx) eqn:Hacc.
    - assert (Hin : dataloader_idx = None \/ dataloader_idx = Some 0
                    \/ dataloader_idx = Some 1)
        by (apply accepted_cases; exact Hacc).
      rewrite (validation_step_accepted images model b batch_idx
                 dataloader_idx s Hacc).
      split; [|split; [|split]].
      + split; [|intros H; contradiction].
        intros [msg Hmsg].
        destruct (center_pixel images model (center s) (fst b)) as [p | e] eqn:E;
          cbn [fst] in Hmsg; [discriminate|].
        rewrite (center_pixel_raises images model _ _ _ E) in Hmsg.
        discriminate.
      + intros Hvalid. split; [|intros H; contradiction].
        intros [e He].
        pose proof (center_pixel_ok_iff images model (center s) (fst b)) as Hv.
        rewrite Hvalid in Hv.
        destruct (center_pixel images model (center s) (fst b));
          [discriminate He|discriminate Hv].
      + rewrite !validation_step_val by auto. reflexivity.
      + intros s' H. rewrite validation_step_val in H by auto.
        destruct (center_pixel images model (center s) (fst b)) as [p|];
          [|discriminate].
        injection H as <-. exists p. cbn.
        split; [reflexivity|]. split; [apply appended_snoc|].
        split; [apply appended_snoc|]. now split.
    - assert (Hout : ~ (dataloader_idx = None \/ dataloader_idx = Some 0
                        \/ dataloader_idx = Some 1))
        by (intros H; apply accepted_cases in H; congruence).
      rewrite (validation_step_other images model b batch_idx dataloader_idx s
                 Hacc).
      split; [|split; [|split]].
      + split; [intros _; exact Hout|intros _; now eexists].
      + intros _. split; [intros _; exact Hout|intros _; now eexists].
      + rewrite !validation_step_val by auto. reflexivity.
      + intros s' H. rewrite validation_step_val in H by auto.
        destruct (center_pixel images model (center s) (fst b)) as [p|];
          [|discriminate].
        injection H as <-. exists p. cbn.
        split; [reflexivity|]. split; [apply appended_snoc|].
        split; [apply appended_snoc|]. now split. }
  destruct Hfirst as (H1 & H2 & H3 & H4).
  split; [exact H1|]. split; [exact H2|]. split; [exact H3|].
  split; [exact H4|].
  pose proof (center_pixel_ok_iff images model (center s) (fst b)) as Hv.
  destruct (accepted dataloader_idx) eqn:Hacc.
  - assert (Hin : dataloader_idx = None \/ dataloader_idx = Some 0
                  \/ dataloader_idx = Some 1)
      by (apply accepted_cases; exact Hacc).
    rewrite (validation_step_accepted images model b batch_idx
               dataloader_idx s Hacc).
    destruct (center_pixel images model (center s) (fst b)) as [p | e] eqn:E;
      cbn [fst is_ok] in *.
    + rewrite <- Hv. split; split.
      * intros [e He]. discriminate He.
      * intros [Hout | Hf]; [contradiction|discriminate Hf].
      * discriminate.
      * intros [_ Hf]. discriminate Hf.
    + rewrite <- Hv. rewrite (center_pixel_raises images model _ _ _ E).
      split; split.
      * intros _. now right.
      * intros _. now eexists.
      * intros _. split; [intros Hout; contradiction|reflexivity].
      * reflexivity.
  - assert (Hout : ~ (dataloader_idx = None \/ dataloader_idx = Some 0
                      \/ dataloader_idx = Some 1))
      by (intros H; apply accepted_cases in H; congruence).
    rewrite (validation_step_other images model b batch_idx dataloader_idx s
               Hacc).
    cbn [fst]. split; split.
    + intros _. now left.
    + intros _. now eexists.
    + discriminate.
    + intros [Hn _]. contradiction.
Qed.

Lemma dispatcher_raises_iff_witness :
  let b := (floats [12; 58], floats [10; 60]) in
  (exists e, fst (validation_step (const_model 15) b 0 (Some 2) fresh)
             = Raise e)
  /\ exists p,
       center_pixel (list float) (const_model 15) (center fresh) (fst b) = Ok p
       /\ appended (val_preds fresh)
            (val_preds (snd (validation_step (const_model 15) b 0 None fresh)))
            p.
Proof.
  cbv zeta. split.
  - destruct (dispatcher_raises_iff (list float) (const_model 15)
                (floats [12; 58], floats [10; 60]) 0 (Some 2) fresh)
      as (_ & H & _ & _ & _ & _).
    apply H; [reflexivity|]. intros [E | [E | E]]; discriminate E.
  - destruct (dispatcher_raises_iff (list float) (const_model 15)
                (floats [12; 58], floats [10; 60]) 0 None fresh)
      as (_ & _ & _ & H & _ & _).
    destruct (H (snd (validation_step (const_model 15)
                        (floats [12; 58], floats [10; 60]) 0 None fresh))
                eq_refl) as (p & Hp & Ha & _).
    exists p. split; assumption.
Defined.

(** ** The drain *)

(** C4. A reduction returns normally exactly when no accumulator is an empty
    list and predictions and labels are as many; when it has returned, the
    four accumulators are empty lists, as on a new object, and whatever the
    dispatcher is then given accumulates as it would on the new object. *)
Theorem drain_empties_accumulators
    (images : Type) (model : images -> tensor4)
    (RMSE : tensor2 -> tensor1 -> float)
    (sched_lr : float) (current_epoch : Z) (s s' : Model)
    (n : Z) (lr0 : float) (ss : Z) (g : float) (ps : list Z) (ds : bool)
    (lf : string) (s0 : Model)
    (bs : list (batch images * Z * option Z)) :
  on_validation_epoch_end RMSE sched_lr current_epoch s = (Ok tt, s') ->
  __init__ n lr0 ss g ps ds lf = Ok s0 ->
  drain_ready s = true
  /\ val_preds s' = [] /\ val_labels s' = []
  /\ test_preds s' = [] /\ test_labels s' = []
  /\ List.length (val_preds s') = 0%nat /\ List.length (val_labels s') = 0%nat
  /\ List.length (test_preds s') = 0%nat /\ List.length (test_labels s') = 0%nat
  /\ accumulators s' = accumulators s0
  /\ (center s = center s0 ->
      accumulators (accumulate images model bs s')
      = accumulators (accumulate images model bs s0)).
Proof.
  intros Hrun Hinit.
  apply on_validation_epoch_end_ok_iff in Hrun as [Hready ->].
  destruct (init_watermark _ _ _ _ _ _ _ _ Hinit)
    as (_ & Hvp & Hvl & Htp & Htl & _).
  assert (Hacc : accumulators (epoch_end_state RMSE sched_lr current_epoch s)
                 = accumulators s0)
    by (unfold accumulators; rewrite Hvp, Hvl, Htp, Htl; reflexivity).
  repeat (split; [first [exact Hready | reflexivity | exact Hacc]|]).
  intros Hc. apply accumulate_accumulators; [exact Hacc|exact Hc].
Qed.

Lemma drain_empties_accumulators_witness :
  let s := accumulate (list float) (const_model 15) (pass_batches 10) fresh in
  let s' := snd (on_validation_epoch_end RMSE_ref lr_example 0 s) in
  accumulators s <> accumulators fresh
  /\ accumulators s' = accumulators fresh
  /\ accumulators (accumulate (list float) (const_model 15)
                     (pass_batches 8) s')
     = accumulators (accumulate (list float) (const_model 15)
                       (pass_batches 8) fresh).
Proof.
  cbv zeta.
  pose proof (drain_empties_accumulators (list float) (const_model 15)
                RMSE_ref lr_example 0
                (accumulate (list float) (const_model 15) (pass_batches 10)
                   fresh)
                (snd (on_validation_epoch_end RMSE_ref lr_example 0
                        (accumulate (list float) (const_model 15)
                           (pass_batches 10) fresh)))
                1 lr_example 10 (SFdiv prec emax (of_Z 1) (of_Z 2))
                [15; 15] false "MSE" fresh (pass_batches 8)
                ltac:(vm_compute; reflexivity) eq_refl) as H.
  destruct H as (_ & _ & _ & _ & _ & _ & _ & _ & _ & Hacc & Hnext).
  split; [vm_compute; discriminate|].
  split; [exact Hacc|]. apply Hnext. reflexivity.
Defined.

(** ** The center pixel *)

(** C5. The constructor sets the center from [patch_size[0]]: half of it
    without downsampling, half of its fifth with downsampling (floor
    divisions); for a patch size of 15 that is 7 and 1.  Neither the
    dispatcher nor the reducer assigns it again. *)
Theorem center_at_construction
    (images : Type) (model : images -> tensor4)
    (RMSE : tensor2 -> tensor1 -> float)
    (n : Z) (lr0 : float) (ss : Z) (g : float) (p : Z) (rest : list Z)
    (lf : string) (b : batch images) (batch_idx : Z)
    (dataloader_idx : option Z) (sched_lr : float) (current_epoch : Z)
    (s : Model) :
  (exists s0, __init__ n lr0 ss g (p :: rest) false lf = Ok s0
              /\ center s0 = p / 2)
  /\ (exists s0, __init__ n lr0 ss g (p :: rest) true lf = Ok s0
                 /\ center s0 = (p / 5) / 2)
  /\ (exists s0, __init__ n lr0 ss g (15 :: rest) false lf = Ok s0
                 /\ center s0 = 7)
  /\ (exists s0, __init__ n lr0 ss g (15 :: rest) true lf = Ok s0
                 /\ center s0 = 1)
  /\ center (snd (validation_step model b batch_idx dataloader_idx s))
     = center s
  /\ center (snd (on_validation_epoch_end RMSE sched_lr current_epoch s))
     = center s.
Proof.
  repeat split; try (eexists; split; reflexivity).
  - apply validation_step_frame.
  - destruct (drain_ready s) eqn:E.
    + rewrite on_validation_epoch_end_ok by assumption. reflexivity.
    + destruct (on_validation_epoch_end_raise RMSE sched_lr current_epoch s E)
        as (e & s' & -> & _ & Hc). exact Hc.
Qed.

(** ** The binned evaluator *)

(** C3, as stated: no validation label is in [[150, 200)], and the reduction
    reports a metric for that bin all the same; with the root of the mean of
    the squared errors it is NaN. *)
Lemma empty_bin_counterexample :
  let s := accumulate (list float) (const_model 15) sparse_batches fresh in
  let r := on_validation_epoch_end RMSE_ref lr_example 0 s in
  bin_labels (150, 200) (List.concat (val_labels s)) = []
  /\ fst r = Ok tt
  /\ values_of "val/binned/rmse_150-200" (logged (snd r)) = [SFloat nan].
Proof. cbv zeta. repeat split; vm_compute; reflexivity. Qed.

(** C3 (amended). A reduction that returns has reported, for each of the ten
    bins and for both sources, one metric: the RMSE of the predictions and
    labels the bin selects.  That holds for a bin that selects nothing as
    well, whose metric is the RMSE of empty tensors; whether the reduction
    returns depends on the accumulators being non-empty and of matching
    sizes, not on any bin. *)
Theorem every_bin_is_reported
    (RMSE : tensor2 -> tensor1 -> float)
    (sched_lr : float) (current_epoch : Z) (s s' : Model) (lb ub : Z) :
  on_validation_epoch_end RMSE sched_lr current_epoch s = (Ok tt, s') ->
  In (lb, ub) (bin_pairs (arange 0 501 50)) ->
  let val_mask := bin_mask lb ub (List.concat (val_labels s)) in
  let test_mask := bin_mask lb ub (List.concat (test_labels s)) in
  let val_bin_preds :=
    masked val_mask (rows (unsqueeze1 (List.concat (val_preds s)))) in
  let test_bin_preds :=
    masked test_mask (rows (unsqueeze1 (List.concat (test_preds s)))) in
  In [(bin_name "val/binned/rmse_" lb ub,
       SFloat (RMSE (mkTensor2 1 val_bin_preds)
                    (masked val_mask (List.concat (val_labels s)))));
      ("step", SInt current_epoch)] (logged s')
  /\ In [(bin_name "test/binned/rmse_" lb ub,
          SFloat (RMSE (mkTensor2 1 test_bin_preds)
                       (masked test_mask (List.concat (test_labels s)))));
         ("step", SInt current_epoch)] (logged s')
  /\ (bin_labels (lb, ub) (List.concat (val_labels s)) = [] ->
      In [(bin_name "val/binned/rmse_" lb ub,
           SFloat (RMSE (mkTensor2 1 []) []));
          ("step", SInt current_epoch)] (logged s'))
  /\ (bin_labels (lb, ub) (List.concat (test_labels s)) = [] ->
      In [(bin_name "test/binned/rmse_" lb ub,
           SFloat (RMSE (mkTensor2 1 []) []));
          ("step", SInt current_epoch)] (logged s'))
  /\ (forall t : Model,
        drain_ready t = true ->
        fst (on_validation_epoch_end RMSE sched_lr current_epoch t) = Ok tt).
Proof.
  intros Hrun Hb. cbv zeta.
  pose proof (epoch_end_log_logged RMSE sched_lr current_epoch s s' _ Hrun
                (in_val_bin_entries RMSE sched_lr current_epoch s _ Hb)) as Hv.
  pose proof (epoch_end_log_logged RMSE sched_lr current_epoch s s' _ Hrun
                (in_test_bin_entries RMSE sched_lr current_epoch s _ Hb)) as Ht.
  unfold bin_entry, cat_val_preds, cat_val_labels, cat_test_preds,
    cat_test_labels in Hv, Ht.
  cbn [fst snd ncols unsqueeze1] in Hv, Ht.
  apply on_validation_epoch_end_ok_iff in Hrun as [Hready _].
  unfold drain_ready in Hready.
  repeat (apply andb_prop in Hready; destruct Hready as [Hready ?]).
  repeat match goal with
         | E : Nat.eqb _ _ = true |- _ => apply Nat.eqb_eq in E
         end.
  split; [exact Hv|]. split; [exact Ht|].
  split; [|split;
           [|intros t Hready'; now rewrite on_validation_epoch_end_ok]].
  - intros Hempty. unfold bin_labels in Hempty. cbn [fst snd] in Hempty.
    rewrite Hempty in Hv.
    rewrite (masked_nil_same_length _
               (rows (unsqueeze1 (List.concat (val_preds s))))
               (List.concat (val_labels s))) in Hv
      by (now rewrite ?unsqueeze1_rows_length).
    exact Hv.
  - intros Hempty. unfold bin_labels in Hempty. cbn [fst snd] in Hempty.
    rewrite Hempty in Ht.
    rewrite (masked_nil_same_length _
               (rows (unsqueeze1 (List.concat (test_preds s))))
               (List.concat (test_labels s))) in Ht
      by (now rewrite ?unsqueeze1_rows_length).
    exact Ht.
Qed.

Lemma every_bin_is_reported_witness :
  let s := accumulate (list float) (const_model 15) sparse_batches fresh in
  let s' := snd (on_validation_epoch_end RMSE_ref lr_example 0 s) in
  In [("val/binned/rmse_150-200", SFloat nan); ("step", SInt 0)] (logged s').
Proof.
  cbv zeta.
  destruct (every_bin_is_reported RMSE_ref lr_example 0
              (accumulate (list float) (const_model 15) sparse_batches fresh)
              (snd (on_validation_epoch_end RMSE_ref lr_example 0
                      (accumulate (list float) (const_model 15)
                         sparse_batches fresh)))
              150 200 ltac:(vm_compute; reflexivity)
              ltac:(vm_compute; tauto))
    as (_ & _ & H & _ & _).
  apply H. vm_compute. reflexivity.
Defined.

(** C6. The bins are the half-open intervals between the boundaries 0, 50,
    ..., 500.  For every sequence of labels the labels the bins select,
    taken together, are the labels within [[0, 500)], each as often as it
    occurs; no label is in two bins and a label outside [[0, 500)] is in
    none.  The overall RMSE a reduction reports is over all samples, and the
    metric of a bin over the samples the bin selects: the loop over the bins
    returns whenever the predictions are as many as the labels, having
    reported one metric per bin, in the order of the bins, each over the rows
    and the labels the bin selects, also for a bin that selects none; it
    raises otherwise; and a reduction that finds no accumulator empty and as
    many predictions as labels returns with these reports. *)
Theorem bins_partition_labels
    (RMSE : tensor2 -> tensor1 -> float)
    (l : tensor1) (x : float) (b1 b2 : Z * Z)
    (sched_lr : float) (current_epoch : Z) (s s' : Model)
    (prefix : string) (preds : tensor2) :
  let pairs := bin_pairs (arange 0 501 50) in
  pairs = [(0, 50); (50, 100); (100, 150); (150, 200); (200, 250);
           (250, 300); (300, 350); (350, 400); (400, 450); (450, 500)]
  /\ in_bin (fst b1) (snd b1) x
     = (leb (of_Z (fst b1)) x && ltb x (of_Z (snd b1)))
  /\ bin_labels b1 l = filter (in_bin (fst b1) (snd b1)) l
  /\ Permutation (List.concat (map (fun b => bin_labels b l) pairs))
                 (filter (in_bin 0 500) l)
  /\ (In b1 pairs -> In b2 pairs ->
      in_bin (fst b1) (snd b1) x = true -> in_bin (fst b2) (snd b2) x = true ->
      b1 = b2)
  /\ (In b1 pairs -> in_bin (fst b1) (snd b1) x = true ->
      in_bin 0 500 x = true)
  /\ (in_bin 0 500 x = true ->
      exists b, In b pairs /\ in_bin (fst b) (snd b) x = true)
  /\ (on_validation_epoch_end RMSE sched_lr current_epoch s = (Ok tt, s') ->
      In [("val/agbd_rmse",
           SFloat (RMSE (unsqueeze1 (List.concat (val_preds s)))
                        (List.concat (val_labels s))));
          ("step", SInt current_epoch)] (logged s')
      /\ In [("test/agbd_rmse",
              SFloat (RMSE (unsqueeze1 (List.concat (test_preds s)))
                           (List.concat (test_labels s))));
             ("step", SInt current_epoch)] (logged s')
      /\ (In b1 pairs ->
          In [(bin_name "val/binned/rmse_" (fst b1) (snd b1),
               SFloat (RMSE
                 (mkTensor2 1
                    (masked (bin_mask (fst b1) (snd b1)
                               (List.concat (val_labels s)))
                            (rows (unsqueeze1 (List.concat (val_preds s))))))
                 (bin_labels b1 (List.concat (val_labels s)))));
              ("step", SInt current_epoch)] (logged s')))
  /\ (List.length (rows preds) = List.length l ->
      binned_rmse RMSE prefix preds l current_epoch s
      = (Ok tt,
         set_logged
           (logged s
            ++ map (fun b =>
                      [(bin_name prefix (fst b) (snd b),
                        SFloat (RMSE
                          (mkTensor2 (ncols preds)
                             (masked (bin_mask (fst b) (snd b) l)
                                     (rows preds)))
                          (bin_labels b l)));
                       ("step", SInt current_epoch)]) pairs) s))
  /\ (List.length (rows preds) <> List.length l ->
      binned_rmse RMSE prefix preds l current_epoch s = (Raise IndexError, s))
  /\ (drain_ready s = true ->
      let r := on_validation_epoch_end RMSE sched_lr current_epoch s in
      fst r = Ok tt
      /\ In [("val/agbd_rmse",
              SFloat (RMSE (unsqueeze1 (List.concat (val_preds s)))
                           (List.concat (val_labels s))));
             ("step", SInt current_epoch)] (logged (snd r))
      /\ In [("test/agbd_rmse",
              SFloat (RMSE (unsqueeze1 (List.concat (test_preds s)))
                           (List.concat (test_labels s))));
             ("step", SInt current_epoch)] (logged (snd r))
      /\ (In b1 pairs ->
          In [(bin_name "val/binned/rmse_" (fst b1) (snd b1),
               SFloat (RMSE
                 (mkTensor2 1
                    (masked (bin_mask (fst b1) (snd b1)
                               (List.concat (val_labels s)))
                            (rows (unsqueeze1 (List.concat (val_preds s))))))
                 (bin_labels b1 (List.concat (val_labels s)))));
              ("step", SInt current_epoch)] (logged (snd r))
          /\ In [(bin_name "test/binned/rmse_" (fst b1) (snd b1),
                  SFloat (RMSE
                    (mkTensor2 1
                       (masked (bin_mask (fst b1) (snd b1)
                                  (List.concat (test_labels s)))
                               (rows (unsqueeze1
                                        (List.concat (test_preds s))))))
                    (bin_labels b1 (List.concat (test_labels s)))));
                 ("step", SInt current_epoch)] (logged (snd r)))).
Proof.
  cbv zeta.
  assert (Hinc : increasing (arange 0 501 50) = true)
    by (vm_compute; reflexivity).
  pose proof (bins_of_count 0 (tl (arange 0 501 50)) x Hinc) as Hcount.
  change (0 :: tl (arange 0 501 50)) with (arange 0 501 50) in Hcount.
  change (last (tl (arange 0 501 50)) 0) with 500 in Hcount.
  change (nonempty (tl (arange 0 501 50))) with true in Hcount.
  rewrite andb_true_r in Hcount.
  split; [reflexivity|]. split; [reflexivity|].
  split; [apply bin_labels_filter|]. split.
  { exact (concat_bins_perm 0 (tl (arange 0 501 50)) l Hinc eq_refl). }
  split.
  { intros H1 H2 I1 I2.
    apply (filter_at_most_one (fun b => in_bin (fst b) (snd b) x)
             (bin_pairs (arange 0 501 50))); try assumption.
    unfold bins_of in Hcount. rewrite Hcount.
    destruct (in_bin 0 500 x); lia. }
  split.
  { intros H1 I1. destruct (in_bin 0 500 x); [reflexivity|].
    assert (I : In b1 (bins_of (bin_pairs (arange 0 501 50)) x))
      by (apply filter_In; now split).
    destruct (bins_of (bin_pairs (arange 0 501 50)) x);
      [destruct I|discriminate Hcount]. }
  split.
  { intros Hin. rewrite Hin in Hcount.
    destruct (bins_of (bin_pairs (arange 0 501 50)) x) as [|b bs] eqn:E;
      [discriminate Hcount|].
    assert (I : In b (bins_of (bin_pairs (arange 0 501 50)) x))
      by (rewrite E; now left).
    apply filter_In in I. now exists b. }
  split.
  { intros Hrun. split; [|split].
    - apply (epoch_end_log_logged RMSE sched_lr current_epoch s s' _ Hrun).
      right. left. reflexivity.
    - apply (epoch_end_log_logged RMSE sched_lr current_epoch s s' _ Hrun).
      unfold epoch_end_log. right. right. apply in_or_app. right. left.
      reflexivity.
    - intros Hb.
      apply (epoch_end_log_logged RMSE sched_lr current_epoch s s' _ Hrun).
      exact (in_val_bin_entries RMSE sched_lr current_epoch s b1 Hb). }
  split.
  { intros Hlen.
    exact (binned_rmse_ok RMSE prefix preds l current_epoch s Hlen). }
  split.
  { intros Hlen.
    exact (binned_rmse_err RMSE prefix preds l current_epoch s Hlen). }
  intros Hready.
  pose proof (on_validation_epoch_end_ok RMSE sched_lr current_epoch s Hready)
    as Hrun.
  rewrite Hrun. cbn [fst snd].
  split; [reflexivity|]. split; [|split].
  - apply (epoch_end_log_logged RMSE sched_lr current_epoch s _ _ Hrun).
    right. left. reflexivity.
  - apply (epoch_end_log_logged RMSE sched_lr current_epoch s _ _ Hrun).
    unfold epoch_end_log. right. right. apply in_or_app. right. left.
    reflexivity.
  - intros Hb. split.
    + apply (epoch_end_log_logged RMSE sched_lr current_epoch s _ _ Hrun).
      exact (in_val_bin_entries RMSE sched_lr current_epoch s b1 Hb).
    + apply (epoch_end_log_logged RMSE sched_lr current_epoch s _ _ Hrun).
      exact (in_test_bin_entries RMSE sched_lr current_epoch s b1 Hb).
Qed.

Lemma bins_partition_labels_witness :
  let l := floats [10; 60; 120; 480; 500; 730; 50; 60] in
  let found := accumulate (list float) (const_model 15) sparse_batches fresh in
  let r := on_validation_epoch_end RMSE_ref lr_example 0 found in
  Permutation
    (List.concat (map (fun b => bin_labels b l) (bin_pairs (arange 0 501 50))))
    (floats [10; 60; 120; 480; 50; 60])
  /\ (forall b, In b (bin_pairs (arange 0 501 50)) ->
      in_bin (fst b) (snd b) (of_Z 500) = true -> False)
  /\ In [("val/agbd_rmse", SFloat (of_Z 10)); ("step", SInt 0)]
        (logged (run_all (const_model 15) RMSE_ref (pass 10 0) fresh))
  /\ (let out := binned_rmse RMSE_ref "val/binned/rmse_"
                   (unsqueeze1 (floats [12; 58; 130; 490]))
                   (floats [10; 60; 120; 480]) 0 fresh in
      fst out = Ok tt
      /\ List.length (logged (snd out)) = 10%nat
      /\ nth 0 (logged (snd out)) []
         = [("val/binned/rmse_0-50", SFloat (of_Z 2)); ("step", SInt 0)]
      /\ nth 9 (logged (snd out)) []
         = [("val/binned/rmse_450-500", SFloat (of_Z 10)); ("step", SInt 0)])
  /\ binned_rmse RMSE_ref "val/binned/rmse_"
       (unsqueeze1 (floats [12; 58; 130])) (floats [10; 60; 120; 480]) 0 fresh
     = (Raise IndexError, fresh)
  /\ fst r = Ok tt
  /\ In [("val/binned/rmse_450-500", SFloat (of_Z 10)); ("step", SInt 0)]
        (logged (snd r))
  /\ In [("test/binned/rmse_50-100", SFloat (of_Z 10)); ("step", SInt 0)]
        (logged (snd r)).
Proof.
  cbv zeta. split; [|split; [|split; [|split; [|split]]]].
  - exact (proj1 (proj2 (proj2 (proj2
      (bins_partition_labels RMSE_ref
         (floats [10; 60; 120; 480; 500; 730; 50; 60]) (of_Z 500)
         (0, 50) (0, 50) lr_example 0 fresh fresh "" (unsqueeze1 [])))))).
  - intros b Hb Hin.
    pose proof (proj1 (proj2 (proj2 (proj2 (proj2 (proj2
      (bins_partition_labels RMSE_ref [] (of_Z 500) b b lr_example 0
         fresh fresh "" (unsqueeze1 []))))))) Hb Hin) as H.
    vm_compute in H. discriminate H.
  - pose proof (proj1 (proj2 (proj2 (proj2 (proj2 (proj2 (proj2 (proj2
      (bins_partition_labels RMSE_ref [] (of_Z 500) (0, 50) (0, 50)
         lr_example 0
         (accumulate (list float) (const_model 15) (pass_batches 10) fresh)
         (run_all (const_model 15) RMSE_ref (pass 10 0) fresh)
         "" (unsqueeze1 [])))))))))
      ltac:(vm_compute; reflexivity)) as H.
    destruct H as (H & _). vm_compute in H. vm_compute. exact H.
  - destruct (bins_partition_labels RMSE_ref (floats [10; 60; 120; 480])
                (of_Z 500) (0, 50) (0, 50) lr_example 0 fresh fresh
                "val/binned/rmse_" (unsqueeze1 (floats [12; 58; 130; 490])))
      as (_ & _ & _ & _ & _ & _ & _ & _ & H & _ & _).
    rewrite (H ltac:(vm_compute; reflexivity)).
    vm_compute. repeat split; reflexivity.
  - destruct (bins_partition_labels RMSE_ref (floats [10; 60; 120; 480])
                (of_Z 500) (0, 50) (0, 50) lr_example 0 fresh fresh
                "val/binned/rmse_" (unsqueeze1 (floats [12; 58; 130])))
      as (_ & _ & _ & _ & _ & _ & _ & _ & _ & H & _).
    apply H. vm_compute. discriminate.
  - destruct (bins_partition_labels RMSE_ref [] (of_Z 500) (450, 500)
                (0, 50) lr_example 0
                (accumulate (list float) (const_model 15) sparse_batches fresh)
                fresh "" (unsqueeze1 []))
      as (_ & _ & _ & _ & _ & _ & _ & _ & _ & _ & H).
    specialize (H ltac:(vm_compute; reflexivity)).
    cbv zeta in H. destruct H as (H1 & _ & _ & H2).
    split; [exact H1|].
    destruct (H2 ltac:(vm_compute;
                       repeat (first [left; reflexivity | right])))
      as (H3 & _).
    split; [vm_compute in H3; vm_compute; exact H3|].
    destruct (bins_partition_labels RMSE_ref [] (of_Z 500) (50, 100)
                (0, 50) lr_example 0
                (accumulate (list float) (const_model 15) sparse_batches fresh)
                fresh "" (unsqueeze1 []))
      as (_ & _ & _ & _ & _ & _ & _ & _ & _ & _ & H).
    specialize (H ltac:(vm_compute; reflexivity)).
    cbv zeta in H. destruct H as (_ & _ & _ & H4).
    destruct (H4 ltac:(vm_compute;
                       repeat (first [left; reflexivity | right])))
      as (_ & H5).
    vm_compute in H5. vm_compute. exact H5.
Defined.

(** ** The scenario of three reductions *)

(** C8 (amended). With validation RMSE 10.0, 8.0 and 9.0 at three reductions
    in a row on a new object, whatever has been accumulated in between, the
    watermark is 10.0, 8.0 and 8.0 after them; the first and the second
    reduction report every best test metric, tagged with their epoch, and
    the third reports none. *)
Theorem three_epochs_scenario
    (images : Type) (model : images -> tensor4)
    (RMSE : tensor2 -> tensor1 -> float)
    (n : Z) (lr0 : float) (ss : Z) (g : float) (ps : list Z) (ds : bool)
    (lf : string) (s0 s1 s2 s3 : Model)
    (bs1 bs2 bs3 : list (batch images * Z * option Z))
    (lr1 lr2 lr3 : float) (e1 e2 e3 : Z) :
  __init__ n lr0 ss g ps ds lf = Ok s0 ->
  on_validation_epoch_end RMSE lr1 e1 (accumulate images model bs1 s0)
    = (Ok tt, s1) ->
  on_validation_epoch_end RMSE lr2 e2 (accumulate images model bs2 s1)
    = (Ok tt, s2) ->
  on_validation_epoch_end RMSE lr3 e3 (accumulate images model bs3 s2)
    = (Ok tt, s3) ->
  val_rmse RMSE (accumulate images model bs1 s0) = of_Z 10 ->
  val_rmse RMSE (accumulate images model bs2 s1) = of_Z 8 ->
  val_rmse RMSE (accumulate images model bs3 s2) = of_Z 9 ->
  [best_val_rmse s1; best_val_rmse s2; best_val_rmse s3]
  = [of_Z 10; of_Z 8; of_Z 8]
  /\ exists d1 d2 d3,
       logged s1 = logged s0 ++ d1 /\ logged s2 = logged s1 ++ d2
       /\ logged s3 = logged s2 ++ d3
       /\ reports_best_test e1 d1 /\ reports_best_test e2 d2
       /\ no_best_test d3.
Proof.
  intros Hinit H1 H2 H3 V1 V2 V3.
  destruct (init_watermark _ _ _ _ _ _ _ _ Hinit) as (Hinf & _).
  apply on_validation_epoch_end_ok_iff in H1 as [_ ->].
  pose proof (epoch_end_log_best RMSE lr1 e1 (accumulate images model bs1 s0))
    as L1.
  destruct (accumulate_frame images model bs1 s0) as (B1 & _ & G1).
  assert (I1 : improves RMSE (accumulate images model bs1 s0) = true)
    by (unfold improves; rewrite V1, B1, Hinf; reflexivity).
  rewrite I1 in L1.
  set (t1 := epoch_end_state RMSE lr1 e1 (accumulate images model bs1 s0)) in *.
  assert (W1 : best_val_rmse t1 = of_Z 10)
    by (unfold t1, epoch_end_state; cbn [best_val_rmse]; now rewrite I1).
  apply on_validation_epoch_end_ok_iff in H2 as [_ ->].
  pose proof (epoch_end_log_best RMSE lr2 e2 (accumulate images model bs2 t1))
    as L2.
  destruct (accumulate_frame images model bs2 t1) as (B2 & _ & G2).
  assert (I2 : improves RMSE (accumulate images model bs2 t1) = true)
    by (unfold improves; rewrite V2, B2, W1; reflexivity).
  rewrite I2 in L2.
  set (t2 := epoch_end_state RMSE lr2 e2 (accumulate images model bs2 t1)) in *.
  assert (W2 : best_val_rmse t2 = of_Z 8)
    by (unfold t2, epoch_end_state; cbn [best_val_rmse]; now rewrite I2).
  apply on_validation_epoch_end_ok_iff in H3 as [_ ->].
  pose proof (epoch_end_log_best RMSE lr3 e3 (accumulate images model bs3 t2))
    as L3.
  destruct (accumulate_frame images model bs3 t2) as (B3 & _ & G3).
  assert (I3 : improves RMSE (accumulate images model bs3 t2) = false)
    by (unfold improves; rewrite V3, B3, W2; reflexivity).
  rewrite I3 in L3.
  set (t3 := epoch_end_state RMSE lr3 e3 (accumulate images model bs3 t2)) in *.
  assert (W3 : best_val_rmse t3 = of_Z 8)
    by (unfold t3, epoch_end_state; cbn [best_val_rmse];
        now rewrite I3, B3, W2).
  split; [now rewrite W1, W2, W3|].
  eexists _, _, _.
  split; [unfold t1, epoch_end_state; cbn [logged]; rewrite G1; reflexivity|].
  split; [unfold t2 at 1, epoch_end_state; cbn [logged]; rewrite G2;
          reflexivity|].
  split; [unfold t3 at 1, epoch_end_state; cbn [logged]; rewrite G3;
          reflexivity|].
  auto.
Qed.

Lemma three_epochs_scenario_witness :
  let m := const_model 15 in
  let s1 := run_all m RMSE_ref (pass 10 0) fresh in
  let s2 := run_all m RMSE_ref (pass 8 1) s1 in
  let s3 := run_all m RMSE_ref (pass 9 2) s2 in
  [best_val_rmse s1; best_val_rmse s2; best_val_rmse s3]
  = [of_Z 10; of_Z 8; of_Z 8]
  /\ exists d1 d2 d3,
       logged s1 = logged fresh ++ d1 /\ logged s2 = logged s1 ++ d2
       /\ logged s3 = logged s2 ++ d3
       /\ reports_best_test 0 d1 /\ reports_best_test 1 d2
       /\ no_best_test d3.
Proof.
  intros m s1 s2 s3.
  apply (three_epochs_scenario (list float) m RMSE_ref
           1 lr_example 10 (SFdiv prec emax (of_Z 1) (of_Z 2)) [15; 15] false
           "MSE" fresh s1 s2 s3
           (pass_batches 10) (pass_batches 8) (pass_batches 9)
           lr_example lr_example lr_example 0 1 2);
    vm_compute; reflexivity.
Defined.

(** C8, as stated with 0-indexed epochs: in the run of three epochs 0, 1
    and 2 with validation RMSE 10.0, 8.0 and 9.0, the best test metrics are
    reported at epochs 0 and 1, not at epochs 1 and 2. *)
Lemma three_epochs_zero_indexed_counterexample :
  let log := logged (run_all (const_model 15) RMSE_ref
                       (pass 10 0 ++ pass 8 1 ++ pass 9 2) fresh) in
  values_of "val/agbd_rmse" log
  = [SFloat (of_Z 10); SFloat (of_Z 8); SFloat (of_Z 9)]
  /\ nodup Z.eq_dec (best_test_epochs log) = [0; 1]
  /\ ~ (forall e, In e (best_test_epochs log) <-> e = 1 \/ e = 2).
Proof.
  cbv zeta. split; [vm_compute; reflexivity|].
  assert (E : nodup Z.eq_dec
                (best_test_epochs
                   (logged (run_all (const_model 15) RMSE_ref
                              (pass 10 0 ++ pass 8 1 ++ pass 9 2) fresh)))
              = [0; 1]) by (vm_compute; reflexivity).
  split; [exact E|].
  intros H. specialize (H 2). destruct H as [_ H].
  specialize (H (or_intror eq_refl)).
  apply (nodup_In Z.eq_dec) in H. rewrite E in H.
  destruct H as [H | [H | []]]; discriminate H.
Qed.

(** ** The best namespace repeats the metrics of the same reduction *)

(** C10. In a reduction that updates the watermark, the calls of the
    reduction are, in this order: the call for ["test/agbd_rmse"], the calls
    for the ten ["test/binned/rmse_..."], the call for ["val/best_rmse"],
    the call for ["test/best_rmse"] with the value of ["test/agbd_rmse"],
    and the calls for the ten ["test/binned/best_rmse_..."], each with the
    value of the call for the same bin before.  So the values the reduction
    reports under the best names are those it reports under the plain
    names, although the test accumulator has been emptied in between. *)
Theorem best_metrics_repeat_test_metrics
    (RMSE : tensor2 -> tensor1 -> float)
    (sched_lr : float) (current_epoch : Z) (s s' : Model) (lb ub : Z) :
  on_validation_epoch_end RMSE sched_lr current_epoch s = (Ok tt, s') ->
  ltb (RMSE (unsqueeze1 (List.concat (val_preds s)))
            (List.concat (val_labels s)))
      (best_val_rmse s) = true ->
  exists (before test_bins best_bins : list dict) (v : float),
    logged s'
    = logged s ++ before
      ++ [("test/agbd_rmse", SFloat v); ("step", SInt current_epoch)]
         :: test_bins
      ++ [("val/best_rmse", SFloat (best_val_rmse s'));
          ("step", SInt current_epoch)]
         :: [("test/best_rmse", SFloat v); ("step", SInt current_epoch)]
         :: best_bins
    /\ v = RMSE (unsqueeze1 (List.concat (test_preds s)))
                (List.concat (test_labels s))
    /\ Forall2 (same_bin_metric current_epoch) test_bins best_bins
    /\ List.length test_bins = 10%nat
    /\ test_preds s' = [] /\ test_labels s' = []
    /\ (let new := skipn (List.length (logged s)) (logged s') in
        values_of "test/best_rmse" new = [SFloat v]
        /\ values_of "test/agbd_rmse" new = [SFloat v]
        /\ (In (lb, ub) (bin_pairs (arange 0 501 50)) ->
            exists w,
              values_of (bin_name "test/binned/best_rmse_" lb ub) new
              = [SFloat w]
              /\ values_of (bin_name "test/binned/rmse_" lb ub) new
                 = [SFloat w])).
Proof.
  intros Hrun Hlt.
  apply on_validation_epoch_end_ok_iff in Hrun as [_ ->].
  assert (Himp : improves RMSE s = true) by exact Hlt.
  exists ([("trainer/learning_rate", SFloat sched_lr);
           ("step", SInt current_epoch)]
          :: [("val/agbd_rmse", SFloat (val_rmse RMSE s));
              ("step", SInt current_epoch)]
          :: bin_entries RMSE "val/binned/rmse_" (cat_val_preds s)
               (cat_val_labels s) current_epoch),
         (bin_entries RMSE "test/binned/rmse_" (cat_test_preds s)
            (cat_test_labels s) current_epoch),
         (bin_entries RMSE "test/binned/best_rmse_" (cat_test_preds s)
            (cat_test_labels s) current_epoch),
         (test_rmse RMSE s).
  split.
  { unfold epoch_end_state, epoch_end_log, best_log. cbn [logged best_val_rmse].
    rewrite Himp. cbn [app]. reflexivity. }
  split; [reflexivity|].
  split; [apply bin_entries_same|].
  split; [reflexivity|]. split; [reflexivity|]. split; [reflexivity|].
  cbv zeta.
  assert (Hnew : skipn (List.length (logged s))
                   (logged (epoch_end_state RMSE sched_lr current_epoch s))
                 = epoch_end_log RMSE sched_lr current_epoch s).
  { unfold epoch_end_state. cbn [logged].
    rewrite skipn_app, skipn_all, Nat.sub_diag. reflexivity. }
  rewrite Hnew. unfold epoch_end_log. rewrite Himp. unfold best_log.
  generalize (val_rmse RMSE s) (test_rmse RMSE s) (cat_val_preds s)
    (cat_val_labels s) (cat_test_preds s) (cat_test_labels s).
  intros vr tr vp vl tp tl.
  rewrite !bin_entries_dicts.
  generalize (bin_value RMSE vp vl) (bin_value RMSE tp tl). intros fv ft.
  split; [vm_compute; reflexivity|]. split; [vm_compute; reflexivity|].
  intros Hb. exists (ft (lb, ub)).
  rewrite bins_value in Hb. cbn [In] in Hb.
  repeat (destruct Hb as [Hb | Hb];
          [injection Hb as <- <-; split; vm_compute; reflexivity|]).
  destruct Hb.
Qed.

Lemma best_metrics_repeat_test_metrics_witness :
  let s := accumulate (list float) (const_model 15) sparse_batches fresh in
  let new := logged (snd (on_validation_epoch_end RMSE_ref lr_example 0 s)) in
  values_of "test/best_rmse" new = values_of "test/agbd_rmse" new
  /\ values_of "test/binned/best_rmse_50-100" new
     = values_of "test/binned/rmse_50-100" new
  /\ values_of "test/binned/best_rmse_50-100" new = [SFloat (of_Z 10)].
Proof.
  cbv zeta.
  destruct (best_metrics_repeat_test_metrics RMSE_ref lr_example 0
              (accumulate (list float) (const_model 15) sparse_batches fresh)
              (snd (on_validation_epoch_end RMSE_ref lr_example 0
                      (accumulate (list float) (const_model 15)
                         sparse_batches fresh)))
              50 100 ltac:(vm_compute; reflexivity)
              ltac:(vm_compute; reflexivity))
    as (before & test_bins & best_bins & v & _ & _ & _ & _ & _ & _ & H).
  cbv zeta in H. destruct H as (H1 & H2 & H3).
  destruct (H3 ltac:(vm_compute; tauto)) as (w & H4 & H5).
  change (skipn _ _) with
    (logged (snd (on_validation_epoch_end RMSE_ref lr_example 0
                    (accumulate (list float) (const_model 15)
                       sparse_batches fresh)))) in H1, H2, H4, H5.
  split; [exact (eq_trans H1 (eq_sym H2))|].
  split; [exact (eq_trans H4 (eq_sym H5))|].
  vm_compute. reflexivity.
Defined.

(** * Further properties of the wrapper and of the training script *)

(** ** The training step *)

Section TrainingFacts.

Variable images : Type.
Variable model : images -> tensor4.
Variable TrainLoss : Z -> string -> tensor2 -> tensor1 -> result float.
Variable torch_mean : tensor1 -> float.

(** The training step by cases. *)
Lemma training_step_cases (b : batch images) (batch_idx : Z) (s : Model) :
  training_step images model TrainLoss torch_mean b batch_idx s
  = match slice_hw (model (fst b)) (center s) (center s) with
    | Raise e => (Raise e, s)
    | Ok predictions =>
        let loss :=
          TrainLoss (num_outputs s) (loss_fn s) predictions (snd b) in
        if batch_idx mod 50 =? 0 then
          match column0 predictions with
          | Raise e => (Raise e, s)
          | Ok predictions0 =>
              match torch_sub predictions0 (snd b) with
              | Raise e => (Raise e, s)
              | Ok diff =>
                  (loss,
                   set_logged (logged s ++ [train_entry torch_mean diff]) s)
              end
          end
        else (loss, s)
    end.
Proof.
  destruct b as [imgs lbls]. unfold training_step, log, log_dict.
  cbv [bind lift get modify ret]. cbn [fst snd].
  destruct (slice_hw (model imgs) (center s) (center s)) as [p|];
    [|reflexivity].
  destruct (batch_idx mod 50 =? 0).
  - destruct (column0 p) as [p0|]; [|reflexivity].
    destruct (torch_sub p0 lbls) as [d|]; [|reflexivity].
    cbn [num_outputs loss_fn set_logged].
    destruct (TrainLoss (num_outputs s) (loss_fn s) p lbls); reflexivity.
  - destruct (TrainLoss (num_outputs s) (loss_fn s) p lbls); reflexivity.
Qed.

Lemma slice_hw_raises (t : tensor4) (i j : Z) (e : exn) :
  slice_hw t i j = Raise e -> e = IndexError.
Proof.
  unfold slice_hw, py_index.
  repeat match goal with
         | |- context [if ?c then _ else _] => destruct c
         end; intros H; congruence.
Qed.

Lemma slice_hw_ncols (t : tensor4) (i j : Z) (p : tensor2) :
  slice_hw t i j = Ok p ->
  ncols p = dimC t /\ List.length (rows p) = dimB t.
Proof.
  unfold slice_hw.
  destruct (py_index i (dimH t)); [|discriminate].
  destruct (py_index j (dimW t)); [|discriminate].
  intros H; injection H as <-. cbn. now rewrite length_map, length_seq.
Qed.

Lemma column0_raises (t : tensor2) (e : exn) :
  column0 t = Raise e -> e = IndexError.
Proof. unfold column0. destruct (ncols t); intros H; congruence. Qed.

Lemma column0_length (t : tensor2) (p : tensor1) :
  column0 t = Ok p -> List.length p = List.length (rows t).
Proof.
  unfold column0. destruct (ncols t); [discriminate|].
  intros H; injection H as <-. now rewrite length_map.
Qed.

Lemma broadcast1_raises (f : float -> float -> float) (a b : tensor1)
    (e : exn) :
  broadcast1 f a b = Raise e ->
  e = RuntimeError /\ List.length a <> List.length b
  /\ List.length a <> 1%nat /\ List.length b <> 1%nat.
Proof.
  unfold broadcast1.
  destruct (Nat.eqb_spec (List.length a) (List.length b)); [discriminate|].
  destruct (Nat.eqb_spec (List.length b) 1); [discriminate|].
  destruct (Nat.eqb_spec (List.length a) 1); [discriminate|].
  intros H; injection H as <-. auto.
Qed.

Lemma set_logged_same (s : Model) : set_logged (logged s ++ []) s = s.
Proof. rewrite app_nil_r. now destruct s. Qed.

End TrainingFacts.

(** The training step and the attributes of the object. *)
Lemma training_step_only_logs_aux
    (images : Type) (model : images -> tensor4)
    (TrainLoss : Z -> string -> tensor2 -> tensor1 -> result float)
    (torch_mean : tensor1 -> float)
    (b : batch images) (batch_idx : Z) (s : Model) :
  let s' := snd (training_step images model TrainLoss torch_mean b
                   batch_idx s) in
  accumulators s' = accumulators s
  /\ best_val_rmse s' = best_val_rmse s
  /\ center s' = center s
  /\ (exists calls,
        s' = set_logged (logged s ++ calls) s
        /\ (calls = []
            \/ exists diff, calls = [train_entry torch_mean diff])).
Proof.
  cbv zeta. rewrite training_step_cases.
  assert (Hsame : forall r : result float,
            accumulators (snd (r, s)) = accumulators s
            /\ best_val_rmse (snd (r, s)) = best_val_rmse s
            /\ center (snd (r, s)) = center s
            /\ (exists calls,
                  snd (r, s) = set_logged (logged s ++ calls) s
                  /\ (calls = []
                      \/ exists diff, calls = [train_entry torch_mean diff]))).
  { intros r. cbn [snd]. repeat split. exists [].
    split; [now rewrite set_logged_same|now left]. }
  destruct (slice_hw (model (fst b)) (center s) (center s)) as [p|e];
    [|apply Hsame].
  cbv zeta. destruct (batch_idx mod 50 =? 0); [|apply Hsame].
  destruct (column0 p) as [p0|e]; [|apply Hsame].
  destruct (torch_sub p0 (snd b)) as [d|e]; [|apply Hsame].
  cbn [snd]. repeat split. exists [train_entry torch_mean d].
  split; [reflexivity|right; now exists d].
Qed.


(** X1. The training step touches nothing but the log, whether it returns
    or raises: the four accumulators of validation, the lists [preds] and
    [labels], the watermark, the center and every other attribute are as
    they were, and the log has at most one call more, a ["train/agbd_rmse"]
    without a step.  The diagnostic RMSE is not accumulated. *)
Theorem training_step_only_logs
    (images : Type) (model : images -> tensor4)
    (TrainLoss : Z -> string -> tensor2 -> tensor1 -> result float)
    (torch_mean : tensor1 -> float)
    (b : batch images) (batch_idx : Z) (s : Model) :
  let s' := snd (training_step images model TrainLoss torch_mean b
                   batch_idx s) in
  accumulators s' = accumulators s
  /\ preds s' = preds s
  /\ labels s' = labels s
  /\ (val_preds s', val_labels s', test_preds s', test_labels s')
     = (val_preds s, val_labels s, test_preds s, test_labels s)
  /\ best_val_rmse s' = best_val_rmse s
  /\ center s' = center s
  /\ (num_outputs s', lr s', step_size s', gamma s', loss_fn s')
     = (num_outputs s, lr s, step_size s, gamma s, loss_fn s)
  /\ s' = set_logged (logged s') s
  /\ (exists calls,
        logged s' = logged s ++ calls
        /\ (List.length calls <= 1)%nat
        /\ metric_names calls
           = repeat "train/agbd_rmse" (List.length calls)
        /\ values_of "step" calls = []).
Proof.
  cbv zeta.
  destruct (training_step_only_logs_aux images model TrainLoss torch_mean
              b batch_idx s) as (Ha & Hb & Hc & calls & Hs & Hcalls).
  split; [exact Ha|].
  rewrite Hs.
  cbn [num_outputs lr step_size gamma loss_fn best_val_rmse center preds
       labels val_preds val_labels test_preds test_labels logged set_logged].
  split; [reflexivity|]. split; [reflexivity|]. split; [reflexivity|].
  split; [reflexivity|]. split; [reflexivity|]. split; [reflexivity|].
  split; [reflexivity|]. exists calls. split; [reflexivity|].
  destruct Hcalls as [-> | [d ->]]; cbn; auto.
Qed.

(** X2. A training step that returns gives the training loss of the
    predictions at the center pixel, whatever the batch index; it has logged
    one ["train/agbd_rmse"] when the batch index is a multiple of 50 and has
    left the object as it was otherwise. *)
Theorem training_step_returns
    (images : Type) (model : images -> tensor4)
    (TrainLoss : Z -> string -> tensor2 -> tensor1 -> result float)
    (torch_mean : tensor1 -> float)
    (b : batch images) (batch_idx : Z) (s s' : Model) (loss : float) :
  training_step images model TrainLoss torch_mean b batch_idx s
  = (Ok loss, s') ->
  exists predictions,
    slice_hw (model (fst b)) (center s) (center s) = Ok predictions
    /\ TrainLoss (num_outputs s) (loss_fn s) predictions (snd b) = Ok loss
    /\ (batch_idx mod 50 = 0 ->
        exists predictions0 diff,
          column0 predictions = Ok predictions0
          /\ torch_sub predictions0 (snd b) = Ok diff
          /\ s' = set_logged (logged s ++ [train_entry torch_mean diff]) s)
    /\ (batch_idx mod 50 <> 0 -> s' = s)
    /\ (forall (batch_idx' : Z) (loss' : float) (s'' : Model),
          training_step images model TrainLoss torch_mean b batch_idx' s
          = (Ok loss', s'') -> loss' = loss).
Proof.
  rewrite training_step_cases.
  destruct (slice_hw (model (fst b)) (center s) (center s)) as [p|e] eqn:Hp;
    [|discriminate].
  cbv zeta. intros H. exists p. split; [reflexivity|].
  assert (Hloss : TrainLoss (num_outputs s) (loss_fn s) p (snd b) = Ok loss).
  { destruct (batch_idx mod 50 =? 0); [|congruence].
    destruct (column0 p); [|discriminate].
    destruct (torch_sub _ _); [|discriminate]. congruence. }
  split; [exact Hloss|]. split; [|split].
  - intros Hmod. rewrite Hmod in H. cbn [Z.eqb] in H.
    destruct (column0 p) as [p0|]; [|discriminate].
    destruct (torch_sub p0 (snd b)) as [d|] eqn:Hd; [|discriminate].
    exists p0, d. split; [reflexivity|]. split; [exact Hd|].
    injection H as _ <-. reflexivity.
  - intros Hmod. apply Z.eqb_neq in Hmod. rewrite Hmod in H. congruence.
  - intros idx' loss' s'' H'. rewrite training_step_cases, Hp in H'.
    cbv zeta in H'. rewrite Hloss in H'.
    destruct (idx' mod 50 =? 0); [|congruence].
    destruct (column0 p); [|discriminate].
    destruct (torch_sub _ _); [|discriminate]. congruence.
Qed.

Lemma training_step_returns_witness :
  let b := (floats [12; 58], floats [10; 60]) in
  snd (training_step (list float) (const_model 15) TrainLoss_ref mean_ref
         b 7 fresh) = fresh
  /\ fst (training_step (list float) (const_model 15) TrainLoss_ref mean_ref
            b 100 fresh)
     = fst (training_step (list float) (const_model 15) TrainLoss_ref mean_ref
              b 7 fresh).
Proof.
  cbv zeta.
  destruct (training_step_returns (list float) (const_model 15) TrainLoss_ref
              mean_ref (floats [12; 58], floats [10; 60]) 7 fresh
              (snd (training_step (list float) (const_model 15) TrainLoss_ref
                      mean_ref (floats [12; 58], floats [10; 60]) 7 fresh))
              (match TrainLoss_ref 1 "MSE"
                       (mkTensor2 1 [[of_Z 12]; [of_Z 58]])
                       (floats [10; 60]) with
               | Ok loss => loss
               | Raise _ => nan
               end)
              ltac:(vm_compute; reflexivity))
    as (p & _ & _ & _ & Hsame & Hloss).
  split; [apply Hsame; vm_compute; discriminate|].
  vm_compute. reflexivity.
Defined.

(** X3. A training step raises in one of three places.  Reading the center
    pixel raises an [IndexError]: the center is outside the prediction map.
    On a batch whose index is a multiple of 50 the diagnostic raises an
    [IndexError], the map having no channel, or a [RuntimeError], for
    predictions and labels of sizes that do not broadcast.  Otherwise the
    error is the one the training loss raises.  The object is then as it
    was, but for a loss that raises on a diagnostic batch: the
    ["train/agbd_rmse"] of the batch is logged before.  So on a batch whose
    index is not a multiple of 50 the object is as it was, the step raises
    exactly when the center is outside the map or the loss raises, and a
    mismatch of sizes is an error only if the loss makes it one. *)
Theorem training_step_raises
    (images : Type) (model : images -> tensor4)
    (TrainLoss : Z -> string -> tensor2 -> tensor1 -> result float)
    (torch_mean : tensor1 -> float)
    (b : batch images) (batch_idx : Z) (s s' : Model) (e : exn) :
  (training_step images model TrainLoss torch_mean b batch_idx s
   = (Raise e, s') ->
   (slice_hw (model (fst b)) (center s) (center s) = Raise e
    /\ e = IndexError /\ s' = s)
   \/ (exists predictions,
         slice_hw (model (fst b)) (center s) (center s) = Ok predictions
         /\ ((batch_idx mod 50 = 0
              /\ column0 predictions = Raise e
              /\ e = IndexError /\ s' = s)
             \/ (batch_idx mod 50 = 0
                 /\ (exists predictions0,
                       column0 predictions = Ok predictions0
                       /\ torch_sub predictions0 (snd b) = Raise e)
                 /\ e = RuntimeError
                 /\ dimB (model (fst b)) <> List.length (snd b)
                 /\ dimB (model (fst b)) <> 1%nat
                 /\ List.length (snd b) <> 1%nat
                 /\ s' = s)
             \/ (TrainLoss (num_outputs s) (loss_fn s) predictions (snd b)
                 = Raise e
                 /\ (batch_idx mod 50 <> 0 -> s' = s)
                 /\ (batch_idx mod 50 = 0 ->
                     exists predictions0 diff,
                       column0 predictions = Ok predictions0
                       /\ torch_sub predictions0 (snd b) = Ok diff
                       /\ s' = set_logged
                                 (logged s ++ [train_entry torch_mean diff])
                                 s)))))
  /\ (batch_idx mod 50 <> 0 ->
      (training_step images model TrainLoss torch_mean b batch_idx s
       = (Raise e, s')
       <-> s' = s
           /\ (slice_hw (model (fst b)) (center s) (center s) = Raise e
               \/ exists predictions,
                    slice_hw (model (fst b)) (center s) (center s)
                    = Ok predictions
                    /\ TrainLoss (num_outputs s) (loss_fn s) predictions
                         (snd b)
                       = Raise e))).
Proof.
  rewrite training_step_cases.
  destruct (slice_hw (model (fst b)) (center s) (center s)) as [p|e0] eqn:Hp.
  - cbv zeta. destruct (Z.eqb_spec (batch_idx mod 50) 0) as [Hmod|Hmod].
    + split; [|intros Hm; contradiction].
      destruct (column0 p) as [p0|e1] eqn:Hp0.
      * destruct (torch_sub p0 (snd b)) as [d|e2] eqn:Hd.
        -- intros H. injection H as Hl <-.
           right. exists p. split; [reflexivity|]. right. right.
           split; [exact Hl|]. split; [intros Hm; contradiction|].
           intros _. exists p0, d. auto.
        -- intros H; injection H as <- <-.
           pose proof Hd as Hd'.
           apply broadcast1_raises in Hd'.
           destruct Hd' as (He & Hne & Ha & Hb).
           apply column0_length in Hp0 as Hlen.
           apply slice_hw_ncols in Hp as [_ Hrows].
           rewrite Hlen, Hrows in Hne, Ha.
           right. exists p. split; [reflexivity|]. right. left.
           split; [exact Hmod|]. split; [now exists p0|]. auto.
      * intros H; injection H as <- <-.
        apply column0_raises in Hp0 as He.
        right. exists p. split; [reflexivity|]. left. auto.
    + split.
      * intros H. injection H as Hl <-.
        right. exists p. split; [reflexivity|]. right. right.
        split; [exact Hl|]. split; [reflexivity|].
        intros Hm; contradiction.
      * intros _. split.
        -- intros H. injection H as Hl <-.
           split; [reflexivity|]. right. now exists p.
        -- intros (-> & [H | (p' & Hp' & Hl)]); [discriminate H|].
           injection Hp' as <-. now rewrite Hl.
  - split.
    + intros H; injection H as <- <-.
      apply slice_hw_raises in Hp as He. left. auto.
    + intros _. split.
      * intros H; injection H as <- <-. split; [reflexivity|]. now left.
      * intros (-> & [H | (p' & Hp' & _)]); [|discriminate Hp'].
        injection H as <-. reflexivity.
Qed.

Lemma training_step_raises_witness :
  let b := (floats [12; 58; 130], floats [10; 60]) in
  training_step (list float) (const_model 15) TrainLoss_ref mean_ref
    b 7 fresh = (Raise RuntimeError, fresh)
  /\ snd (training_step (list float) (const_model 3) TrainLoss_ref mean_ref
            b 7 fresh) = fresh.
Proof.
  cbv zeta. split.
  - destruct (training_step_raises (list float) (const_model 15)
                TrainLoss_ref mean_ref
                (floats [12; 58; 130], floats [10; 60]) 7 fresh fresh
                RuntimeError) as (_ & H).
    apply (H ltac:(vm_compute; discriminate)).
    split; [reflexivity|]. right.
    exists (mkTensor2 1 [[of_Z 12]; [of_Z 58]; [of_Z 130]]).
    split; vm_compute; reflexivity.
  - destruct (training_step_raises (list float) (const_model 3)
                TrainLoss_ref mean_ref
                (floats [12; 58; 130], floats [10; 60]) 7 fresh
                (snd (training_step (list float) (const_model 3)
                        TrainLoss_ref mean_ref
                        (floats [12; 58; 130], floats [10; 60]) 7 fresh))
                IndexError) as (_ & H).
    destruct (proj1 (H ltac:(vm_compute; discriminate))
                ltac:(vm_compute; reflexivity)) as (Hs & _).
    exact Hs.
Defined.

(** X4. On a diagnostic batch a single label is broadcast against the
    predictions of the whole batch: the diagnostic does not raise, the RMSE
    it logs is over the differences of every prediction and that one label,
    and the step then returns or raises as the training loss does on these
    predictions and that label. *)
Theorem training_step_broadcasts_single_label
    (images : Type) (model : images -> tensor4)
    (TrainLoss : Z -> string -> tensor2 -> tensor1 -> result float)
    (torch_mean : tensor1 -> float)
    (b : batch images) (batch_idx : Z) (s : Model) (l : float) :
  valid_output (model (fst b)) (center s) = true ->
  snd b = [l] ->
  batch_idx mod 50 = 0 ->
  exists predictions predictions0,
    slice_hw (model (fst b)) (center s) (center s) = Ok predictions
    /\ column0 predictions = Ok predictions0
    /\ List.length predictions0 = dimB (model (fst b))
    /\ torch_sub predictions0 [l]
       = Ok (map (fun x => SFsub prec emax x l) predictions0)
    /\ training_step images model TrainLoss torch_mean b batch_idx s
       = (TrainLoss (num_outputs s) (loss_fn s) predictions [l],
          set_logged
            (logged s
             ++ [train_entry torch_mean
                   (map (fun x => SFsub prec emax x l) predictions0)]) s).
Proof.
  intros Hvalid Hl Hmod.
  pose proof (center_pixel_ok_iff images model (center s) (fst b)) as Hv.
  rewrite Hvalid in Hv. unfold center_pixel in Hv.
  rewrite training_step_cases.
  destruct (slice_hw (model (fst b)) (center s) (center s)) as [p|] eqn:Hp;
    [|discriminate Hv].
  destruct (column0 p) as [p0|] eqn:Hp0; [|discriminate Hv].
  exists p, p0. split; [reflexivity|]. split; [exact Hp0|].
  assert (Hlen : List.length p0 = dimB (model (fst b))).
  { apply column0_length in Hp0. apply slice_hw_ncols in Hp as [_ Hrows].
    congruence. }
  split; [exact Hlen|].
  assert (Hsub : torch_sub p0 [l]
                 = Ok (map (fun x => SFsub prec emax x l) p0)).
  { unfold torch_sub, broadcast1. cbn [List.length hd].
    destruct (Nat.eqb_spec (List.length p0) 1) as [H1|H1]; [|reflexivity].
    destruct p0 as [|x [|y p0]]; try discriminate H1. reflexivity. }
  split; [exact Hsub|].
  cbv zeta. rewrite Hmod, Hl. cbn [Z.eqb].
  rewrite Hsub. reflexivity.
Qed.

Lemma training_step_broadcasts_single_label_witness :
  training_step (list float) (const_model 15) TrainLoss_ref mean_ref
    (floats [12; 12; 12], floats [10]) 0 fresh
  = (Raise RuntimeError,
     set_logged [[("train/agbd_rmse", SFloat (of_Z 2))]] fresh)
  /\ training_step (list float) (const_model 15) TrainLoss_ref mean_ref
       (floats [12], floats [10]) 0 fresh
     = (Ok (of_Z 4),
        set_logged [[("train/agbd_rmse", SFloat (of_Z 2))]] fresh).
Proof.
  split.
  - destruct (training_step_broadcasts_single_label (list float)
                (const_model 15) TrainLoss_ref mean_ref
                (floats [12; 12; 12], floats [10]) 0 fresh (of_Z 10)
                eq_refl eq_refl eq_refl)
      as (p & p0 & Hp & Hp0 & _ & _ & H).
    rewrite H. vm_compute in Hp. injection Hp as <-.
    vm_compute in Hp0. injection Hp0 as <-.
    vm_compute. reflexivity.
  - destruct (training_step_broadcasts_single_label (list float)
                (const_model 15) TrainLoss_ref mean_ref
                (floats [12], floats [10]) 0 fresh (of_Z 10)
                eq_refl eq_refl eq_refl)
      as (p & p0 & Hp & Hp0 & _ & _ & H).
    rewrite H. vm_compute in Hp. injection Hp as <-.
    vm_compute in Hp0. injection Hp0 as <-.
    vm_compute. reflexivity.
Defined.

(** ** The dispatcher over a sequence of calls *)

Section DispatchSequence.

Variable images : Type.
Variable model : images -> tensor4.

(** The dispatcher by where the batch goes. *)
Lemma validation_step_outcome (b : batch images) (batch_idx : Z)
    (dataloader_idx : option Z) (s : Model) :
  let call := (b, batch_idx, dataloader_idx) in
  is_ok (fst (validation_step model b batch_idx dataloader_idx s))
  = (goes_to_val model (center s) call || goes_to_test model (center s) call)
  /\ snd (validation_step model b batch_idx dataloader_idx s)
     = if goes_to_val model (center s) call
       then set_val_labels (val_labels s ++ [snd b])
              (set_val_preds
                 (val_preds s ++ [call_preds model (center s) call]) s)
       else if goes_to_test model (center s) call
       then set_test_labels (test_labels s ++ [snd b])
              (set_test_preds
                 (test_preds s ++ [call_preds model (center s) call]) s)
       else s.
Proof.
  cbv zeta. unfold goes_to_val, goes_to_test, call_preds. cbn [fst snd].
  pose proof (center_pixel_ok_iff images model (center s) (fst b)) as Hv.
  destruct (accepted dataloader_idx) eqn:Hacc.
  - apply accepted_cases in Hacc. destruct Hacc as [-> | [-> | ->]];
      [rewrite validation_step_val by auto
      |rewrite validation_step_val by auto
      |rewrite validation_step_test];
      cbn [idx_eqb orb andb Z.eqb Pos.eqb];
      rewrite <- Hv;
      destruct (center_pixel images model (center s) (fst b));
      cbn; split; reflexivity.
  - rewrite validation_step_other by assumption.
    destruct dataloader_idx as [i|]; [|discriminate].
    unfold accepted in Hacc. apply orb_false_elim in Hacc as [H0 H1].
    cbn [idx_eqb orb andb]. rewrite H0, H1. cbn. split; reflexivity.
Qed.

Lemma goes_to_one (c : Z) (call : batch images * Z * option Z) :
  goes_to_val model c call = true -> goes_to_test model c call = false.
Proof.
  unfold goes_to_val, goes_to_test.
  destruct (snd call) as [i|]; cbn [idx_eqb orb andb]; [|reflexivity].
  destruct (Z.eqb_spec i 0) as [-> | H]; [reflexivity|discriminate].
Qed.

(** The accumulators after a sequence of calls. *)
Lemma accumulate_routes (bs : list (batch images * Z * option Z))
    (s : Model) :
  let c := center s in
  val_preds (accumulate images model bs s)
  = val_preds s ++ map (call_preds model c) (filter (goes_to_val model c) bs)
  /\ val_labels (accumulate images model bs s)
     = val_labels s ++ map call_labels (filter (goes_to_val model c) bs)
  /\ test_preds (accumulate images model bs s)
     = test_preds s
       ++ map (call_preds model c) (filter (goes_to_test model c) bs)
  /\ test_labels (accumulate images model bs s)
     = test_labels s ++ map call_labels (filter (goes_to_test model c) bs).
Proof.
  cbv zeta. revert s.
  induction bs as [|[[b batch_idx] dataloader_idx] bs IH]; intros s.
  - cbn. now rewrite !app_nil_r.
  - cbn [accumulate filter].
    destruct (validation_step_outcome b batch_idx dataloader_idx s)
      as [_ Hs].
    cbv zeta in Hs.
    specialize (IH (snd (validation_step model b batch_idx dataloader_idx s))).
    assert (Hc : center (snd (validation_step model b batch_idx
                                dataloader_idx s)) = center s)
      by apply validation_step_frame.
    rewrite Hc in IH. destruct IH as (I1 & I2 & I3 & I4).
    rewrite I1, I2, I3, I4, Hs.
    destruct (goes_to_val model (center s) (b, batch_idx, dataloader_idx))
      eqn:Ev.
    + rewrite (goes_to_one _ _ Ev). cbn. unfold call_labels at 2. cbn.
      rewrite <- !app_assoc. cbn. auto.
    + destruct (goes_to_test model (center s) (b, batch_idx, dataloader_idx));
        cbn; [|auto].
      unfold call_labels at 4. cbn. rewrite <- !app_assoc. cbn. auto.
Qed.

End DispatchSequence.

(** ** A reduction that raises *)

Section RaisedFacts.

Variable RMSE : tensor2 -> tensor1 -> float.

Local Ltac fields :=
  cbn [val_preds val_labels test_preds test_labels set_logged set_val_preds
       set_val_labels set_test_preds set_test_labels set_best_val_rmse
       num_outputs lr step_size gamma best_val_rmse center loss_fn preds
       labels logged andb].

Local Ltac raised_case :=
  unfold raised_state, raised_log, raised_exn, val_ready, val_rmse,
    test_rmse, cat_val_preds, cat_val_labels, cat_test_preds,
    cat_test_labels;
  repeat match goal with
         | E : nonempty _ = _ |- _ => rewrite E
         | E : Nat.eqb _ _ = _ |- _ => rewrite E
         end;
  fields;
  match goal with
  | |- (_, ?a) = (_, ?b) => f_equal
  end;
  match goal with
  | s : Model |- _ => destruct s
  end;
  fields; repeat (rewrite <- app_assoc; cbn [app]); reflexivity.

(** The reducer from an object that is not ready. *)
Lemma on_validation_epoch_end_raised (sched_lr : float) (current_epoch : Z)
    (s : Model) :
  drain_ready s = false ->
  on_validation_epoch_end RMSE sched_lr current_epoch s
  = (Raise (raised_exn s), raised_state RMSE sched_lr current_epoch s).
Proof.
  unfold drain_ready. intros H.
  unfold on_validation_epoch_end.
  cbv [bind lift get modify log_dict ret]. fields.
  destruct (nonempty (val_preds s)) eqn:E1;
    [rewrite (torch_cat_nonempty _ E1)
    |rewrite (torch_cat_empty _ E1); raised_case].
  destruct (nonempty (val_labels s)) eqn:E2;
    [rewrite (torch_cat_nonempty _ E2)
    |rewrite (torch_cat_empty _ E2); raised_case].
  destruct (Nat.eqb (List.length (List.concat (val_preds s)))
                    (List.length (List.concat (val_labels s)))) eqn:E3;
    [rewrite binned_rmse_ok
       by (rewrite unsqueeze1_rows_length; now apply Nat.eqb_eq)
    |rewrite binned_rmse_err
       by (rewrite unsqueeze1_rows_length; now apply Nat.eqb_neq);
     raised_case].
  fields.
  destruct (nonempty (test_preds s)) eqn:E4;
    [rewrite (torch_cat_nonempty _ E4)
    |rewrite (torch_cat_empty _ E4); raised_case].
  destruct (nonempty (test_labels s)) eqn:E5;
    [rewrite (torch_cat_nonempty _ E5)
    |rewrite (torch_cat_empty _ E5); raised_case].
  destruct (Nat.eqb (List.length (List.concat (test_preds s)))
                    (List.length (List.concat (test_labels s)))) eqn:E6;
    [discriminate H|].
  rewrite binned_rmse_err
    by (rewrite unsqueeze1_rows_length; now apply Nat.eqb_neq).
  raised_case.
Qed.

(** The reducer, whatever the object. *)
Lemma on_validation_epoch_end_outcome (sched_lr : float) (current_epoch : Z)
    (s : Model) :
  on_validation_epoch_end RMSE sched_lr current_epoch s
  = if drain_ready s
    then (Ok tt, epoch_end_state RMSE sched_lr current_epoch s)
    else (Raise (raised_exn s), raised_state RMSE sched_lr current_epoch s).
Proof.
  destruct (drain_ready s) eqn:E.
  - now apply on_validation_epoch_end_ok.
  - now apply on_validation_epoch_end_raised.
Qed.

End RaisedFacts.

(** X5. A dispatcher call that raises leaves the object as it was: a batch
    is appended to both lists of its source or to neither.  What it raises
    is the usage error of line 104 or, for an index it takes, the
    [IndexError] of a center pixel outside the prediction map. *)
Theorem dispatcher_raise_is_atomic
    (images : Type) (model : images -> tensor4) (b : batch images)
    (batch_idx : Z) (dataloader_idx : option Z) (s s' : Model) (e : exn) :
  validation_step model b batch_idx dataloader_idx s = (Raise e, s') ->
  s' = s
  /\ (e = ValueError "dataloader_idx should be 0 or 1" \/ e = IndexError)
  /\ (e = IndexError ->
      accepted dataloader_idx = true
      /\ valid_output (model (fst b)) (center s) = false)
  /\ (accepted dataloader_idx = false ->
      e = ValueError "dataloader_idx should be 0 or 1").
Proof.
  intros H. destruct (accepted dataloader_idx) eqn:Hacc.
  - rewrite (validation_step_accepted images model b batch_idx
               dataloader_idx s Hacc) in H.
    pose proof (center_pixel_ok_iff images model (center s) (fst b)) as Hv.
    destruct (center_pixel images model (center s) (fst b)) as [p|e0] eqn:E;
      [discriminate H|].
    injection H as <- <-.
    rewrite (center_pixel_raises images model _ _ _ E).
    split; [reflexivity|]. split; [now right|].
    split; [intros _; split; [reflexivity|now rewrite <- Hv]|discriminate].
  - rewrite validation_step_other in H by assumption.
    injection H as <- <-.
    split; [reflexivity|]. split; [now left|].
    split; [discriminate|reflexivity].
Qed.

Lemma dispatcher_raise_is_atomic_witness :
  let s := accumulate (list float) (const_model 15) (pass_batches 10) fresh in
  snd (validation_step (const_model 3) (floats [12; 58], floats [10; 60]) 0
         (Some 1) s) = s.
Proof.
  cbv zeta.
  apply (dispatcher_raise_is_atomic (list float) (const_model 3)
           (floats [12; 58], floats [10; 60]) 0 (Some 1)
           (accumulate (list float) (const_model 15) (pass_batches 10) fresh)
           (snd (validation_step (const_model 3)
                   (floats [12; 58], floats [10; 60]) 0 (Some 1)
                   (accumulate (list float) (const_model 15)
                      (pass_batches 10) fresh)))
           IndexError).
  vm_compute. reflexivity.
Defined.

(** X6. After any sequence of dispatcher calls, in any interleaving of the
    two sources, the samples of the validation accumulator are those it had
    followed by the samples of the calls with index [None] or 0 whose center
    pixel could be read, in the order of the calls, and likewise the test
    accumulator with the calls of index 1; calls that raise add nothing. *)
Theorem batches_reach_their_source
    (images : Type) (model : images -> tensor4)
    (bs : list (batch images * Z * option Z)) (s : Model) :
  let c := center s in
  let s' := accumulate images model bs s in
  let to_val := filter (goes_to_val model c) bs in
  let to_test := filter (goes_to_test model c) bs in
  List.concat (val_preds s')
  = List.concat (val_preds s) ++ flat_map (call_preds model c) to_val
  /\ List.concat (val_labels s')
     = List.concat (val_labels s) ++ flat_map call_labels to_val
  /\ List.concat (test_preds s')
     = List.concat (test_preds s) ++ flat_map (call_preds model c) to_test
  /\ List.concat (test_labels s')
     = List.concat (test_labels s) ++ flat_map call_labels to_test
  /\ List.length (val_preds s')
     = (List.length (val_preds s) + List.length to_val)%nat
  /\ List.length (test_preds s')
     = (List.length (test_preds s) + List.length to_test)%nat.
Proof.
  cbv zeta.
  destruct (accumulate_routes images model bs s) as (H1 & H2 & H3 & H4).
  cbv zeta in H1, H2, H3, H4.
  rewrite H1, H2, H3, H4, !concat_app, !flat_map_concat_map.
  rewrite !length_app, !length_map. repeat split.
Qed.

Lemma in_step_run_hook
    (images : Type) (model : images -> tensor4)
    (TrainLoss : Z -> string -> tensor2 -> tensor1 -> result float)
    (torch_mean : tensor1 -> float) (RMSE : tensor2 -> tensor1 -> float)
    (h : hook images) (s : Model) :
  in_step s ->
  in_step (run_hook images model TrainLoss torch_mean RMSE h s).
Proof.
  unfold in_step. intros [Hv Ht].
  destruct h as [b batch_idx | [b batch_idx dataloader_idx | sched_lr ep]];
    cbn [run_hook run_event].
  - rewrite training_step_cases.
    destruct (slice_hw _ _ _); [|now split].
    cbv zeta. destruct (_ =? _); [|now split].
    destruct (column0 _); [|now split].
    destruct (torch_sub _ _); now split.
  - destruct (validation_step_outcome images model b batch_idx
                dataloader_idx s) as [_ ->].
    destruct (goes_to_val _ _ _); cbn;
      [rewrite !length_app; cbn; split; lia|].
    destruct (goes_to_test _ _ _); cbn;
      [rewrite !length_app; cbn; split; lia|now split].
  - rewrite on_validation_epoch_end_outcome.
    destruct (drain_ready s); cbn; [now split|].
    unfold raised_state. destruct (val_ready s); cbn; now split.
Qed.

(** X7. The lists of predictions and of labels of a source have the same
    number of tensors at every point of every run from a new object:
    training steps, dispatcher calls and reductions keep that, also when
    they raise. *)
Theorem accumulators_stay_in_step
    (images : Type) (model : images -> tensor4)
    (TrainLoss : Z -> string -> tensor2 -> tensor1 -> result float)
    (torch_mean : tensor1 -> float) (RMSE : tensor2 -> tensor1 -> float)
    (n : Z) (lr0 : float) (ss : Z) (g : float) (ps : list Z) (ds : bool)
    (lf : string) (s0 : Model) (hs : list (hook images)) :
  __init__ n lr0 ss g ps ds lf = Ok s0 ->
  let s := run_hooks images model TrainLoss torch_mean RMSE hs s0 in
  List.length (val_preds s) = List.length (val_labels s)
  /\ List.length (test_preds s) = List.length (test_labels s).
Proof.
  intros Hinit.
  destruct (init_watermark _ _ _ _ _ _ _ _ Hinit)
    as (_ & Hvp & Hvl & Htp & Htl & _).
  assert (H0 : in_step s0) by (unfold in_step; now rewrite Hvp, Hvl, Htp, Htl).
  clear Hinit Hvp Hvl Htp Htl. revert s0 H0.
  induction hs as [|h hs IH]; intros s0 H0; [exact H0|].
  cbn [run_hooks]. apply IH. now apply in_step_run_hook.
Qed.

Lemma accumulators_stay_in_step_witness :
  let s := run_hooks (list float) (const_model 15) TrainLoss_ref mean_ref
             RMSE_ref
             [OnTrainingStep (floats [12; 58], floats [10; 60]) 0;
              OnValidation
                (ValidationStep (floats [12], floats [10]) 0 (Some 0));
              OnValidation (EpochEnd lr_example 0);
              OnValidation
                (ValidationStep (floats [12], floats [10]) 0 (Some 7))]
             fresh in
  List.length (val_preds s) = List.length (val_labels s)
  /\ List.length (test_preds s) = List.length (test_labels s).
Proof.
  exact (accumulators_stay_in_step (list float) (const_model 15)
           TrainLoss_ref mean_ref RMSE_ref
           1 lr_example 10 (SFdiv prec emax (of_Z 1) (of_Z 2)) [15; 15] false
           "MSE" fresh _ eq_refl).
Defined.

Lemma well_formed_sizes
    (images : Type) (model : images -> tensor4) (c : Z)
    (l : list (batch images * Z * option Z)) :
  forallb (well_formed_call model c) l = true ->
  List.length (List.concat (map (call_preds model c) l))
  = List.length (List.concat (map call_labels l)).
Proof.
  induction l as [|call l IH]; intros H; [reflexivity|].
  cbn [forallb] in H. apply andb_prop in H as [Hc Hl].
  cbn [map List.concat]. rewrite !length_app, (IH Hl). f_equal.
  unfold well_formed_call in Hc.
  apply andb_prop in Hc as [Hc Hsize]. apply andb_prop in Hc as [_ Hvalid].
  apply Nat.eqb_eq in Hsize. rewrite <- Hsize. unfold call_preds.
  pose proof (center_pixel_ok_iff images model c (fst (fst (fst call)))) as Hv.
  rewrite Hvalid in Hv.
  destruct (center_pixel images model c (fst (fst (fst call)))) as [p|] eqn:E;
    [|discriminate Hv].
  destruct (center_pixel_value images model _ _ _ E) as (h & w & _ & _ & ->).
  now rewrite length_map, length_seq.
Qed.

Lemma forallb_filter {A} (f g : A -> bool) (l : list A) :
  forallb f l = true -> forallb f (filter g l) = true.
Proof.
  induction l as [|a l IH]; intros H; [reflexivity|].
  cbn [forallb] in H. apply andb_prop in H as [Ha Hl]. cbn [filter].
  destruct (g a); cbn [forallb]; [rewrite Ha|]; now apply IH.
Qed.

Lemma existsb_filter_nonempty {A B} (g : A -> bool) (f : A -> B)
    (l : list A) :
  existsb g l = true -> nonempty (map f (filter g l)) = true.
Proof.
  induction l as [|a l IH]; intros H; [discriminate|].
  cbn [existsb] in H. cbn [filter].
  destruct (g a); [reflexivity|]. now apply IH.
Qed.

(** X8. From an object with empty accumulators, after a validation pass in
    which every call is well formed (an index the dispatcher takes, a center
    pixel within the prediction map, as many predictions as labels) and each
    of the two sources has had a batch, the reduction returns: it computes
    the validation RMSE over the samples of all validation batches in order,
    and it empties the accumulators. *)
Theorem reduction_returns_after_a_pass
    (images : Type) (model : images -> tensor4)
    (RMSE : tensor2 -> tensor1 -> float)
    (bs : list (batch images * Z * option Z)) (s : Model)
    (sched_lr : float) (current_epoch : Z) :
  accumulators s = ([], [], [], []) ->
  forallb (well_formed_call model (center s)) bs = true ->
  existsb (goes_to_val model (center s)) bs = true ->
  existsb (goes_to_test model (center s)) bs = true ->
  let to_val := filter (goes_to_val model (center s)) bs in
  exists s',
    on_validation_epoch_end RMSE sched_lr current_epoch
      (accumulate images model bs s) = (Ok tt, s')
    /\ accumulators s' = ([], [], [], [])
    /\ In [("val/agbd_rmse",
            SFloat (RMSE (unsqueeze1
                            (flat_map (call_preds model (center s)) to_val))
                         (flat_map call_labels to_val)));
           ("step", SInt current_epoch)] (logged s').
Proof.
  intros Hacc Hwf Hval Htest. cbv zeta.
  unfold accumulators in Hacc. injection Hacc as Hvp Hvl Htp Htl.
  destruct (accumulate_routes images model bs s) as (H1 & H2 & H3 & H4).
  cbv zeta in H1, H2, H3, H4.
  rewrite Hvp in H1. rewrite Hvl in H2. rewrite Htp in H3. rewrite Htl in H4.
  cbn [app] in H1, H2, H3, H4.
  assert (Hready : drain_ready (accumulate images model bs s) = true).
  { unfold drain_ready. rewrite H1, H2, H3, H4.
    rewrite !existsb_filter_nonempty by assumption.
    rewrite !well_formed_sizes by (now apply forallb_filter).
    now rewrite !Nat.eqb_refl. }
  exists (epoch_end_state RMSE sched_lr current_epoch
            (accumulate images model bs s)).
  split; [now apply on_validation_epoch_end_ok|].
  split; [reflexivity|].
  unfold epoch_end_state. cbn [logged]. apply in_or_app. right.
  unfold epoch_end_log. right. left.
  unfold val_rmse, cat_val_preds, cat_val_labels.
  now rewrite H1, H2, !flat_map_concat_map.
Qed.

Lemma reduction_returns_after_a_pass_witness :
  fst (on_validation_epoch_end RMSE_ref lr_example 0
         (accumulate (list float) (const_model 15) sparse_batches fresh))
  = Ok tt.
Proof.
  destruct (reduction_returns_after_a_pass (list float) (const_model 15)
              RMSE_ref sparse_batches fresh lr_example 0
              eq_refl eq_refl eq_refl eq_refl) as (s' & H & _).
  now rewrite H.
Defined.

(** X9. A reduction that finds no validation batch raises the
    [RuntimeError] of [torch.cat] on an empty list at line 118: it has
    reported the learning rate and nothing else, the watermark is as it
    was, and the test accumulator is not emptied. *)
Theorem reduction_without_validation_batches
    (RMSE : tensor2 -> tensor1 -> float)
    (sched_lr : float) (current_epoch : Z) (s : Model) :
  val_preds s = [] ->
  on_validation_epoch_end RMSE sched_lr current_epoch s
  = (Raise RuntimeError,
     set_logged
       (logged s ++ [[("trainer/learning_rate", SFloat sched_lr);
                      ("step", SInt current_epoch)]]) s)
  /\ (let s' := snd (on_validation_epoch_end RMSE sched_lr current_epoch s) in
      test_preds s' = test_preds s /\ test_labels s' = test_labels s
      /\ best_val_rmse s' = best_val_rmse s).
Proof.
  intros Hvp.
  assert (Hready : drain_ready s = false)
    by (unfold drain_ready; now rewrite Hvp).
  rewrite (on_validation_epoch_end_raised RMSE sched_lr current_epoch s
             Hready).
  unfold raised_exn, raised_state, raised_log, val_ready. rewrite Hvp.
  cbn. auto.
Qed.

Lemma reduction_without_validation_batches_witness :
  let s := snd (validation_step (const_model 15)
                  (floats [5; 70], floats [0; 60]) 0 (Some 1) fresh) in
  fst (on_validation_epoch_end RMSE_ref lr_example 0 s) = Raise RuntimeError
  /\ test_preds (snd (on_validation_epoch_end RMSE_ref lr_example 0 s))
     = [floats [5; 70]].
Proof.
  cbv zeta.
  destruct (reduction_without_validation_batches RMSE_ref lr_example 0
              (snd (validation_step (const_model 15)
                      (floats [5; 70], floats [0; 60]) 0 (Some 1) fresh))
              eq_refl) as (H & Htp & _).
  rewrite H in *. split; [reflexivity|exact Htp].
Defined.

(** X10. A reduction that finds validation batches but no test batch raises
    the [RuntimeError] of line 139 after the validation part: the
    validation metrics are reported and the validation accumulator is
    emptied, but the watermark is not updated and nothing is reported under
    a best name, even when the validation RMSE is below the watermark. *)
Theorem reduction_without_test_batches
    (RMSE : tensor2 -> tensor1 -> float)
    (sched_lr : float) (current_epoch : Z) (s : Model) :
  val_ready s = true ->
  test_preds s = [] ->
  exists s',
    on_validation_epoch_end RMSE sched_lr current_epoch s
    = (Raise RuntimeError, s')
    /\ val_preds s' = [] /\ val_labels s' = []
    /\ test_labels s' = test_labels s
    /\ best_val_rmse s' = best_val_rmse s
    /\ logged s'
       = logged s
         ++ [("trainer/learning_rate", SFloat sched_lr);
             ("step", SInt current_epoch)]
         :: [("val/agbd_rmse", SFloat (val_rmse RMSE s));
             ("step", SInt current_epoch)]
         :: bin_entries RMSE "val/binned/rmse_" (cat_val_preds s)
              (cat_val_labels s) current_epoch.
Proof.
  intros Hval Htp.
  assert (Hready : drain_ready s = false).
  { unfold drain_ready. rewrite Htp. cbn [nonempty].
    now rewrite andb_false_r. }
  rewrite (on_validation_epoch_end_raised RMSE sched_lr current_epoch s
             Hready).
  unfold raised_exn, raised_state, raised_log. rewrite Hval, Htp.
  cbn [nonempty andb]. eexists. split; [reflexivity|].
  cbn. rewrite app_nil_r. auto 10.
Qed.

Lemma reduction_without_test_batches_witness :
  let s := snd (validation_step (const_model 15)
                  (floats [10], floats [0]) 0 (Some 0) fresh) in
  let r := on_validation_epoch_end RMSE_ref lr_example 0 s in
  ltb (val_rmse RMSE_ref s) (best_val_rmse s) = true
  /\ fst r = Raise RuntimeError
  /\ best_val_rmse (snd r) = inf.
Proof.
  cbv zeta.
  destruct (reduction_without_test_batches RMSE_ref lr_example 0
              (snd (validation_step (const_model 15)
                      (floats [10], floats [0]) 0 (Some 0) fresh))
              eq_refl eq_refl) as (s' & H & _ & _ & _ & Hb & _).
  rewrite H. cbn [fst snd]. split; [vm_compute; reflexivity|].
  split; [reflexivity|exact Hb].
Defined.

(** X11. A reduction right after one that returned, with no batch in
    between, raises the [RuntimeError] of line 118 and changes nothing but
    the log, where it adds the learning rate. *)
Theorem second_reduction_raises
    (RMSE : tensor2 -> tensor1 -> float)
    (lr1 lr2 : float) (e1 e2 : Z) (s s' : Model) :
  on_validation_epoch_end RMSE lr1 e1 s = (Ok tt, s') ->
  on_validation_epoch_end RMSE lr2 e2 s'
  = (Raise RuntimeError,
     set_logged
       (logged s' ++ [[("trainer/learning_rate", SFloat lr2);
                       ("step", SInt e2)]]) s').
Proof.
  intros H. apply on_validation_epoch_end_ok_iff in H as [_ ->].
  assert (Hready : drain_ready (epoch_end_state RMSE lr1 e1 s) = false)
    by reflexivity.
  rewrite (on_validation_epoch_end_raised RMSE lr2 e2 _ Hready).
  reflexivity.
Qed.

Lemma second_reduction_raises_witness :
  let s' := run_all (const_model 15) RMSE_ref (pass 10 0) fresh in
  fst (on_validation_epoch_end RMSE_ref lr_example 1 s') = Raise RuntimeError.
Proof.
  cbv zeta.
  rewrite (second_reduction_raises RMSE_ref lr_example lr_example 0 1
             (accumulate (list float) (const_model 15) (pass_batches 10)
                fresh)
             (run_all (const_model 15) RMSE_ref (pass 10 0) fresh)
             ltac:(vm_compute; reflexivity)).
  reflexivity.
Defined.

(** ** What the calls of a reduction contain *)

Lemma values_of_app (key : string) (l1 l2 : list dict) :
  values_of key (l1 ++ l2) = values_of key l1 ++ values_of key l2.
Proof. unfold values_of. apply flat_map_app. Qed.

(** The values a completed reduction reports under the names of the
    validation RMSE and of the best validation RMSE. *)
Lemma epoch_end_log_val_values (RMSE : tensor2 -> tensor1 -> float)
    (sched_lr : float) (current_epoch : Z) (s : Model) :
  values_of "val/agbd_rmse" (epoch_end_log RMSE sched_lr current_epoch s)
  = [SFloat (val_rmse RMSE s)]
  /\ values_of "val/best_rmse" (epoch_end_log RMSE sched_lr current_epoch s)
     = if improves RMSE s then [SFloat (val_rmse RMSE s)] else [].
Proof.
  unfold epoch_end_log, best_log. rewrite !bin_entries_dicts.
  generalize (val_rmse RMSE s) (test_rmse RMSE s)
    (bin_value RMSE (cat_val_preds s) (cat_val_labels s))
    (bin_value RMSE (cat_test_preds s) (cat_test_labels s)).
  intros vr tr fv ft.
  destruct (improves RMSE s); split; vm_compute; reflexivity.
Qed.

(** A reduction that raises reports nothing under a best name. *)
Lemma raised_log_val_best (RMSE : tensor2 -> tensor1 -> float)
    (sched_lr : float) (current_epoch : Z) (s : Model) :
  values_of "val/best_rmse" (raised_log RMSE sched_lr current_epoch s) = [].
Proof.
  unfold raised_log. rewrite !bin_entries_dicts.
  generalize (val_rmse RMSE s) (test_rmse RMSE s)
    (bin_value RMSE (cat_val_preds s) (cat_val_labels s)).
  intros vr tr fv.
  destruct (val_ready s);
    destruct (nonempty (test_preds s) && nonempty (test_labels s));
    destruct (nonempty (val_preds s) && nonempty (val_labels s));
    vm_compute; reflexivity.
Qed.

Section HookFacts.

Variable images : Type.
Variable model : images -> tensor4.
Variable TrainLoss : Z -> string -> tensor2 -> tensor1 -> result float.
Variable torch_mean : tensor1 -> float.
Variable RMSE : tensor2 -> tensor1 -> float.

(** The watermark and the best validation RMSE reported, after one hook. *)
Lemma run_hook_best (h : hook images) (s : Model) :
  let s' := run_hook images model TrainLoss torch_mean RMSE h s in
  let completed :=
    match h with
    | OnValidation (EpochEnd _ _) => drain_ready s
    | _ => false
    end in
  best_val_rmse s'
  = (if completed && improves RMSE s then val_rmse RMSE s
     else best_val_rmse s)
  /\ exists calls,
       logged s' = logged s ++ calls
       /\ values_of "val/best_rmse" calls
          = if completed && improves RMSE s
            then [SFloat (val_rmse RMSE s)] else [].
Proof.
  cbv zeta.
  destruct h as [b batch_idx | [b batch_idx dataloader_idx | sched_lr ep]];
    cbn [run_hook run_event andb].
  - destruct (training_step_only_logs_aux images model TrainLoss torch_mean
                b batch_idx s) as (_ & Hb & _ & calls & -> & Hcalls).
    cbn [best_val_rmse logged set_logged]. split; [reflexivity|].
    exists calls. split; [reflexivity|].
    destruct Hcalls as [-> | [d ->]]; reflexivity.
  - destruct (validation_step_frame images model b batch_idx dataloader_idx s)
      as (Hb & _ & Hl).
    split; [exact Hb|]. exists []. rewrite app_nil_r. now split.
  - rewrite on_validation_epoch_end_outcome.
    destruct (drain_ready s); cbn [snd andb].
    + split; [reflexivity|].
      exists (epoch_end_log RMSE sched_lr ep s). split; [reflexivity|].
      apply epoch_end_log_val_values.
    + unfold raised_state. cbn [logged set_logged].
      split; [destruct (val_ready s); reflexivity|].
      exists (raised_log RMSE sched_lr ep s). split; [reflexivity|].
      apply raised_log_val_best.
Qed.

Lemma completed_val_rmses_cons (h : hook images) (hs : list (hook images))
    (s : Model) :
  completed_val_rmses images model TrainLoss torch_mean RMSE (h :: hs) s
  = (if match h with
        | OnValidation (EpochEnd _ _) => drain_ready s
        | _ => false
        end
     then [val_rmse RMSE s] else [])
    ++ completed_val_rmses images model TrainLoss torch_mean RMSE hs
         (run_hook images model TrainLoss torch_mean RMSE h s).
Proof.
  destruct h as [b batch_idx | [b batch_idx dataloader_idx | sched_lr ep]];
    cbn [completed_val_rmses]; try reflexivity.
  rewrite on_validation_epoch_end_outcome.
  destruct (drain_ready s); reflexivity.
Qed.

End HookFacts.

Lemma ltb_false_leb (v w : float) :
  is_nan v = false -> is_nan w = false -> ltb v w = false -> leb w v = true.
Proof.
  intros Hv Hw H. rewrite (ltb_negb_leb v w Hv Hw) in H.
  now destruct (leb w v).
Qed.

Lemma strictly_decreasing_snoc (vs : list float) (v d : float) :
  strictly_decreasing vs = true ->
  vs = [] \/ ltb v (last vs d) = true ->
  strictly_decreasing (vs ++ [v]) = true.
Proof.
  induction vs as [|a vs IH]; intros Hs Hv; [reflexivity|].
  destruct vs as [|b vs].
  - cbn. destruct Hv as [Hv | Hv]; [discriminate|]. cbn in Hv. now rewrite Hv.
  - cbn [strictly_decreasing] in Hs. apply andb_prop in Hs as [Hab Hs].
    change ((a :: b :: vs) ++ [v]) with (a :: (b :: vs) ++ [v]).
    cbn [app strictly_decreasing]. rewrite Hab. cbn [andb].
    apply IH; [exact Hs|]. right.
    destruct Hv as [Hv | Hv]; [discriminate|exact Hv].
Qed.

(** X12. A reduction that updates the watermark reports ["val/best_rmse"]
    once, with the new watermark, which is the ["val/agbd_rmse"] of the same
    reduction; a reduction that returns without an update reports no
    ["val/best_rmse"] and leaves the watermark. *)
Theorem best_validation_metric_is_the_watermark
    (RMSE : tensor2 -> tensor1 -> float)
    (sched_lr : float) (current_epoch : Z) (s s' : Model) :
  on_validation_epoch_end RMSE sched_lr current_epoch s = (Ok tt, s') ->
  let new := skipn (List.length (logged s)) (logged s') in
  let v := RMSE (unsqueeze1 (List.concat (val_preds s)))
                (List.concat (val_labels s)) in
  logged s' = logged s ++ new
  /\ values_of "val/agbd_rmse" new = [SFloat v]
  /\ (ltb v (best_val_rmse s) = true ->
      best_val_rmse s' = v
      /\ values_of "val/best_rmse" new = [SFloat (best_val_rmse s')])
  /\ (ltb v (best_val_rmse s) = false ->
      best_val_rmse s' = best_val_rmse s
      /\ values_of "val/best_rmse" new = []).
Proof.
  intros H. apply on_validation_epoch_end_ok_iff in H as [_ ->]. cbv zeta.
  assert (Hnew : skipn (List.length (logged s))
                   (logged (epoch_end_state RMSE sched_lr current_epoch s))
                 = epoch_end_log RMSE sched_lr current_epoch s).
  { unfold epoch_end_state. cbn [logged].
    rewrite skipn_app, skipn_all, Nat.sub_diag. reflexivity. }
  rewrite Hnew.
  destruct (epoch_end_log_val_values RMSE sched_lr current_epoch s)
    as [Hv Hb].
  split; [reflexivity|]. split; [exact Hv|].
  unfold epoch_end_state. cbn [best_val_rmse].
  change (ltb (RMSE (unsqueeze1 (List.concat (val_preds s)))
                    (List.concat (val_labels s))) (best_val_rmse s))
    with (improves RMSE s).
  split; intros Hi; rewrite Hi in *; split; (reflexivity || exact Hb).
Qed.

Lemma best_validation_metric_is_the_watermark_witness :
  let s := accumulate (list float) (const_model 15) (pass_batches 10) fresh in
  let s' := snd (on_validation_epoch_end RMSE_ref lr_example 0 s) in
  best_val_rmse s' = of_Z 10
  /\ values_of "val/best_rmse" (logged s') = [SFloat (of_Z 10)].
Proof.
  cbv zeta.
  destruct (best_validation_metric_is_the_watermark RMSE_ref lr_example 0
              (accumulate (list float) (const_model 15) (pass_batches 10)
                 fresh)
              (snd (on_validation_epoch_end RMSE_ref lr_example 0
                      (accumulate (list float) (const_model 15)
                         (pass_batches 10) fresh)))
              ltac:(vm_compute; reflexivity))
    as (_ & _ & H & _).
  cbv zeta in H. destruct (H ltac:(vm_compute; reflexivity)) as [Hb Hv].
  split; [exact Hb|]. vm_compute. reflexivity.
Defined.

Section WatermarkAlongHooks.

Variable images : Type.
Variable model : images -> tensor4.
Variable TrainLoss : Z -> string -> tensor2 -> tensor1 -> result float.
Variable torch_mean : tensor1 -> float.
Variable RMSE : tensor2 -> tensor1 -> float.

(** The watermark is a lower bound of the validation RMSE of the completed
    reductions, and it is attained. *)
Lemma run_hooks_minimum (hs : list (hook images)) (s : Model) :
  is_nan (best_val_rmse s) = false ->
  let w := best_val_rmse
             (run_hooks images model TrainLoss torch_mean RMSE hs s) in
  let seen :=
    completed_val_rmses images model TrainLoss torch_mean RMSE hs s in
  leb w (best_val_rmse s) = true
  /\ (forall v, In v seen -> is_nan v = false -> leb w v = true)
  /\ (w = best_val_rmse s \/ In w seen).
Proof.
  cbv zeta. revert s. induction hs as [|h hs IH]; intros s Hs.
  - cbn. split; [now apply leb_refl|]. split; [tauto|now left].
  - rewrite completed_val_rmses_cons. cbn [run_hooks].
    destruct (run_hook_best images model TrainLoss torch_mean RMSE h s)
      as [Hb _].
    cbv zeta in Hb.
    set (s1 := run_hook images model TrainLoss torch_mean RMSE h s) in *.
    set (completed := match h with
                      | OnValidation (EpochEnd _ _) => drain_ready s
                      | _ => false
                      end) in *.
    assert (Hle : leb (best_val_rmse s1) (best_val_rmse s) = true).
    { rewrite Hb. destruct completed; cbn [andb]; [|now apply leb_refl].
      unfold improves. destruct (ltb _ _) eqn:E;
        [now apply ltb_leb|now apply leb_refl]. }
    assert (Hs1 : is_nan (best_val_rmse s1) = false)
      by exact (leb_not_nan_l _ _ Hle).
    destruct (IH s1 Hs1) as (I1 & I2 & I3).
    split; [eapply leb_trans; eassumption|]. split.
    + intros v Hin Hv. apply in_app_or in Hin. destruct Hin as [Hin | Hin];
        [|now apply I2].
      destruct completed; [|destruct Hin].
      destruct Hin as [<- | []]. eapply leb_trans; [exact I1|].
      rewrite Hb. cbn [andb]. unfold improves.
      destruct (ltb (val_rmse RMSE s) (best_val_rmse s)) eqn:E;
        [now apply leb_refl|now apply ltb_false_leb].
    + destruct I3 as [I3 | I3]; [|right; apply in_or_app; now right].
      rewrite I3, Hb. destruct completed; cbn [andb]; [|now left].
      destruct (improves RMSE s); [|now left].
      right. apply in_or_app. left. now left.
Qed.

(** The values reported as best validation RMSE are strictly decreasing and
    the watermark is the last of them. *)
Lemma run_hooks_history (hs : list (hook images)) (s : Model)
    (vs : list float) :
  values_of "val/best_rmse" (logged s) = map SFloat vs ->
  strictly_decreasing vs = true ->
  best_val_rmse s = last vs inf ->
  exists vs',
    values_of "val/best_rmse"
      (logged (run_hooks images model TrainLoss torch_mean RMSE hs s))
    = map SFloat (vs ++ vs')
    /\ strictly_decreasing (vs ++ vs') = true
    /\ best_val_rmse (run_hooks images model TrainLoss torch_mean RMSE hs s)
       = last (vs ++ vs') inf.
Proof.
  revert s vs. induction hs as [|h hs IH]; intros s vs Hvs Hdec Hlast.
  - exists []. rewrite app_nil_r. cbn. auto.
  - cbn [run_hooks].
    destruct (run_hook_best images model TrainLoss torch_mean RMSE h s)
      as (Hb & calls & Hl & Hc).
    cbv zeta in Hb, Hl, Hc.
    set (s1 := run_hook images model TrainLoss torch_mean RMSE h s) in *.
    destruct ((match h with
               | OnValidation (EpochEnd _ _) => drain_ready s
               | _ => false
               end) && improves RMSE s) eqn:E.
    + apply andb_prop in E as [_ Himp].
      destruct (IH s1 (vs ++ [val_rmse RMSE s])) as (vs' & H1 & H2 & H3).
      * rewrite Hl, values_of_app, Hvs, Hc, map_app. reflexivity.
      * apply (strictly_decreasing_snoc vs _ inf); [exact Hdec|].
        right. rewrite <- Hlast. exact Himp.
      * rewrite Hb, last_last. reflexivity.
      * exists (val_rmse RMSE s :: vs').
        change (vs ++ val_rmse RMSE s :: vs')
          with (vs ++ [val_rmse RMSE s] ++ vs').
        rewrite app_assoc. auto.
    + destruct (IH s1 vs) as (vs' & H1 & H2 & H3).
      * rewrite Hl, values_of_app, Hvs, Hc, app_nil_r. reflexivity.
      * exact Hdec.
      * rewrite Hb. exact Hlast.
      * exists vs'. auto.
Qed.

End WatermarkAlongHooks.

(** X13. Along every run from a new object the watermark is the minimum of
    the validation RMSE of the reductions that returned: it is at most each
    of them that is not NaN, and it is one of them, or positive infinity as
    at the start. *)
Theorem watermark_is_the_minimum
    (images : Type) (model : images -> tensor4)
    (TrainLoss : Z -> string -> tensor2 -> tensor1 -> result float)
    (torch_mean : tensor1 -> float) (RMSE : tensor2 -> tensor1 -> float)
    (n : Z) (lr0 : float) (ss : Z) (g : float) (ps : list Z) (ds : bool)
    (lf : string) (s0 : Model) (hs : list (hook images)) :
  __init__ n lr0 ss g ps ds lf = Ok s0 ->
  let w := best_val_rmse
             (run_hooks images model TrainLoss torch_mean RMSE hs s0) in
  let seen :=
    completed_val_rmses images model TrainLoss torch_mean RMSE hs s0 in
  (forall v, In v seen -> is_nan v = false -> leb w v = true)
  /\ (w = inf \/ In w seen)
  /\ is_nan w = false.
Proof.
  intros Hinit. cbv zeta.
  destruct (init_watermark _ _ _ _ _ _ _ _ Hinit) as (Hinf & _).
  assert (H0 : is_nan (best_val_rmse s0) = false) by now rewrite Hinf.
  destruct (run_hooks_minimum images model TrainLoss torch_mean RMSE hs s0 H0)
    as (H1 & H2 & H3).
  split; [exact H2|]. split; [now rewrite <- Hinf|].
  exact (leb_not_nan_l _ _ H1).
Qed.

Lemma watermark_is_the_minimum_witness :
  completed_val_rmses (list float) (const_model 15) TrainLoss_ref mean_ref
    RMSE_ref three_passes fresh = [of_Z 10; of_Z 8; of_Z 9]
  /\ leb (best_val_rmse
            (run_hooks (list float) (const_model 15) TrainLoss_ref mean_ref
               RMSE_ref three_passes fresh)) (of_Z 9) = true.
Proof.
  assert (E : completed_val_rmses (list float) (const_model 15) TrainLoss_ref
                mean_ref RMSE_ref three_passes fresh
              = [of_Z 10; of_Z 8; of_Z 9]) by (vm_compute; reflexivity).
  split; [exact E|].
  apply (watermark_is_the_minimum (list float) (const_model 15) TrainLoss_ref
           mean_ref RMSE_ref
           1 lr_example 10 (SFdiv prec emax (of_Z 1) (of_Z 2)) [15; 15] false
           "MSE" fresh three_passes eq_refl).
  - rewrite E. right. right. now left.
  - reflexivity.
Defined.

(** X14. Along every run from a new object the values reported as
    ["val/best_rmse"] are strictly decreasing, and the watermark is the last
    of them (positive infinity when there is none). *)
Theorem best_history_is_strictly_decreasing
    (images : Type) (model : images -> tensor4)
    (TrainLoss : Z -> string -> tensor2 -> tensor1 -> result float)
    (torch_mean : tensor1 -> float) (RMSE : tensor2 -> tensor1 -> float)
    (n : Z) (lr0 : float) (ss : Z) (g : float) (ps : list Z) (ds : bool)
    (lf : string) (s0 : Model) (hs : list (hook images)) :
  __init__ n lr0 ss g ps ds lf = Ok s0 ->
  let s := run_hooks images model TrainLoss torch_mean RMSE hs s0 in
  exists vs,
    values_of "val/best_rmse" (logged s) = map SFloat vs
    /\ strictly_decreasing vs = true
    /\ best_val_rmse s = last vs inf.
Proof.
  intros Hinit. cbv zeta.
  destruct (init_watermark _ _ _ _ _ _ _ _ Hinit)
    as (Hinf & _ & _ & _ & _ & Hlog).
  destruct (run_hooks_history images model TrainLoss torch_mean RMSE hs s0 [])
    as (vs & H1 & H2 & H3).
  - now rewrite Hlog.
  - reflexivity.
  - exact Hinf.
  - exists vs. auto.
Qed.

Lemma best_history_is_strictly_decreasing_witness :
  let s := run_hooks (list float) (const_model 15) TrainLoss_ref mean_ref
             RMSE_ref three_passes fresh in
  values_of "val/best_rmse" (logged s) = map SFloat [of_Z 10; of_Z 8]
  /\ best_val_rmse s = of_Z 8.
Proof.
  cbv zeta.
  destruct (best_history_is_strictly_decreasing (list float) (const_model 15)
              TrainLoss_ref mean_ref RMSE_ref
              1 lr_example 10 (SFdiv prec emax (of_Z 1) (of_Z 2)) [15; 15]
              false "MSE" fresh three_passes eq_refl) as (vs & _ & _ & _).
  split; vm_compute; reflexivity.
Defined.

Lemma distinct_NoDup (l : list string) : distinct l = true -> NoDup l.
Proof.
  induction l as [|k l IH]; intros H; [constructor|].
  cbn [distinct] in H. apply andb_prop in H as [Hk Hl].
  constructor; [|now apply IH].
  intros Hin. apply negb_true_iff in Hk.
  assert (E : existsb (String.eqb k) l = true)
    by (apply existsb_exists; exists k; split;
        [exact Hin|apply String.eqb_refl]).
  congruence.
Qed.

Lemma bin_entries_tagged (RMSE : tensor2 -> tensor1 -> float)
    (prefix : string) (preds : tensor2) (labels : tensor1) (epoch : Z) :
  Forall (tagged epoch) (bin_entries RMSE prefix preds labels epoch).
Proof.
  unfold bin_entries. apply Forall_forall. intros d Hd.
  apply in_map_iff in Hd as (b & <- & _). unfold bin_entry, tagged.
  now eexists _, _.
Qed.

(** X15. The calls of a reduction that returns each carry one metric and
    the step, which is the current epoch; there are 23 of them, and 35 when
    the watermark is updated, and no metric name occurs twice. *)
Theorem reduction_calls_are_tagged
    (RMSE : tensor2 -> tensor1 -> float)
    (sched_lr : float) (current_epoch : Z) (s s' : Model) :
  on_validation_epoch_end RMSE sched_lr current_epoch s = (Ok tt, s') ->
  let new := skipn (List.length (logged s)) (logged s') in
  logged s' = logged s ++ new
  /\ Forall (tagged current_epoch) new
  /\ List.length new
     = (if ltb (RMSE (unsqueeze1 (List.concat (val_preds s)))
                     (List.concat (val_labels s))) (best_val_rmse s)
        then 35%nat else 23%nat)
  /\ NoDup (metric_names new).
Proof.
  intros H. apply on_validation_epoch_end_ok_iff in H as [_ ->]. cbv zeta.
  assert (Hnew : skipn (List.length (logged s))
                   (logged (epoch_end_state RMSE sched_lr current_epoch s))
                 = epoch_end_log RMSE sched_lr current_epoch s).
  { unfold epoch_end_state. cbn [logged].
    rewrite skipn_app, skipn_all, Nat.sub_diag. reflexivity. }
  rewrite Hnew. split; [reflexivity|].
  change (ltb (RMSE (unsqueeze1 (List.concat (val_preds s)))
                    (List.concat (val_labels s))) (best_val_rmse s))
    with (improves RMSE s).
  split; [|split].
  - unfold epoch_end_log, best_log.
    assert (Ht : forall k v,
              tagged current_epoch
                [(k, SFloat v); ("step", SInt current_epoch)])
      by (intros k v; now exists k, v).
    repeat first [ apply Forall_cons; [apply Ht|]
                 | apply Forall_app; split; [apply bin_entries_tagged|] ].
    destruct (improves RMSE s);
      repeat first [ apply Forall_cons; [apply Ht|]
                   | apply bin_entries_tagged
                   | apply Forall_nil ].
  - unfold epoch_end_log, best_log. rewrite !bin_entries_dicts.
    destruct (improves RMSE s); reflexivity.
  - apply distinct_NoDup.
    unfold epoch_end_log, best_log. rewrite !bin_entries_dicts.
    generalize (val_rmse RMSE s) (test_rmse RMSE s)
      (bin_value RMSE (cat_val_preds s) (cat_val_labels s))
      (bin_value RMSE (cat_test_preds s) (cat_test_labels s)).
    intros vr tr fv ft.
    destruct (improves RMSE s); vm_compute; reflexivity.
Qed.

Lemma reduction_calls_are_tagged_witness :
  let s := accumulate (list float) (const_model 15) (pass_batches 10) fresh in
  let s' := snd (on_validation_epoch_end RMSE_ref lr_example 4 s) in
  List.length (logged s') = 35%nat
  /\ Forall (tagged 4) (logged s').
Proof.
  cbv zeta.
  destruct (reduction_calls_are_tagged RMSE_ref lr_example 4
              (accumulate (list float) (const_model 15) (pass_batches 10)
                 fresh)
              (snd (on_validation_epoch_end RMSE_ref lr_example 4
                      (accumulate (list float) (const_model 15)
                         (pass_batches 10) fresh)))
              ltac:(vm_compute; reflexivity))
    as (_ & Ht & _ & _).
  split; [vm_compute; reflexivity|exact Ht].
Defined.

(** X16. The checkpoint callback and the early-stopping callback of
    [train.py] monitor the same metric, and that metric is what every
    reduction that returns reports once, with the validation RMSE of the
    reduction; a reduction that finds no validation batch reports no value
    for it. *)
Theorem callbacks_monitor_the_validation_rmse
    (RMSE : tensor2 -> tensor1 -> float)
    (dir fname : string) (patience : Z) (min_delta : float)
    (sched_lr : float) (current_epoch : Z) (s : Model) :
  let checkpoint := Train.get_model_checkpoint_callback dir fname in
  let stopping := Train.get_early_stopping_callback patience min_delta in
  let r := on_validation_epoch_end RMSE sched_lr current_epoch s in
  let new := skipn (List.length (logged s)) (logged (snd r)) in
  ModelCheckpoint.monitor checkpoint = EarlyStopping.monitor stopping
  /\ (fst r = Ok tt ->
      values_of (ModelCheckpoint.monitor checkpoint) new
      = [SFloat (RMSE (unsqueeze1 (List.concat (val_preds s)))
                      (List.concat (val_labels s)))])
  /\ (val_preds s = [] ->
      values_of (ModelCheckpoint.monitor checkpoint) new = []).
Proof.
  cbv zeta. split; [reflexivity|].
  rewrite on_validation_epoch_end_outcome.
  assert (Hskip : forall calls t,
            logged t = logged s ->
            skipn (List.length (logged s))
                  (logged (set_logged (logged s ++ calls) t)) = calls).
  { intros calls t _. cbn [logged set_logged].
    rewrite skipn_app, skipn_all, Nat.sub_diag. reflexivity. }
  destruct (drain_ready s) eqn:Hready; cbn [fst snd].
  - split.
    + intros _. unfold epoch_end_state. cbn [logged].
      rewrite skipn_app, skipn_all, Nat.sub_diag. cbn [skipn app].
      apply epoch_end_log_val_values.
    + intros Hvp. unfold drain_ready in Hready. rewrite Hvp in Hready.
      discriminate Hready.
  - split; [discriminate|].
    intros Hvp. unfold raised_state. rewrite Hskip
      by (destruct (val_ready s); reflexivity).
    unfold raised_log, val_ready. rewrite Hvp. reflexivity.
Qed.

Lemma callbacks_monitor_the_validation_rmse_witness :
  let s := accumulate (list float) (const_model 15) (pass_batches 10) fresh in
  values_of "val/agbd_rmse"
    (logged (snd (on_validation_epoch_end RMSE_ref lr_example 0 s)))
  = [SFloat (of_Z 10)].
Proof.
  cbv zeta.
  destruct (callbacks_monitor_the_validation_rmse RMSE_ref "ckpt" "run"
              5 lr_example lr_example 0
              (accumulate (list float) (const_model 15) (pass_batches 10)
                 fresh)) as (_ & H & _).
  cbv zeta in H. specialize (H ltac:(vm_compute; reflexivity)).
  vm_compute. reflexivity.
Defined.

(** ** The training script *)

Lemma py_getitem_last {A} (l : list A) (d : A) :
  l <> [] -> py_getitem l (-1) = Ok (last l d).
Proof.
  intros Hne. unfold py_getitem, py_index.
  assert (Hlen : (0 < List.length l)%nat)
    by (destruct l; [congruence|cbn; lia]).
  cbn [Z.leb Z.compare andb].
  destruct (Z.leb_spec (- Z.of_nat (List.length l)) (-1)) as [_|Hc]; [|lia].
  cbn [Z.ltb Z.compare andb].
  rewrite (app_removelast_last d Hne) at 1.
  replace (Z.to_nat (-1 + Z.of_nat (List.length l)))
    with (List.length (removelast l)).
  - rewrite nth_error_app2, Nat.sub_diag by lia. reflexivity.
  - pose proof (f_equal (@List.length A) (app_removelast_last d Hne)) as E.
    rewrite length_app in E. cbn in E. lia.
Qed.

Section SplitFacts.

Variable sep : ascii.

Lemma split_nonempty (s : string) : Train.split sep s <> [].
Proof.
  destruct s as [|c s]; cbn; [discriminate|].
  destruct (Ascii.eqb c sep); [discriminate|].
  destruct (Train.split sep s); discriminate.
Qed.

(** Joining the pieces with the separator gives the string back. *)
Lemma split_join (s : string) :
  String.concat (String sep EmptyString) (Train.split sep s) = s.
Proof.
  induction s as [|c s IH]; [reflexivity|].
  cbn [Train.split]. destruct (Ascii.eqb_spec c sep) as [-> | Hc].
  - pose proof (split_nonempty s) as Hne.
    destruct (Train.split sep s) as [|w ws]; [congruence|].
    cbn [String.concat String.append] in *. now rewrite IH.
  - pose proof (split_nonempty s) as Hne.
    destruct (Train.split sep s) as [|w ws]; [congruence|].
    destruct ws as [|w' ws]; cbn [String.concat String.append] in *;
      now rewrite IH.
Qed.

Lemma split_no_sep (s : string) :
  Forall (fun w => has_char sep w = false) (Train.split sep s).
Proof.
  induction s as [|c s IH]; [repeat constructor|].
  cbn [Train.split]. destruct (Ascii.eqb c sep) eqn:Hc.
  - constructor; [reflexivity|exact IH].
  - destruct (Train.split sep s) as [|w ws]; [repeat constructor; cbn;
                                               now rewrite Hc|].
    inversion IH as [|? ? Hw Hws]; subst.
    constructor; [cbn; now rewrite Hc, Hw|exact Hws].
Qed.

Lemma split_without_sep (s : string) :
  has_char sep s = false -> Train.split sep s = [s].
Proof.
  induction s as [|c s IH]; intros H; [reflexivity|].
  cbn [has_char] in H. apply orb_false_elim in H as [Hc Hs].
  cbn [Train.split]. rewrite Hc, (IH Hs). reflexivity.
Qed.

Lemma append_assoc (a b c : string) :
  String.append (String.append a b) c = String.append a (String.append b c).
Proof. induction a as [|x a IH]; cbn; [reflexivity|now rewrite IH]. Qed.

Lemma concat_last (ws : list string) :
  ws <> [] ->
  exists pre,
    String.concat (String sep EmptyString) ws
    = String.append pre (last ws EmptyString)
    /\ (pre = EmptyString
        \/ exists pre', pre = String.append pre' (String sep EmptyString)).
Proof.
  induction ws as [|w ws IH]; intros Hne; [congruence|].
  destruct ws as [|w' ws].
  - exists EmptyString. cbn. auto.
  - destruct IH as (pre & Hc & Hpre); [discriminate|].
    change (last (w :: w' :: ws) EmptyString)
      with (last (w' :: ws) EmptyString).
    change (String.concat (String sep EmptyString) (w :: w' :: ws))
      with (String.append w
              (String.append (String sep EmptyString)
                 (String.concat (String sep EmptyString) (w' :: ws)))).
    rewrite Hc.
    exists (String.append w (String.append (String sep EmptyString) pre)).
    split; [now rewrite !append_assoc|].
    right. destruct Hpre as [-> | (pre' & ->)].
    + exists w. reflexivity.
    + exists (String.append w (String.append (String sep EmptyString) pre')).
      now rewrite !append_assoc.
Qed.

(** The last piece is the end of the string, after the last separator. *)
Lemma split_last_suffix (s : string) :
  exists pre,
    s = String.append pre (last (Train.split sep s) EmptyString)
    /\ (pre = EmptyString
        \/ exists pre', pre = String.append pre' (String sep EmptyString)).
Proof.
  destruct (concat_last (Train.split sep s) (split_nonempty s))
    as (pre & Hc & Hpre).
  rewrite split_join in Hc. now exists pre.
Qed.

Lemma has_char_append (a b : string) :
  has_char sep (String.append a b) = has_char sep a || has_char sep b.
Proof.
  induction a as [|x a IH]; cbn; [reflexivity|].
  now rewrite IH, orb_assoc.
Qed.

End SplitFacts.

(** X17. The model name of line 105, the part of [args.model_name] after
    its last ['/'], always exists ([[-1]] never raises): it has no ['/'],
    the argument is a prefix that is empty or ends with ['/'] followed by
    it, it is the argument itself when that has no ['/'], and taking it
    again changes nothing.  The run is named after it unless it is
    ['local'], when the run has the name Weights & Biases gave the
    experiment (lines 106-109); the file name of the best checkpoint is the
    name of the run followed by ["_best"], in the directory
    [args.model_path], and has no ['/'] for a run that is not local. *)
Theorem model_name_is_the_last_segment
    (model_path experiment_name args_model_name : string) :
  exists name pre,
    Train.model_name args_model_name = Ok name
    /\ has_char "/" name = false
    /\ args_model_name = String.append pre name
    /\ (pre = EmptyString \/ exists pre', pre = String.append pre' "/")
    /\ (has_char "/" args_model_name = false -> name = args_model_name)
    /\ Train.model_name name = Ok name
    /\ Train.run_name experiment_name args_model_name
       = Ok (if String.eqb name "local" then experiment_name else name)
    /\ Train.checkpoint_callback model_path experiment_name args_model_name
       = Ok (ModelCheckpoint.make "val/agbd_rmse" model_path
               (String.append
                  (if String.eqb name "local" then experiment_name else name)
                  "_best") 1 "min" true)
    /\ Train.best_checkpoint_filename model_path experiment_name
         args_model_name
       = Ok (String.append
               (if String.eqb name "local" then experiment_name else name)
               "_best")
    /\ (name = "local" ->
        Train.best_checkpoint_filename model_path experiment_name
          args_model_name
        = Ok (String.append experiment_name "_best"))
    /\ (name <> "local" ->
        Train.best_checkpoint_filename model_path experiment_name
          args_model_name
        = Ok (String.append name "_best")
        /\ has_char "/" (String.append name "_best") = false).
Proof.
  pose proof (split_nonempty "/" args_model_name) as Hne.
  pose proof (py_getitem_last (Train.split "/" args_model_name) EmptyString
                Hne) as Hget.
  destruct (split_last_suffix "/" args_model_name) as (pre & Hs & Hpre).
  set (name := last (Train.split "/" args_model_name) EmptyString) in *.
  assert (Hno : has_char "/" name = false).
  { pose proof (split_no_sep "/" args_model_name) as Hall.
    rewrite Forall_forall in Hall. apply Hall.
    unfold name.
    rewrite (app_removelast_last EmptyString Hne) at 2.
    apply in_or_app. right. now left. }
  assert (Hagain : Train.model_name name = Ok name).
  { unfold Train.model_name. rewrite (split_without_sep "/" name Hno).
    reflexivity. }
  assert (Hrun : Train.run_name experiment_name args_model_name
                 = Ok (if String.eqb name "local" then experiment_name
                       else name)).
  { unfold Train.run_name, Train.model_name. rewrite Hget.
    now destruct (String.eqb name "local"). }
  assert (Hfile : Train.best_checkpoint_filename model_path experiment_name
                    args_model_name
                  = Ok (String.append
                          (if String.eqb name "local" then experiment_name
                           else name) "_best")).
  { unfold Train.best_checkpoint_filename, Train.checkpoint_callback.
    rewrite Hrun. reflexivity. }
  exists name, pre.
  split; [exact Hget|]. split; [exact Hno|]. split; [exact Hs|].
  split; [exact Hpre|]. split.
  { intros H. unfold name.
    now rewrite (split_without_sep "/" args_model_name H). }
  split; [exact Hagain|]. split; [exact Hrun|]. split.
  { unfold Train.checkpoint_callback. rewrite Hrun. reflexivity. }
  split; [exact Hfile|]. split.
  - intros Hlocal. rewrite Hfile. apply String.eqb_eq in Hlocal.
    now rewrite Hlocal.
  - intros Hlocal. apply String.eqb_neq in Hlocal.
    rewrite Hfile, Hlocal. split; [reflexivity|].
    rewrite has_char_append, Hno. reflexivity.
Qed.

Lemma model_name_is_the_last_segment_witness :
  Train.model_name "runs/12345/7" = Ok "7"
  /\ Train.model_name "local" = Ok "local"
  /\ Train.model_name "runs/" = Ok EmptyString
  /\ Train.best_checkpoint_filename "ckpt" "fancy-sun-3" "local"
     = Ok "fancy-sun-3_best"
  /\ Train.best_checkpoint_filename "ckpt" "fancy-sun-3" "runs/12345/7"
     = Ok "7_best".
Proof.
  destruct (model_name_is_the_last_segment "ckpt" "fancy-sun-3" "local")
    as (name & pre & H & _ & _ & _ & Hsame & _ & _ & _ & _ & Hlocal & _).
  rewrite (Hsame eq_refl) in H.
  split; [reflexivity|]. split; [exact H|]. split; [reflexivity|].
  split; [|reflexivity].
  rewrite (Hlocal (Hsame eq_refl)). reflexivity.
Defined.

(** X18. The settings of lines 81-87: a local run uses 8 workers whatever
    the environment; any other run needs [SLURM_CPUS_PER_TASK]: when it is
    not set, [int(None)] raises a [TypeError] and the value 8 of line 87 is
    not used, when it is not an integer [int] raises a [ValueError].  A
    result with 8 workers from line 87 does not exist: a run that is not
    local has the number of workers of the environment. *)
Theorem workers_come_from_the_environment
    (int_of_str : string -> option Z)
    (args_dataset_path : string) (slurm_cpus : option string) :
  let r := Train.settings int_of_str args_dataset_path slurm_cpus in
  (args_dataset_path = "local" -> r = inr ("auto", 8))
  /\ (args_dataset_path <> "local" -> slurm_cpus = None ->
      r = inl Train.IntTypeError)
  /\ (args_dataset_path <> "local" ->
      forall value, slurm_cpus = Some value ->
        r = match int_of_str value with
            | Some k => inr ("gpu", k)
            | None => inl Train.IntValueError
            end)
  /\ (forall accelerator cpus_per_task,
        r = inr (accelerator, cpus_per_task) ->
        (args_dataset_path = "local" /\ accelerator = "auto"
         /\ cpus_per_task = 8)
        \/ (args_dataset_path <> "local" /\ accelerator = "gpu"
            /\ exists value, slurm_cpus = Some value
                             /\ int_of_str value = Some cpus_per_task)).
Proof.
  cbv zeta. unfold Train.settings, Train.int_of_env.
  destruct (String.eqb_spec args_dataset_path "local") as [Hl | Hl].
  - split; [reflexivity|]. split; [contradiction|]. split; [contradiction|].
    intros a c H. injection H as <- <-. left. auto.
  - split; [contradiction|]. split.
    + intros _ ->. reflexivity.
    + split.
      * intros _ value ->. destruct (int_of_str value); reflexivity.
      * intros a c H. right. destruct slurm_cpus as [value|]; [|discriminate].
        destruct (int_of_str value) as [k|] eqn:E; [|discriminate].
        injection H as <- <-. split; [exact Hl|]. split; [reflexivity|].
        now exists value.
Qed.

Lemma workers_come_from_the_environment_witness :
  Train.settings (fun _ => Some 4) "/cluster/data" None
  = inl Train.IntTypeError
  /\ Train.settings (fun _ => Some 4) "local" None = inr ("auto", 8).
Proof.
  destruct (workers_come_from_the_environment (fun _ => Some 4)
              "/cluster/data" None) as (_ & H & _).
  destruct (workers_come_from_the_environment (fun _ => Some 4)
              "local" None) as (H' & _).
  split; [apply H; [discriminate|reflexivity]|apply H'; reflexivity].
Defined.

(** ** The center pixel and the prediction map *)

(** X19. For a square prediction map whose side is the patch size - or a
    fifth of it with downsampling - and that has a channel, the center the
    constructor computes is a pixel of the map, so that reading the center
    pixel does not raise; for an odd side it is the middle pixel, with as
    many pixels before it as after it. *)
Theorem center_is_a_pixel_of_the_map
    (n : Z) (lr0 : float) (ss : Z) (g : float) (p : Z) (rest : list Z)
    (ds : bool) (lf : string) (s0 : Model) (t : tensor4) :
  __init__ n lr0 ss g (p :: rest) ds lf = Ok s0 ->
  let side := if ds then p / 5 else p in
  1 <= side ->
  dimH t = Z.to_nat side -> dimW t = Z.to_nat side -> dimC t <> 0%nat ->
  0 <= center s0 < side
  /\ center s0 = side / 2
  /\ valid_output t (center s0) = true
  /\ (exists predictions,
        slice_hw t (center s0) (center s0) = Ok predictions
        /\ is_ok (column0 predictions) = true)
  /\ (Z.odd side = true -> center s0 = side - 1 - center s0).
Proof.
  intros Hinit side Hside HH HW HC.
  assert (Hc : center s0 = side / 2).
  { unfold __init__ in Hinit. subst side.
    destruct ds; cbn in Hinit; injection Hinit as <-; reflexivity. }
  assert (Hrange : 0 <= center s0 < side).
  { rewrite Hc. split; [apply Z.div_pos; lia|].
    apply Z.div_lt_upper_bound; lia. }
  assert (Hidx : py_index (center s0) (Z.to_nat side)
                 = Ok (Z.to_nat (center s0))).
  { unfold py_index. rewrite Z2Nat.id by lia.
    destruct (Z.leb_spec 0 (center s0)); [|lia].
    destruct (Z.ltb_spec (center s0) side); [|lia]. reflexivity. }
  split; [exact Hrange|]. split; [exact Hc|].
  assert (Hvalid : valid_output t (center s0) = true).
  { unfold valid_output. rewrite HH, HW, Hidx. cbn.
    now apply Nat.eqb_neq in HC as ->. }
  split; [exact Hvalid|]. split.
  - unfold slice_hw. rewrite HH, HW, Hidx. eexists. split; [reflexivity|].
    unfold column0. cbn. destruct (dimC t); [congruence|reflexivity].
  - intros Hodd. rewrite Hc.
    rewrite (Z.div_mod side 2) at 2 by lia.
    rewrite Zmod_odd, Hodd. lia.
Qed.

Lemma center_is_a_pixel_of_the_map_witness :
  valid_output (const_model 15 (floats [12; 58])) 7 = true
  /\ valid_output (const_model 3 (floats [12; 58])) 1 = true.
Proof.
  split.
  - apply (center_is_a_pixel_of_the_map 1 lr_example 10
             (SFdiv prec emax (of_Z 1) (of_Z 2)) 15 [15]
             false "MSE" fresh (const_model 15 (floats [12; 58])) eq_refl);
      cbn; (lia || reflexivity || discriminate).
  - apply (center_is_a_pixel_of_the_map 1 lr_example 10 lr_example 15 [15]
             true "MSE"
             (mkModel 1 lr_example 10 lr_example inf 1 "MSE"
                [] [] [] [] [] [] [])
             (const_model 3 (floats [12; 58])) eq_refl);
      cbn; (lia || reflexivity || discriminate).
Defined.
